(** * DOCX splitter: a shallow embedding of [test2.py] and [test3.py]

    The two scripts split a Word document into one output document per
    "Heading 1" section.  This development embeds their block model, the
    paragraph and table copiers, the heading segmentation and the driver
    [split_docx_by_heading_with_images], and states the properties of
    the recomposition engine over these definitions.

    Conventions of the embedding:
    - a Python [str] is a Rocq [string]; its characters are the code
      points below 256, with Python's [str.isspace] and [str.isalnum]
      tables restricted to that range;
    - the lxml tree behind a python-docx proxy is a record; a call that
      mutates the tree returns the new record, also for the SOURCE
      paragraph where lxml re-parents an element;
    - the file system, the progress callback and [print] live in a
      [World] threaded through a state-and-exception monad: the world
      reached when an exception escapes is kept;
    - a path names what it leads to as it is written: the world holds
      the directories and the files under the paths they were made
      with, and links and permissions are not part of it. *)

From Stdlib Require Import ZArith String Ascii List Lia Bool.
From stdpp Require Import gmap strings list sorting pretty.

Local Open Scope string_scope.
Local Open Scope list_scope.
Local Open Scope nat_scope.

(** ** Python strings *)

Module PyStr.

(** [str.isspace] on one character (code points below 256). *)
Definition isspace (c : ascii) : bool :=
  let n := nat_of_ascii c in
  ((9 <=? n) && (n <=? 13)) || ((28 <=? n) && (n <=? 32))
  || (n =? 133) || (n =? 160).

Definition isdecimal (c : ascii) : bool :=
  let n := nat_of_ascii c in (48 <=? n) && (n <=? 57).

(** [str.isalnum] on one character (code points below 256): the ASCII
    letters and digits, the Latin-1 letters, and the Latin-1 characters
    with a numeric value (superscripts and vulgar fractions). *)
Definition isalnum (c : ascii) : bool :=
  let n := nat_of_ascii c in
  isdecimal c
  || ((65 <=? n) && (n <=? 90)) || ((97 <=? n) && (n <=? 122))
  || (n =? 170) || (n =? 178) || (n =? 179) || (n =? 181)
  || (n =? 185) || (n =? 186) || ((188 <=? n) && (n <=? 190))
  || ((192 <=? n) && (n <=? 214)) || ((216 <=? n) && (n <=? 246))
  || ((248 <=? n) && (n <=? 255)).

Fixpoint lstrip (s : string) : string :=
  match s with
  | String c s' => if isspace c then lstrip s' else s
  | EmptyString => EmptyString
  end.

Fixpoint rstrip (s : string) : string :=
  match s with
  | String c s' =>
      match rstrip s' with
      | EmptyString => if isspace c then EmptyString else String c EmptyString
      | r => String c r
      end
  | EmptyString => EmptyString
  end.

Definition strip (s : string) : string := rstrip (lstrip s).

(** [s[:n]] *)
Fixpoint take (n : nat) (s : string) : string :=
  match n, s with
  | S n', String c s' => String c (take n' s')
  | _, _ => EmptyString
  end.

(** ["".join(c for c in s if keep c)] *)
Fixpoint filter (keep : ascii -> bool) (s : string) : string :=
  match s with
  | String c s' => if keep c then String c (filter keep s') else filter keep s'
  | EmptyString => EmptyString
  end.

(** [sep.join(parts)] *)
Fixpoint join (sep : string) (parts : list string) : string :=
  match parts with
  | [] => ""
  | [p] => p
  | p :: rest => p +:+ sep +:+ join sep rest
  end.

(** Truthiness of a string: [bool(s)]. *)
Definition truthy (s : string) : bool :=
  match s with EmptyString => false | _ => true end.

Definition endswith_sep (s : string) : bool :=
  match String.rev s with
  | String c _ => Ascii.eqb c "/"
  | EmptyString => false
  end.

(** [os.path.join(a, b)] of [posixpath]. *)
Definition path_join (a b : string) : string :=
  match b with
  | String "/" _ => b
  | _ => if negb (truthy a) || endswith_sep a then a +:+ b else a +:+ "/" +:+ b
  end.

Definition has_sep (s : string) : bool :=
  existsb (fun c => Ascii.eqb c "/") (list_ascii_of_string s).

(** [os.path.basename(p)] of [posixpath]: what follows the last
    separator. *)
Fixpoint basename (p : string) : string :=
  match p with
  | EmptyString => EmptyString
  | String c p' =>
      if has_sep p' then basename p'
      else if Ascii.eqb c "/" then p' else p
  end.

(** [int(s)] on a string: surrounding whitespace is dropped, one sign
    is allowed, and the rest is decimal digits, single underscores
    only between two digits.  [None] stands for [ValueError]. *)
Fixpoint digits (acc : Z) (prev_digit : bool) (s : string) : option Z :=
  match s with
  | EmptyString => if prev_digit then Some acc else None
  | String c s' =>
      if isdecimal c
      then digits (10 * acc + Z.of_nat (nat_of_ascii c - 48)) true s'
      else if Ascii.eqb c "_" && prev_digit
           then match s' with
                | String d _ => if isdecimal d then digits acc false s' else None
                | EmptyString => None
                end
           else None
  end.

Definition int (s : string) : option Z :=
  match strip s with
  | String "-" s' => Z.opp <$> digits 0 false s'
  | String "+" s' => digits 0 false s'
  | s' => digits 0 false s'
  end.

End PyStr.

(** ** Python floats

    [int(cx) / 914400] is a true division of two [int]s and
    [Inches(x)] multiplies a [float]: both round to binary64. *)

Module PyFloat.

Local Open Scope Z_scope.

(** A [float] that is not a NaN: the binary64 number [m * 2^e], or an
    infinity.  The sign of a zero is not kept. *)
Inductive float :=
| Finite (m e : Z)
| Infinity (negative : bool).

(** The integer nearest to [num / den], the even one of two that are
    equally near; [0 <= num] and [0 < den]. *)
Definition round_half_even (num den : Z) : Z :=
  let q := num / den in
  match 2 * (num mod den) ?= den with
  | Lt => q
  | Gt => q + 1
  | Eq => if Z.even q then q else q + 1
  end.

(** [num / den] rounded to binary64, [0 < den]: 53 bits, the least
    exponent -1074, an infinity from [2^1024] on. *)
Definition of_ratio (num den : Z) : float :=
  if num =? 0 then Finite 0 0
  else
    let a := Z.abs num in
    let k0 := Z.log2 a - Z.log2 den in
    let k := if a * 2 ^ Z.max 0 (- k0) <? den * 2 ^ Z.max 0 k0 then k0 - 1 else k0 in
    let e := Z.max (k - 52) (-1074) in
    let m := round_half_even (a * 2 ^ Z.max 0 (- e)) (den * 2 ^ Z.max 0 e) in
    if 1024 <=? Z.log2 m + e then Infinity (num <? 0)
    else Finite (Z.sgn num * m) e.

Definition of_int (n : Z) : float := of_ratio n 1.

(** [x * y] *)
Definition mul (x y : float) : float :=
  match x, y with
  | Finite m1 e1, Finite m2 e2 =>
      let e := e1 + e2 in
      of_ratio (m1 * m2 * 2 ^ Z.max 0 e) (2 ^ Z.max 0 (- e))
  | Finite m _, Infinity s | Infinity s, Finite m _ =>
      (* a zero times an infinity is a NaN; no product of the scripts has
         a zero there *)
      Infinity (xorb s (m <? 0))
  | Infinity s1, Infinity s2 => Infinity (xorb s1 s2)
  end.

(** [int(x)]: towards zero; [None] is the [OverflowError] of an
    infinity. *)
Definition trunc (x : float) : option Z :=
  match x with
  | Finite m e => Some (if 0 <=? e then m * 2 ^ e else Z.quot m (2 ^ (- e)))
  | Infinity _ => None
  end.

(** [a / b] of two [int]s, [b] not 0: the quotient rounded once;
    [None] is the [OverflowError] of a quotient beyond the floats. *)
Definition true_divide (a b : Z) : option float :=
  match of_ratio (Z.sgn b * a) (Z.abs b) with
  | Infinity _ => None
  | x => Some x
  end.

End PyFloat.

(** ** The block model read from the source package *)

Inductive Alignment := LEFT | CENTER | RIGHT | JUSTIFY | DISTRIBUTE.

(** [w:numPr]: the numbering reference of a paragraph. *)
Record NumPr := { numId : Z; ilvl : Z }.

(** [w:pPr]: the paragraph properties element.  [pStyle] holds the name
    under which the style catalog knows the style. *)
Record PPr := {
  pStyle : option string;
  jc : option Alignment;
  numPr : option NumPr }.

(** [wp:extent]; [cx] is the raw attribute, [None] when it is absent. *)
Record Extent := { cx : option string }.

(** [w:drawing]: the [r:embed] attribute of every [a:blip] below it
    ([None] for a blip without the attribute) and its first
    [wp:extent], if any. *)
Record Drawing := {
  blips : list (option string);
  extent : option Extent }.

Record Font := {
  font_name : option string;
  font_size : option Z;
  font_rgb : option (N * N * N) }.

(** [w:r].  [drawings] lists the [w:drawing] descendants in document
    order, as [findall(".//w:drawing")] returns them. *)
Record Run := {
  run_text : string;
  run_bold : option bool;
  run_italic : option bool;
  run_underline : option bool;
  run_font : Font;
  drawings : list Drawing }.

Record Paragraph := {
  pPr : option PPr;
  runs : list Run }.

(** [w:tbl] over blocks of type [B]: the width of each grid column and
    the rows, a row being the list of its cells and a cell the list of
    its blocks. *)
Record TableOf (B : Type) := {
  tbl_style : option string;
  tbl_autofit : bool;
  tbl_columns : list (option Z);
  tbl_rows : list (list (list B)) }.
Arguments tbl_style {B} _.
Arguments tbl_autofit {B} _.
Arguments tbl_columns {B} _.
Arguments tbl_rows {B} _.

#[warning="-register-all"]
Inductive Block :=
| BParagraph (p : Paragraph)
| BTable (t : TableOf Block).

Abbreviation Table := (TableOf Block).
Abbreviation Cell := (list Block).

(** A part reached through the relationship table: an [ImagePart], or
    a part of another class (a chart, a diagram). *)
Inductive Part :=
| ImagePart (blob : string)
| OtherPart (blob : string).

Record PageGeometry := {
  page_height : option Z; page_width : option Z;
  left_margin : option Z; right_margin : option Z;
  top_margin : option Z; bottom_margin : option Z }.

(** What [Document(docx_path)] gives: the declared sections, the
    top-level blocks of the body and [part.related_parts]. *)
Record SourceDoc := {
  src_sections : list PageGeometry;
  src_blocks : list Block;
  related_parts : gmap string Part }.

(** ** The block model built in an output document *)

(** A picture: its bytes and its width, a [Length] in EMU. *)
Record Picture := {
  pic_bytes : string;
  pic_width : Z }.

Record OutRun := {
  out_text : string;
  out_bold : option bool;
  out_italic : option bool;
  out_underline : option bool;
  out_font : Font;
  out_picture : option Picture }.

Record OutParagraph := {
  out_pPr : option PPr;
  out_runs : list OutRun }.

#[warning="-register-all"]
Inductive OutBlock :=
| OParagraph (p : OutParagraph)
| OTable (t : TableOf OutBlock).

Record OutDoc := {
  out_section : PageGeometry;
  out_blocks : list OutBlock }.

(** ** Properties read through python-docx *)

(** [paragraph.style.name]: the paragraph's style, or the default
    paragraph style of the catalog. *)
Definition style_name (p : Paragraph) : string :=
  match pPr p with
  | Some ppr => match pStyle ppr with Some s => s | None => "Normal" end
  | None => "Normal"
  end.

(** [paragraph.paragraph_format.alignment] *)
Definition alignment (p : Paragraph) : option Alignment :=
  match pPr p with
  | Some ppr => jc ppr
  | None => None
  end.

(** [paragraph.text]: the text of the runs, concatenated. *)
Definition paragraph_text (p : Paragraph) : string :=
  fold_right String.append "" (map run_text (runs p)).

(** [cell.text]: the text of the cell's own paragraphs, newline-joined. *)
Definition paragraphs_of (c : Cell) : list Paragraph :=
  omap (fun b => match b with BParagraph p => Some p | BTable _ => None end) c.

Definition cell_text (c : Cell) : string :=
  PyStr.join (String "010" "") (map paragraph_text (paragraphs_of c)).

(** ** The world: file system, progress callback, standard output *)

Inductive File :=
| SourceDocx (d : SourceDoc)
| SavedDocx (d : OutDoc)
| Blob (b : string).

Record World := {
  dirs : gset string;
  files : gmap string File;
  progress : list (nat * nat);
  printed : list string }.

Inductive Exn :=
| KeyError | AttributeError | ValueError | TypeError | IndexError | OverflowError
| FileExistsError | FileNotFoundError | IsADirectoryError
| NotADirectoryError | PackageNotFoundError | UnrecognizedImageError.

Inductive Res (A : Type) :=
| Ok (a : A)
| Raise (e : Exn).
Arguments Ok {A} a.
Arguments Raise {A} e.

(** A computation runs in a world and ends with a value or an escaping
    exception; either way the world it has reached is returned. *)
Definition M (A : Type) : Type := World -> Res A * World.

Definition ret {A} (a : A) : M A := fun w => (Ok a, w).
Definition raise {A} (e : Exn) : M A := fun w => (Raise e, w).
Definition bind {A B} (m : M A) (k : A -> M B) : M B :=
  fun w => match m w with
           | (Ok a, w') => k a w'
           | (Raise e, w') => (Raise e, w')
           end.

Notation "'let*' x ':=' m 'in' k" := (bind m (fun x => k))
  (at level 10, x pattern, m at level 100, k at level 200).
Notation "m ';;;' k" := (bind m (fun _ => k))
  (at level 100, k at level 200, right associativity).

(** [try: m  except <caught>: handler] *)
Definition try_except {A} (m : M A) (caught : Exn -> bool) (handler : M A) : M A :=
  fun w => match m w with
           | (Ok a, w') => (Ok a, w')
           | (Raise e, w') => if caught e then handler w' else (Raise e, w')
           end.

(** A [for] loop that threads an accumulator. *)
Fixpoint for_each {A S} (xs : list A) (body : A -> S -> M S) (s : S) : M S :=
  match xs with
  | [] => ret s
  | x :: xs' => let* s' := body x s in for_each xs' body s'
  end.

Module Os.

Definition with_dirs (w : World) (d : gset string) : World :=
  {| dirs := d; files := files w; progress := progress w; printed := printed w |}.
Definition with_files (w : World) (f : gmap string File) : World :=
  {| dirs := dirs w; files := f; progress := progress w; printed := printed w |}.

(** [os.path.exists(p)] *)
Definition exists_ (p : string) : M bool :=
  fun w => (Ok (bool_decide (p ∈ dirs w) || bool_decide (is_Some (files w !! p))), w).

(** [os.makedirs(p, exist_ok=True)], for a path that is not empty and
    leads through directories: what is looked at is the path itself,
    which must not be a file. *)
Definition makedirs (p : string) : M unit :=
  fun w => match files w !! p with
           | Some _ => (Raise FileExistsError, w)
           | None => (Ok tt, with_dirs w ({[p]} ∪ dirs w))
           end.

(** [p] lies in [d]: it is [d] joined with a file name. *)
Definition lies_in (p d : string) : bool :=
  String.eqb (PyStr.path_join d (PyStr.basename p)) p.

(** [with open(p, "wb") as f: f.write(content)], and the write of
    [Document.save(p)].  The directory the path lies in has to be
    there: the current directory for a bare file name, else one of the
    directories of the world; a path that ends in a separator is taken
    for a directory. *)
Definition write (p : string) (content : File) : M unit :=
  fun w =>
    if negb (PyStr.truthy (PyStr.basename p))
    then (Raise (if PyStr.truthy p then IsADirectoryError else FileNotFoundError), w)
    else if String.eqb (PyStr.basename p) p
            || bool_decide (set_Exists (fun d => lies_in p d = true) (dirs w))
    then if bool_decide (p ∈ dirs w)
         then (Raise IsADirectoryError, w)
         else (Ok tt, with_files w (<[p := content]> (files w)))
    else if bool_decide (map_Exists (fun d _ => lies_in p d = true) (files w))
    then (Raise NotADirectoryError, w)
    else (Raise FileNotFoundError, w).

(** [q] is [p] or lies below it. *)
Definition under (p q : string) : bool :=
  String.eqb q p || String.prefix (p +:+ "/") q.

(** [shutil.rmtree(p)] *)
Definition rmtree (p : string) : M unit :=
  fun w => if bool_decide (p ∈ dirs w)
           then (Ok tt,
                 {| dirs := filter (fun q => under p q = false) (dirs w);
                    files := filter (fun qf => under p qf.1 = false) (files w);
                    progress := progress w; printed := printed w |})
           else match files w !! p with
                | Some _ => (Raise NotADirectoryError, w)
                | None => (Raise FileNotFoundError, w)
                end.

(** The bytes [add_picture(p, ...)] embeds.  Every blob on disk is
    taken to be in an image format python-docx recognises. *)
Definition read_image (p : string) : M string :=
  fun w => match files w !! p with
           | Some (Blob b) => (Ok b, w)
           | Some _ => (Raise UnrecognizedImageError, w)
           | None => if bool_decide (p ∈ dirs w)
                     then (Raise IsADirectoryError, w)
                     else (Raise FileNotFoundError, w)
           end.

Definition print (line : string) : M unit :=
  fun w => (Ok tt, {| dirs := dirs w; files := files w;
                      progress := progress w; printed := printed w ++ [line] |}).

(** [progress_callback(completed, total)] *)
Definition report (completed total : nat) : M unit :=
  fun w => (Ok tt, {| dirs := dirs w; files := files w;
                      progress := progress w ++ [(completed, total)];
                      printed := printed w |}).

End Os.

(** ** Building blocks shared by the two scripts *)

Definition nl : string := String "010" "".
Definition tab : string := String "009" "".

(** The target of a copy: a [Document] or a table [_Cell], with the
    blocks of its body. *)
Inductive ContainerKind := IsDocument | IsCell.

Record Container := {
  kind : ContainerKind;
  content : list OutBlock }.

(** Appending a block to the body of a document or to a cell. *)
Definition append_block (t : Container) (b : OutBlock) : Container :=
  {| kind := kind t; content := content t ++ [b] |}.

(** The paragraph [add_paragraph()] creates: no properties, no runs. *)
Definition empty_paragraph : OutParagraph :=
  {| out_pPr := None; out_runs := [] |}.

(** [add_paragraph(text)]: a paragraph whose one run holds [text]; no
    run is made for the empty text. *)
Definition plain_run (text : string) : OutRun :=
  {| out_text := text; out_bold := None; out_italic := None;
     out_underline := None;
     out_font := {| font_name := None; font_size := None; font_rgb := None |};
     out_picture := None |}.

Definition text_paragraph (style : option string) (text : string) : OutParagraph :=
  {| out_pPr := match style with
                | Some s => Some {| pStyle := Some s; jc := None; numPr := None |}
                | None => None
                end;
     out_runs := if PyStr.truthy text then [plain_run text] else [] |}.

(** [pPr = p.get_or_add_pPr()] *)
Definition get_or_add_pPr (p : OutParagraph) : PPr :=
  match out_pPr p with
  | Some ppr => ppr
  | None => {| pStyle := None; jc := None; numPr := None |}
  end.

Definition set_style (p : OutParagraph) (name : string) : OutParagraph :=
  let ppr := get_or_add_pPr p in
  {| out_pPr := Some {| pStyle := Some name; jc := jc ppr; numPr := numPr ppr |};
     out_runs := out_runs p |}.

Definition set_alignment (p : OutParagraph) (a : option Alignment) : OutParagraph :=
  let ppr := get_or_add_pPr p in
  {| out_pPr := Some {| pStyle := pStyle ppr; jc := a; numPr := numPr ppr |};
     out_runs := out_runs p |}.

Definition add_run (p : OutParagraph) (r : OutRun) : OutParagraph :=
  {| out_pPr := out_pPr p; out_runs := out_runs p ++ [r] |}.

(** [copy_numbering(source_para, target_para)].

    [target_pPr.append(numPr)] hands lxml an element that still sits
    under the source [w:pPr]; lxml moves it, so the element leaves the
    source paragraph.  The function therefore returns both paragraphs. *)
Definition copy_numbering (source_para : Paragraph) (target_para : OutParagraph)
  : Paragraph * OutParagraph :=
  match pPr source_para with
  | None => (source_para, target_para)
  | Some source_pPr =>
      match numPr source_pPr with
      | Some n =>
          let target_pPr := get_or_add_pPr target_para in
          (* an existing numPr of the target is removed, then n appended *)
          ({| pPr := Some {| pStyle := pStyle source_pPr; jc := jc source_pPr;
                             numPr := None |};
              runs := runs source_para |},
           {| out_pPr := Some {| pStyle := pStyle target_pPr; jc := jc target_pPr;
                                 numPr := Some n |};
              out_runs := out_runs target_para |})
      | None => (source_para, target_para)
      end
  end.

(** The run [target_para.add_run(run.text)] after the assignments of
    bold, italic, underline and the font. *)
Definition copy_run (run : Run) : OutRun :=
  {| out_text := run_text run;
     out_bold := run_bold run;
     out_italic := run_italic run;
     out_underline := run_underline run;
     out_font := {| font_name := font_name (run_font run);
                    font_size := font_size (run_font run);
                    font_rgb := match font_rgb (run_font run) with
                                | Some rgb => Some rgb
                                | None => None
                                end |};
     out_picture := None |}.

(** [Inches(x)] for a [float]: the [Length] of [int(x * 914400)] EMU;
    an infinite product has no [int]. *)
Definition Inches (inches : PyFloat.float) : Res Z :=
  match PyFloat.trunc (PyFloat.mul inches (PyFloat.of_int 914400)) with
  | Some emu => Ok emu
  | None => Raise OverflowError
  end.

(** [Inches(n)] for an [int]: the product is exact. *)
Definition Inches_of_int (n : Z) : Z := (n * 914400)%Z.

(** [int(cx) / 914400] *)
Definition per_inch (n : Z) : Res PyFloat.float :=
  match PyFloat.true_divide n 914400 with
  | Some x => Ok x
  | None => Raise OverflowError
  end.

(** The run of [add_run()] after [add_picture] has put a picture of
    the given bytes and width in it. *)
Definition picture_run (b : string) (width : Z) : OutRun :=
  {| out_text := ""; out_bold := None; out_italic := None;
     out_underline := None;
     out_font := {| font_name := None; font_size := None; font_rgb := None |};
     out_picture := Some {| pic_bytes := b; pic_width := width |} |}.

(** [target_para.add_run().add_picture(img_path, width=width)] *)
Definition add_picture (p : OutParagraph) (img_path : string) (width : Z)
  : M OutParagraph :=
  let* b := Os.read_image img_path in
  ret (add_run p (picture_run b width)).

(** A run made by [add_run(text)] and then set italic. *)
Definition placeholder_run (text : string) : OutRun :=
  {| out_text := text; out_bold := None; out_italic := Some true;
     out_underline := None;
     out_font := {| font_name := None; font_size := None; font_rgb := None |};
     out_picture := None |}.

(** Truthiness of an attribute value as [get] returns it: [None] and
    the empty string are false. *)
Definition truthy_attr (rId : option string) : option string :=
  match rId with
  | Some s => if PyStr.truthy s then Some s else None
  | None => None
  end.

(** Writing the image to the scratch directory unless it is there. *)
Definition stage_image (img_path blob : string) : M unit :=
  let* there := Os.exists_ img_path in
  if there then ret tt else Os.write img_path (Blob blob).

Definition lift {A} (r : Res A) : M A := fun w => (r, w).

(** [part.blob] *)
Definition blob_of (part : Part) : string :=
  match part with
  | ImagePart blob | OtherPart blob => blob
  end.

(** [part.default_ext]: no part class of python-docx has this
    attribute, [ImagePart] included (the extension of an image is
    [part.image.ext]), so reading it raises. *)
Definition default_ext (part : Part) : M string := raise AttributeError.

(** [enumerate(xs)] *)
Definition enumerate {A} (xs : list A) : list (nat * A) :=
  zip (seq 0 (length xs)) xs.

(** [xs[start:end]] for indices that are not negative. *)
Definition slice {A} (start end_ : nat) (xs : list A) : list A :=
  take (end_ - start) (drop start xs).

(** [table.style.name], the default table style when none is set. *)
Definition table_style_name {B} (t : TableOf B) : string :=
  match tbl_style t with Some s => s | None => "Normal Table" end.

(** The page geometry of the template behind [Document()], in EMU. *)
Definition default_geometry : PageGeometry :=
  {| page_height := Some 10058400%Z; page_width := Some 7772400%Z;
     left_margin := Some 1143000%Z; right_margin := Some 1143000%Z;
     top_margin := Some 914400%Z; bottom_margin := Some 914400%Z |}.

(** [Document()]: an empty body on the template's page. *)
Definition new_document : OutDoc :=
  {| out_section := default_geometry; out_blocks := [] |}.

(** [Document(docx_path)] *)
Definition open_document (docx_path : string) : M SourceDoc :=
  fun w => match files w !! docx_path with
           | Some (SourceDocx d) => (Ok d, w)
           | _ => (Raise PackageNotFoundError, w)
           end.

(** The six assignments that carry the first section's geometry over;
    nothing is assigned when the source declares no section. *)
Definition copy_geometry (doc : SourceDoc) (current_doc : OutDoc) : OutDoc :=
  match src_sections doc with
  | ref_section :: _ =>
      {| out_section :=
           {| page_height := page_height ref_section;
              page_width := page_width ref_section;
              left_margin := left_margin ref_section;
              right_margin := right_margin ref_section;
              top_margin := top_margin ref_section;
              bottom_margin := bottom_margin ref_section |};
         out_blocks := out_blocks current_doc |}
  | [] => current_doc
  end.

(** [isinstance(block, Paragraph) and block.style.name == heading_style] *)
Definition is_heading (heading_style : string) (block : Block) : bool :=
  match block with
  | BParagraph p => String.eqb (style_name p) heading_style
  | BTable _ => false
  end.

(** The boundary list the driver builds before its main loop. *)
Definition section_indices (heading_style : string) (blocks : list Block) : list nat :=
  (match blocks with
   | first :: _ => if is_heading heading_style first then [] else [0]
   | [] => []
   end)
  ++ omap (fun ib => if is_heading heading_style ib.2 then Some ib.1 else None)
          (enumerate blocks)
  ++ [length blocks].

(** The title the loop gives to a section at loop index [i]. *)
Definition section_title (heading_style : string) (i : nat) (first_block : Block) : string :=
  let title :=
    match first_block with
    | BParagraph p =>
        if String.eqb (style_name p) heading_style
        then PyStr.strip (paragraph_text p)
        else "Introduction"
    | BTable _ => "Introduction"
    end in
  if PyStr.truthy title then title else "Section_" +:+ pretty (i + 1).

(** [f"{n:02d}"] *)
Definition format_02d (n : nat) : string :=
  if n <? 10 then "0" +:+ pretty n else pretty n.

(** The file name under which section number [i] (from 0) is saved. *)
Definition safe_title (title : string) : string :=
  PyStr.take 50
    (PyStr.rstrip
       (PyStr.filter
          (fun c => PyStr.isalnum c
                    || Ascii.eqb c " " || Ascii.eqb c "_" || Ascii.eqb c "-")
          title)).

Definition out_name (i : nat) (title : string) : string :=
  format_02d (i + 1) +:+ "_" +:+ safe_title title +:+ ".docx".

(** The loop that saves the sections and reports progress. *)
Definition save_sections (output_dir : string) (progress_callback : bool)
    (sections : list (string * OutDoc)) : M unit :=
  let total := length sections in
  for_each (enumerate sections)
    (fun '(i, (title, section_doc)) _ =>
       let out_path := PyStr.path_join output_dir (out_name i title) in
       Os.write out_path (SavedDocx section_doc) ;;;
       if progress_callback then Os.report (i + 1) total else ret tt)
    tt.

(** ** The table copier and the section replay

    The text of [copy_table] and of the replay loop is the same in the
    two scripts; they differ in the paragraph copier they call. *)

Section Copiers.

Variable copy_paragraph :
  gmap string Part -> Paragraph -> Container -> string -> M (Paragraph * Container).

(** The [_Cell] branch of [copy_table]: a caption paragraph, then one
    paragraph of tab-joined cell texts for each row. *)
Definition copy_nested_table (source_table : Table) (target_container : Container)
  : Container :=
  let placeholder := text_paragraph (Some "Caption") "[Nested Table Content Below]" in
  fold_left
    (fun target nested_row =>
       let row_text :=
         PyStr.join tab (map (fun cell => PyStr.strip (cell_text cell)) nested_row) in
       append_block target (OParagraph (text_paragraph None row_text)))
    (tbl_rows source_table)
    (append_block target_container (OParagraph placeholder)).

(** The blocks of one source cell replayed into a cleared target cell.
    A table met here goes to [copy_table] with a [_Cell] target, that
    is to [copy_nested_table]. *)
Definition copy_cell (parts : gmap string Part) (temp_img_dir : string)
    (source_cell : Cell) : M (Cell * Container) :=
  for_each source_cell
    (fun block '(seen, target_cell) =>
       match block with
       | BParagraph p =>
           let* (p', target_cell) :=
             copy_paragraph parts p target_cell temp_img_dir in
           ret (seen ++ [BParagraph p'], target_cell)
       | BTable t => ret (seen ++ [block], copy_nested_table t target_cell)
       end)
    ([], {| kind := IsCell; content := [] |}).

(** One source row: [add_row()] gives a cell per grid column, and
    [target_row.cells[i]] fails beyond the last of them. *)
Definition copy_row (parts : gmap string Part) (temp_img_dir : string)
    (ncols : nat) (source_row : list Cell) : M (list Cell * list (list OutBlock)) :=
  for_each (enumerate source_row)
    (fun '(i, source_cell) '(seen, target_row) =>
       if i <? length target_row
       then let* (source_cell', target_cell) :=
              copy_cell parts temp_img_dir source_cell in
            ret (seen ++ [source_cell'], <[i := content target_cell]> target_row)
       else raise IndexError)
    ([], replicate ncols [OParagraph empty_paragraph]).

Definition copy_table (parts : gmap string Part) (source_table : Table)
    (target_container : Container) (temp_img_dir : string)
  : M (Table * Container) :=
  match kind target_container with
  | IsDocument =>
      let ncols := length (tbl_columns source_table) in
      (* add_table(rows=0, cols=ncols); the even widths it starts
         with are all assigned below *)
      let widths :=
        fold_left
          (fun widths '(i, col) => if i <? ncols then <[i := col]> widths else widths)
          (enumerate (tbl_columns source_table))
          (replicate ncols None) in
      let* (source_rows, target_rows) :=
        for_each (tbl_rows source_table)
          (fun source_row '(seen, target_rows) =>
             let* (source_row', target_row) :=
               copy_row parts temp_img_dir ncols source_row in
             ret (seen ++ [source_row'], target_rows ++ [target_row]))
          ([], []) in
      ret ({| tbl_style := tbl_style source_table;
              tbl_autofit := tbl_autofit source_table;
              tbl_columns := tbl_columns source_table;
              tbl_rows := source_rows |},
           append_block target_container
             (OTable {| tbl_style := Some (table_style_name source_table);
                        tbl_autofit := tbl_autofit source_table;
                        tbl_columns := widths;
                        tbl_rows := target_rows |}))
  | IsCell => ret (source_table, copy_nested_table source_table target_container)
  end.

(** [for block in section_blocks: ...] into the new document. *)
Definition replay (parts : gmap string Part) (temp_img_dir : string)
    (section_blocks : list Block) (current_doc : Container)
  : M (list Block * Container) :=
  for_each section_blocks
    (fun block '(seen, current_doc) =>
       match block with
       | BParagraph p =>
           let* (p', current_doc) :=
             copy_paragraph parts p current_doc temp_img_dir in
           ret (seen ++ [BParagraph p'], current_doc)
       | BTable t =>
           let* (t', current_doc) := copy_table parts t current_doc temp_img_dir in
           ret (seen ++ [BTable t'], current_doc)
       end)
    ([], current_doc).

(** One section built: the document [Document()] with the page
    geometry of the source and the replayed blocks. *)
Definition build_section (doc : SourceDoc) (temp_img_dir : string)
    (section_blocks : list Block) : M OutDoc :=
  let current_doc := copy_geometry doc new_document in
  let* (_, body) :=
    replay (related_parts doc) temp_img_dir section_blocks
      {| kind := IsDocument; content := out_blocks current_doc |} in
  ret {| out_section := out_section current_doc; out_blocks := content body |}.

End Copiers.

(** A section as the main loop forms it: its title and its blocks. *)
Definition Section_ : Type := string * list Block.

(** The sections a loop body [section_at] yields over
    [range(len(section_indices) - 1)]; [None] is a turn that ended in
    [continue]. *)
Fixpoint collect_sections (section_at : nat -> Res (option Section_))
    (turns : list nat) : Res (list Section_) :=
  match turns with
  | [] => Ok []
  | i :: turns' =>
      match section_at i with
      | Raise e => Raise e
      | Ok found =>
          match collect_sections section_at turns' with
          | Raise e => Raise e
          | Ok rest => Ok (match found with Some s => s :: rest | None => rest end)
          end
      end
  end.

(** ** [test3.py] *)

Module Test3.

Definition msg_complex : string :=
  nl +:+ "[Note: A complex graphical object (e.g., a chart or diagram) was here and could not be copied.]" +:+ nl.
Definition msg_broken_link : string :=
  nl +:+ "[Note: A graphical object with a broken link was here and could not be copied.]" +:+ nl.
Definition msg_shape : string :=
  nl +:+ "[Note: A shape or other drawing object was here and could not be copied.]" +:+ nl.

(** The width chosen for a picture: 3 inches, replaced by the extent
    when [int(cx)] succeeds; a [ValueError] is swallowed, the
    [TypeError] of [int(None)] and an [OverflowError] are not. *)
Definition picture_width (drawing : Drawing) : M Z :=
  let width := Inches_of_int 3 in
  try_except
    (match extent drawing with
     | Some extent_elem =>
         match cx extent_elem with
         | Some s =>
             match PyStr.int s with
             | Some n => let* inches := lift (per_inch n) in lift (Inches inches)
             | None => raise ValueError
             end
         | None => raise TypeError
         end
     | None => ret width
     end)
    (fun e => match e with AttributeError | ValueError => true | _ => false end)
    (ret width).

(** The body of [for drawing in run._element.findall(".//w:drawing")]. *)
Definition copy_drawing (parts : gmap string Part) (temp_img_dir : string)
    (drawing : Drawing) (target_para : OutParagraph) : M OutParagraph :=
  let rId := match blips drawing with
             | first :: _ => first
             | [] => None
             end in
  match truthy_attr rId with
  | Some rId =>
      try_except
        (match parts !! rId with
         | None => raise KeyError
         | Some (ImagePart image_bytes as related_part) =>
             let* ext := default_ext related_part in
             let img_filename := rId +:+ "." +:+ ext in
             let img_path := PyStr.path_join temp_img_dir img_filename in
             stage_image img_path image_bytes ;;;
             let* width := picture_width drawing in
             add_picture target_para img_path width
         | Some (OtherPart _) =>
             ret (add_run target_para (placeholder_run msg_complex))
         end)
        (fun e => match e with KeyError => true | _ => false end)
        (ret (add_run target_para (placeholder_run msg_broken_link)))
  | None => ret (add_run target_para (placeholder_run msg_shape))
  end.

(** [any(run._element.findall('.//w:drawing') for run in runs)] *)
Definition has_drawing (p : Paragraph) : bool :=
  existsb (fun run => match drawings run with [] => false | _ => true end) (runs p).

Definition copy_paragraph (parts : gmap string Part) (source_para : Paragraph)
    (target_container : Container) (temp_img_dir : string)
  : M (Paragraph * Container) :=
  if negb (PyStr.truthy (PyStr.strip (paragraph_text source_para)))
     && negb (has_drawing source_para)
  then ret (source_para, append_block target_container (OParagraph empty_paragraph))
  else
    let target_para := empty_paragraph in
    let target_para := set_style target_para (style_name source_para) in
    let target_para := set_alignment target_para (alignment source_para) in
    let '(source_para', target_para) := copy_numbering source_para target_para in
    let* target_para :=
      for_each (runs source_para)
        (fun run target_para =>
           let target_para := add_run target_para (copy_run run) in
           for_each (drawings run) (copy_drawing parts temp_img_dir) target_para)
        target_para in
    ret (source_para', append_block target_container (OParagraph target_para)).

(** One turn of the main loop up to the title: the boundaries, the
    [continue] on an empty range, the slice and its first block. *)
Definition section_at (heading_style : string) (blocks : list Block)
    (section_indices : list nat) (i : nat) : Res (option Section_) :=
  match section_indices !! i, section_indices !! (i + 1) with
  | Some start, Some end_ =>
      if start =? end_ then Ok None
      else
        let section_blocks := slice start end_ blocks in
        match section_blocks with
        | first_block :: _ =>
            Ok (Some (section_title heading_style i first_block, section_blocks))
        | [] => Raise IndexError
        end
  | _, _ => Raise IndexError
  end.

(** The sections of a block list that is not empty. *)
Definition segment (heading_style : string) (blocks : list Block)
  : Res (list Section_) :=
  let indices := section_indices heading_style blocks in
  collect_sections (section_at heading_style blocks indices)
    (seq 0 (length indices - 1)).

Definition split_docx_by_heading_with_images
    (docx_path output_dir heading_style : string) (progress_callback : bool)
  : M nat :=
  Os.makedirs output_dir ;;;
  let temp_img_dir := PyStr.path_join output_dir "temp_images" in
  Os.makedirs temp_img_dir ;;;
  let* doc := open_document docx_path in
  let blocks := src_blocks doc in
  match blocks with
  | [] => ret 0
  | _ :: _ =>
      let indices := section_indices heading_style blocks in
      let* sections :=
        for_each (seq 0 (length indices - 1))
          (fun i sections =>
             let* found := lift (section_at heading_style blocks indices i) in
             match found with
             | None => ret sections
             | Some (title, section_blocks) =>
                 let* current_doc :=
                   build_section copy_paragraph doc temp_img_dir section_blocks in
                 ret (sections ++ [(title, current_doc)])
             end)
          [] in
      let total := length sections in
      save_sections output_dir progress_callback sections ;;;
      let* there := Os.exists_ temp_img_dir in
      (if there then Os.rmtree temp_img_dir else ret tt) ;;;
      ret total
  end.

End Test3.

(** ** [test2.py] *)

Module Test2.

(** The body of [for blip in drawing.findall(".//a:blip")].  Reading
    [default_ext] off the part is an [AttributeError], as would be
    [None.get('cx')] for a drawing without [wp:extent]; the handler
    turns it into a printed warning. *)
Definition warning (rId : string) : string :=
  "Warning: Could not process an image with rId " +:+ rId +:+ ".".

Definition copy_blip (parts : gmap string Part) (temp_img_dir : string)
    (drawing : Drawing) (blip : option string) (target_para : OutParagraph)
  : M OutParagraph :=
  match truthy_attr blip with
  | Some rId =>
      try_except
        (match parts !! rId with
         | None => raise KeyError
         | Some image_part =>
             let image_bytes := blob_of image_part in
             let* ext := default_ext image_part in
             let img_filename := rId +:+ "." +:+ ext in
             let img_path := PyStr.path_join temp_img_dir img_filename in
             stage_image img_path image_bytes ;;;
             match extent drawing with
             | None => raise AttributeError
             | Some extent_elem =>
                 let* width :=
                   match truthy_attr (cx extent_elem) with
                   | Some s =>
                       match PyStr.int s with
                       | Some n =>
                           let* inches := lift (per_inch n) in lift (Inches inches)
                       | None => raise ValueError
                       end
                   | None => ret (Inches_of_int 3)
                   end in
                 add_picture target_para img_path width
             end
         end)
        (fun e => match e with KeyError | AttributeError => true | _ => false end)
        (Os.print (warning rId) ;;; ret target_para)
  | None => ret target_para
  end.

Definition copy_paragraph (parts : gmap string Part) (source_para : Paragraph)
    (target_container : Container) (temp_img_dir : string)
  : M (Paragraph * Container) :=
  if negb (PyStr.truthy (PyStr.strip (paragraph_text source_para)))
     && match runs source_para with [] => true | _ => false end
  then ret (source_para, append_block target_container (OParagraph empty_paragraph))
  else
    let target_para := empty_paragraph in
    let target_para := set_style target_para (style_name source_para) in
    let target_para := set_alignment target_para (alignment source_para) in
    let '(source_para', target_para) := copy_numbering source_para target_para in
    let* target_para :=
      for_each (runs source_para)
        (fun run target_para =>
           let target_para := add_run target_para (copy_run run) in
           for_each (drawings run)
             (fun drawing target_para =>
                for_each (blips drawing) (copy_blip parts temp_img_dir drawing)
                  target_para)
             target_para)
        target_para in
    ret (source_para', append_block target_container (OParagraph target_para)).

(** One turn of the main loop up to the title; this script has no
    [continue], so an empty slice fails at [section_blocks[0]]. *)
Definition section_at (heading_style : string) (blocks : list Block)
    (section_indices : list nat) (i : nat) : Res (option Section_) :=
  match section_indices !! i, section_indices !! (i + 1) with
  | Some start, Some end_ =>
      let section_blocks := slice start end_ blocks in
      match section_blocks with
      | first_block :: _ =>
          Ok (Some (section_title heading_style i first_block, section_blocks))
      | [] => Raise IndexError
      end
  | _, _ => Raise IndexError
  end.

Definition segment (heading_style : string) (blocks : list Block)
  : Res (list Section_) :=
  let indices := section_indices heading_style blocks in
  collect_sections (section_at heading_style blocks indices)
    (seq 0 (length indices - 1)).

(** [if not os.path.exists(p): os.makedirs(p, exist_ok=True)] *)
Definition ensure_dir (p : string) : M unit :=
  let* there := Os.exists_ p in
  if there then ret tt else Os.makedirs p.

Definition split_docx_by_heading_with_images
    (docx_path output_dir heading_style : string) (progress_callback : bool)
  : M nat :=
  ensure_dir output_dir ;;;
  let temp_img_dir := PyStr.path_join output_dir "temp_images" in
  ensure_dir temp_img_dir ;;;
  let* doc := open_document docx_path in
  let blocks := src_blocks doc in
  match blocks with
  | [] => ret 0
  | _ :: _ =>
      let indices := section_indices heading_style blocks in
      let* sections :=
        for_each (seq 0 (length indices - 1))
          (fun i sections =>
             let* found := lift (section_at heading_style blocks indices i) in
             match found with
             | None => ret sections
             | Some (title, section_blocks) =>
                 let* current_doc :=
                   build_section copy_paragraph doc temp_img_dir section_blocks in
                 ret (sections ++ [(title, current_doc)])
             end)
          [] in
      let total := length sections in
      save_sections output_dir progress_callback sections ;;;
      let* there := Os.exists_ temp_img_dir in
      (if there then Os.rmtree temp_img_dir else ret tt) ;;;
      ret total
  end.

End Test2.

(** ** Either script *)

Inductive Script := test2_py | test3_py.

Definition copy_paragraph_of (script : Script) :=
  match script with
  | test2_py => Test2.copy_paragraph
  | test3_py => Test3.copy_paragraph
  end.

Definition segment_of (script : Script) :=
  match script with
  | test2_py => Test2.segment
  | test3_py => Test3.segment
  end.

Definition split_of (script : Script) :=
  match script with
  | test2_py => Test2.split_docx_by_heading_with_images
  | test3_py => Test3.split_docx_by_heading_with_images
  end.

(** ** Notions the properties are stated with *)

(** The heading positions of a block list whose first block has
    position [k]; [section_indices] holds them for [k = 0]. *)
Definition heading_indices_from (heading_style : string) (k : nat)
    (blocks : list Block) : list nat :=
  omap (fun ib : nat * Block =>
          if is_heading heading_style ib.2 then Some ib.1 else None)
       (zip (seq k (length blocks)) blocks).

(** What the main loop needs of its boundary list: it rises strictly
    from 0 to the number of blocks. *)
Record Boundaries (blocks : list Block) (idx : list nat) : Prop := {
  bd_sorted : StronglySorted lt idx;
  bd_first : idx !! 0 = Some 0;
  bd_last : idx !! (length idx - 1) = Some (length blocks) }.

(** A loop body cuts the blocks at the boundaries when, on a range
    that is not empty, it yields the slice under the title of its
    first block. *)
Definition cuts (heading_style : string) (sa : nat -> Res (option Section_))
    (blocks : list Block) (idx : list nat) : Prop :=
  forall i s e b rest,
    idx !! i = Some s -> idx !! (i + 1) = Some e -> s < e ->
    slice s e blocks = b :: rest ->
    sa i = Ok (Some (section_title heading_style i b, b :: rest)).

(** Section [sec] is the cut that starts at boundary number [i]. *)
Definition cut_of (heading_style : string) (blocks : list Block) (idx : list nat)
    (i : nat) (sec : Section_) : Prop :=
  exists s e b,
    idx !! i = Some s /\ idx !! (i + 1) = Some e /\ blocks !! s = Some b /\
    sec = (section_title heading_style i b, slice s e blocks) /\
    head (slice s e blocks) = Some b.

(** The sections partition the blocks: concatenated they give the
    blocks back, so their sizes add up to the number of blocks; none
    is empty; and when the first block is a heading every section
    starts with a heading, so there is no leading section of
    heading-less blocks. *)
Definition partitions (heading_style : string) (blocks : list Block)
    (sections : list Section_) : Prop :=
  concat (map snd sections) = blocks /\
  sum_list_with (fun sec : Section_ => length sec.2) sections = length blocks /\
  Forall (fun sec : Section_ => sec.2 <> []) sections /\
  (forall first, head blocks = Some first ->
     is_heading heading_style first = true ->
     Forall (fun sec : Section_ =>
               exists b, head sec.2 = Some b /\ is_heading heading_style b = true)
            sections).

(** The scratch directory of [output_dir] and all below it is gone. *)
Definition scratch_removed (output_dir : string) (w : World) : Prop :=
  forall q, Os.under (PyStr.path_join output_dir "temp_images") q = true ->
            (q ∉ dirs w) /\ files w !! q = None.

(** [os.path.exists(p)] holds in [w]. *)
Definition path_exists (p : string) (w : World) : Prop :=
  p ∈ dirs w \/ is_Some (files w !! p).

(** A computation that keeps [P] of the world, however it ends. *)
Definition preserves {A} (P : World -> Prop) (m : M A) : Prop :=
  forall w, P w -> P (m w).2.

(** The paths under which [save_sections] saves. *)
Definition out_paths (output_dir : string) (sections : list (string * OutDoc))
  : list string :=
  map (fun isec : nat * (string * OutDoc) =>
         PyStr.path_join output_dir (out_name isec.1 isec.2.1))
      (enumerate sections).

(** Character [c0] does not occur in [s]. *)
Definition free_of (c0 : ascii) (s : string) : Prop :=
  Forall (fun c => c <> c0) (list_ascii_of_string s).

(** The text of a built paragraph, run by run. *)
Definition out_paragraph_text (p : OutParagraph) : string :=
  fold_right String.append "" (map out_text (out_runs p)).

(** Why a drawing cannot be reproduced as a picture by [test3.py], and
    the annotation that says so; [None] for a drawing whose first blip
    leads to an image part. *)
Definition failure_of (parts : gmap string Part) (drawing : Drawing) : option string :=
  match truthy_attr (match blips drawing with first :: _ => first | [] => None end) with
  | None => Some Test3.msg_shape
  | Some rId =>
      match parts !! rId with
      | None => Some Test3.msg_broken_link
      | Some (OtherPart _) => Some Test3.msg_complex
      | Some (ImagePart _) => None
      end
  end.

(** The condition under which the copier is to append a bare paragraph:
    no text but whitespace and no run with a drawing. *)
Definition blank (p : Paragraph) : bool :=
  negb (PyStr.truthy (PyStr.strip (paragraph_text p))) && negb (Test3.has_drawing p).

(** The text of a row as the specification words it, and as
    [copy_table] forms it. *)
Definition tab_joined (row : list Cell) : string :=
  PyStr.join tab (map cell_text row).

Definition tab_joined_stripped (row : list Cell) : string :=
  PyStr.join tab (map (fun cell => PyStr.strip (cell_text cell)) row).

(** The flattened form of a nested table: after what the cell held
    come one marker paragraph and one paragraph per row, with the text
    [row_text] gives for the row; no table is among them. *)
Definition flattens (row_text : list Cell -> string) (source_table : Table)
    (before after : list OutBlock) : Prop :=
  exists marker rows_out,
    after = before ++ OParagraph marker :: map OParagraph rows_out /\
    out_paragraph_text marker = "[Nested Table Content Below]" /\
    map out_paragraph_text rows_out = map row_text (tbl_rows source_table).

(** The paragraph a copy into an empty target has built: the one block
    the target holds when the copy has returned. *)
Definition built (r : Res (Paragraph * Container) * World) : option OutParagraph :=
  match r.1 with
  | Ok (_, target) =>
      match content target with
      | [OParagraph p] => Some p
      | _ => None
      end
  | Raise _ => None
  end.

(** The number of heading paragraphs among the blocks. *)
Definition heading_count (heading_style : string) (blocks : list Block) : nat :=
  length (List.filter (is_heading heading_style) blocks).

(** 1 when there are blocks before the first heading, else 0. *)
Definition leading_count (heading_style : string) (blocks : list Block) : nat :=
  match blocks with
  | first :: _ => if is_heading heading_style first then 0 else 1
  | [] => 0
  end.

(** The characters the save loop lets through into a file name. *)
Definition name_char (c : ascii) : bool :=
  PyStr.isalnum c || Ascii.eqb c " " || Ascii.eqb c "_" || Ascii.eqb c "-".

(** Every character of [s] satisfies [keep]. *)
Definition all_chars (keep : ascii -> bool) (s : string) : Prop :=
  Forall (fun c => keep c = true) (list_ascii_of_string s).

(** The head of the loop body of either script. *)
Definition section_at_of (script : Script) :=
  match script with
  | test2_py => Test2.section_at
  | test3_py => Test3.section_at
  end.

(** The loop of either driver that builds the sections, from the
    sections built so far. *)
Definition build_sections (script : Script) (doc : SourceDoc) (temp_img_dir : string)
    (sa : nat -> Res (option Section_)) (turns : list nat)
    (sections : list (string * OutDoc)) : M (list (string * OutDoc)) :=
  for_each turns
    (fun i sections =>
       let* found := lift (sa i) in
       match found with
       | None => ret sections
       | Some (title, section_blocks) =>
           let* current_doc :=
             build_section (copy_paragraph_of script) doc temp_img_dir section_blocks in
           ret (sections ++ [(title, current_doc)])
       end)
    sections.

(** The calls a progress callback gets from a pass over [total]
    sections. *)
Definition reports (total : nat) : list (nat * nat) :=
  map (fun i => (i + 1, total)) (seq 0 total).

(** The progress callback has been called with [l] so far. *)
Definition reported (l : list (nat * nat)) (w : World) : Prop :=
  progress w = l.

(** The page geometry every document of a pass over [doc] is given. *)
Definition pass_geometry (doc : SourceDoc) : PageGeometry :=
  match src_sections doc with
  | ref_section :: _ => ref_section
  | [] => default_geometry
  end.

(** The test under which a script appends the bare paragraph and
    returns: [test2.py] asks for no runs at all, [test3.py] for no run
    with a drawing. *)
Definition taken_as_empty (script : Script) (p : Paragraph) : bool :=
  negb (PyStr.truthy (PyStr.strip (paragraph_text p)))
  && match script with
     | test2_py => match runs p with [] => true | _ => false end
     | test3_py => negb (Test3.has_drawing p)
     end.

(** The paragraph properties of a full copy: the name of the source's
    style, its alignment and its numbering reference. *)
Definition copied_pPr (p : Paragraph) : PPr :=
  {| pStyle := Some (style_name p); jc := alignment p; numPr := pPr p ≫= numPr |}.

(** No run of the paragraph holds a drawing. *)
Definition drawing_free (p : Paragraph) : Prop :=
  Forall (fun run => drawings run = []) (runs p).

(** The number of drawings in the runs of a paragraph. *)
Definition drawing_count (p : Paragraph) : nat :=
  sum_list_with (fun run => length (drawings run)) (runs p).

(** A built block is a paragraph. *)
Definition is_paragraph (b : OutBlock) : bool :=
  match b with
  | OParagraph _ => true
  | OTable _ => false
  end.

(** The blocks are paragraphs, all of them. *)
Definition all_paragraphs (bs : list OutBlock) : Prop :=
  Forall (fun b => is_paragraph b = true) bs.

(** No cell of the built table holds a table. *)
Definition flat_table (t : TableOf OutBlock) : Prop :=
  Forall (Forall all_paragraphs) (tbl_rows t).



(** One turn of the save loop, [total] being the number of sections. *)
Definition save_section (output_dir : string) (progress_callback : bool) (total : nat)
  : nat * (string * OutDoc) -> unit -> M unit :=
  fun '(i, (title, section_doc)) _ =>
    let out_path := PyStr.path_join output_dir (out_name i title) in
    Os.write out_path (SavedDocx section_doc) ;;;
    if progress_callback then Os.report (i + 1) total else ret tt.

(** The path under which section number [i] (from 0) is saved. *)
Definition out_path (output_dir : string) (i : nat) (title : string) : string :=
  PyStr.path_join output_dir (out_name i title).


(** How a script makes sure of a directory: [test2.py] asks first
    whether the path exists. *)
Definition make_dir (script : Script) (p : string) : M unit :=
  match script with
  | test2_py => Test2.ensure_dir p
  | test3_py => Os.makedirs p
  end.

(** A built block stands for a source block: a paragraph for a
    paragraph, a table for a table. *)
Definition same_kind (b : Block) (ob : OutBlock) : Prop :=
  match b, ob with
  | BParagraph _, OParagraph _ => True
  | BTable _, OTable _ => True
  | _, _ => False
  end.

(** The relationship ids the blips of a paragraph carry, in document
    order. *)
Definition blip_ids (p : Paragraph) : list string :=
  flat_map (fun run => flat_map (fun d => omap truthy_attr (blips d)) (drawings run))
    (runs p).

(** The world after [test2.py] has printed its warning for each of the
    ids. *)
Definition warned (ids : list string) (w : World) : World :=
  {| dirs := dirs w; files := files w; progress := progress w;
     printed := printed w ++ map Test2.warning ids |}.



(** Directories, files and progress reports are those of [w0]. *)
Definition same_fs (w0 w : World) : Prop :=
  dirs w = dirs w0 /\ files w = files w0 /\ progress w = progress w0.



(** ** Sample inputs *)

Definition no_font : Font :=
  {| font_name := None; font_size := None; font_rgb := None |}.

Definition text_run (text : string) : Run :=
  {| run_text := text; run_bold := None; run_italic := None;
     run_underline := None; run_font := no_font; drawings := [] |}.

Definition drawing_run (d : Drawing) : Run :=
  {| run_text := ""; run_bold := None; run_italic := None;
     run_underline := None; run_font := no_font; drawings := [d] |}.

Definition heading1 (text : string) : Block :=
  BParagraph {| pPr := Some {| pStyle := Some "Heading 1"; jc := None; numPr := None |};
                runs := [text_run text] |}.

Definition para (text : string) : Block :=
  BParagraph {| pPr := None; runs := [text_run text] |}.

(** The five blocks of the scenario. *)
Definition five_blocks : list Block :=
  [heading1 "Intro-less para"; heading1 "A"; para "x"; heading1 "B"; para "y"].

Definition source_of (blocks : list Block) : SourceDoc :=
  {| src_sections := []; src_blocks := blocks; related_parts := ∅ |}.

(** An A4 page with narrow margins, in EMU, and a source that declares
    it for its first section and the template's page for a second. *)
Definition a4_page : PageGeometry :=
  {| page_height := Some 10692130%Z; page_width := Some 7560310%Z;
     left_margin := Some 457200%Z; right_margin := Some 457200%Z;
     top_margin := Some 360000%Z; bottom_margin := Some 360000%Z |}.

Definition a4_source (blocks : list Block) : SourceDoc :=
  {| src_sections := [a4_page; default_geometry]; src_blocks := blocks;
     related_parts := ∅ |}.

(** A world that holds one source document, [in.docx]. *)
Definition world_with (doc : SourceDoc) : World :=
  {| dirs := ∅; files := {[ "in.docx" := SourceDocx doc ]};
     progress := []; printed := [] |}.


(** A world in which an earlier pass has left its scratch directory
    and a file in it. *)
Definition world_leftover (doc : SourceDoc) : World :=
  {| dirs := {[ "out"; "out/temp_images" ]};
     files := {[ "in.docx" := SourceDocx doc;
                 "out/temp_images/rId7.png" := Blob "PNGDATA" ]};
     progress := []; printed := [] |}.

(** The same world with a directory in the way of the first output. *)
Definition world_blocked (doc : SourceDoc) : World :=
  {| dirs := {[ "out"; "out/01_A.docx" ]}; files := {[ "in.docx" := SourceDocx doc ]};
     progress := []; printed := [] |}.

(** A list item: a paragraph that carries a numbering reference. *)
Definition numbered_para : Paragraph :=
  {| pPr := Some {| pStyle := Some "List Paragraph"; jc := None;
                    numPr := Some {| numId := 1; ilvl := 0 |} |};
     runs := [text_run "first item"] |}.

(** A paragraph of one whitespace-only run. *)
Definition whitespace_para : Paragraph :=
  {| pPr := None; runs := [text_run " "] |}.

(** A paragraph whose one run holds one drawing. *)
Definition picture_para (d : Drawing) : Paragraph :=
  {| pPr := None; runs := [drawing_run d] |}.

(** Drawings: linked to [rId7], with and without an extent; without
    any blip. *)
Definition linked_drawing (ext : option Extent) : Drawing :=
  {| blips := [Some "rId7"]; extent := ext |}.

Definition shape_drawing : Drawing :=
  {| blips := []; extent := None |}.

(** A relationship table with an image under [rId7]; one with a chart. *)
Definition image_parts : gmap string Part :=
  {[ "rId7" := ImagePart "PNGDATA" ]}.

Definition chart_parts : gmap string Part :=
  {[ "rId7" := OtherPart "<c:chartSpace/>" ]}.

Definition empty_world : World :=
  {| dirs := {[ "out"; "out/temp_images" ]}; files := ∅; progress := []; printed := [] |}.

(** A built paragraph of style Normal with the given runs. *)
Definition normal_paragraph (rs : list OutRun) : OutParagraph :=
  {| out_pPr := Some {| pStyle := Some "Normal"; jc := None; numPr := None |};
     out_runs := rs |}.

Definition empty_cell : Container := {| kind := IsCell; content := [] |}.
Definition empty_body : Container := {| kind := IsDocument; content := [] |}.

(** A nested table of one row whose one cell reads [" a "]. *)
Definition padded_table : Table :=
  {| tbl_style := None; tbl_autofit := true; tbl_columns := [None];
     tbl_rows := [[[para " a "]]] |}.



(** * Properties *)

(** ** Python strings *)

Example strip_ex : PyStr.strip "  a b	 " = "a b". Proof. reflexivity. Qed.
Example int_ex : PyStr.int " 1_000 " = Some 1000%Z /\ PyStr.int "1__0" = None /\ PyStr.int "-12" = Some (-12)%Z /\ PyStr.int "" = None /\ PyStr.int "_1" = None /\ PyStr.int "1_" = None.
Proof. repeat split. Qed.
Example join_ex : PyStr.path_join "out" "temp_images" = "out/temp_images" /\ PyStr.path_join "out/" "x" = "out/x" /\ PyStr.path_join "" "x" = "x" /\ PyStr.path_join "a" "/x" = "/x".
Proof. repeat split. Qed.

(** [Inches(int(cx) / 914400)] in EMU: the two roundings lose one EMU
    of 123, keep 914400, and a quotient or a product beyond the floats
    is an [OverflowError]. *)
Example inches_ex :
  let emu cx := match per_inch cx with Ok x => Inches x | Raise e => Raise e end in
  emu 123%Z = Ok 122%Z /\ emu 914400%Z = Ok 914400%Z /\ emu (-5)%Z = Ok (-5)%Z /\
  emu (10 ^ 313)%Z = Raise OverflowError /\ per_inch (10 ^ 400)%Z = Raise OverflowError /\
  Inches_of_int 3 = 2743200%Z.
Proof. repeat split; vm_compute; reflexivity. Qed.

Example basename_ex :
  PyStr.basename "out/01_A.docx" = "01_A.docx" /\ PyStr.basename "in.docx" = "in.docx" /\
  PyStr.basename "out/" = "" /\ PyStr.basename "/a/b/c" = "c".
Proof. repeat split. Qed.

(** ** The section segmenter *)

Section Segmentation.

Variable heading_style : string.
Implicit Types (blocks : list Block) (idx : list nat).

Lemma heading_indices_from_cons k b blocks :
  heading_indices_from heading_style k (b :: blocks)
  = (if is_heading heading_style b then [k] else [])
      ++ heading_indices_from heading_style (S k) blocks.
Proof.
  unfold heading_indices_from. simpl.
  destruct (is_heading heading_style b); reflexivity.
Qed.

Lemma heading_indices_from_bounds k blocks :
  Forall (fun i => k <= i < k + length blocks) (heading_indices_from heading_style k blocks).
Proof.
  revert k. induction blocks as [|b blocks IH]; intros k.
  - constructor.
  - rewrite heading_indices_from_cons. apply Forall_app. split.
    + destruct (is_heading heading_style b); repeat constructor; simpl; lia.
    + eapply Forall_impl; [apply IH|]. simpl. intros; lia.
Qed.

Lemma heading_indices_from_sorted k blocks :
  StronglySorted lt (heading_indices_from heading_style k blocks).
Proof.
  revert k. induction blocks as [|b blocks IH]; intros k.
  - constructor.
  - rewrite heading_indices_from_cons. apply StronglySorted_app_2.
    + intros i j Hi Hj.
      pose proof (heading_indices_from_bounds (S k) blocks) as Hb.
      rewrite Forall_forall in Hb. apply Hb in Hj.
      destruct (is_heading heading_style b); [|inversion Hi].
      apply list_elem_of_singleton in Hi. lia.
    + destruct (is_heading heading_style b); repeat constructor.
    + apply IH.
Qed.

Lemma heading_indices_from_heading k blocks i :
  i ∈ heading_indices_from heading_style k blocks ->
  exists b, blocks !! (i - k) = Some b /\ is_heading heading_style b = true.
Proof.
  revert k. induction blocks as [|b blocks IH]; intros k.
  - inversion 1.
  - rewrite heading_indices_from_cons, elem_of_app. intros [Hi|Hi].
    + destruct (is_heading heading_style b) eqn:Hb; [|inversion Hi].
      apply list_elem_of_singleton in Hi as ->.
      replace (k - k) with 0 by lia. eauto.
    + pose proof (heading_indices_from_bounds (S k) blocks) as Hbd.
      rewrite Forall_forall in Hbd. specialize (Hbd _ Hi).
      destruct (IH _ Hi) as (b' & Hl & Hh). exists b'. split; [|done].
      replace (i - k) with (S (i - S k)) by lia. done.
Qed.

Lemma sorted_lookup_lt idx i j a b :
  StronglySorted lt idx -> i < j ->
  idx !! i = Some a -> idx !! j = Some b -> a < b.
Proof.
  intros Hs. revert i j. induction Hs as [|x idx Hs IH Hx]; intros i j Hij Hi Hj.
  - discriminate.
  - destruct j as [|j]; [lia|]. simpl in Hj. destruct i as [|i].
    + injection Hi as <-. rewrite Forall_forall in Hx.
      apply Hx. by eapply list_elem_of_lookup_2.
    + simpl in Hi. eapply (IH i j); [lia|done..].
Qed.

Lemma section_indices_boundaries blocks :
  blocks <> [] -> Boundaries blocks (section_indices heading_style blocks).
Proof.
  intros Hne. destruct blocks as [|b blocks]; [done|].
  unfold section_indices, enumerate.
  change (omap _ (zip _ (b :: blocks))) with (heading_indices_from heading_style 0 (b :: blocks)).
  pose proof (heading_indices_from_sorted 0 (b :: blocks)) as Hs.
  pose proof (heading_indices_from_bounds 0 (b :: blocks)) as Hb.
  assert (StronglySorted lt (heading_indices_from heading_style 0 (b :: blocks) ++ [length (b :: blocks)]))
    as Hs'.
  { apply StronglySorted_app_2; [|done|repeat constructor].
    intros i j Hi Hj. rewrite Forall_forall in Hb. apply Hb in Hi.
    apply list_elem_of_singleton in Hj. lia. }
  split.
  - destruct (is_heading heading_style b) eqn:Hh; [done|].
    simpl. constructor; [done|].
    rewrite heading_indices_from_cons, Hh in *. simpl in *.
    pose proof (heading_indices_from_bounds 1 blocks) as Hb1.
    apply Forall_app. split; [|apply Forall_singleton; lia].
    eapply Forall_impl; [exact Hb1|]. simpl. intros; lia.
  - rewrite heading_indices_from_cons.
    destruct (is_heading heading_style b); reflexivity.
  - set (H := heading_indices_from heading_style 0 (b :: blocks)).
    rewrite (app_assoc _ H), length_app. simpl.
    rewrite lookup_app_r by lia.
    replace (_ - _) with 0 by lia. reflexivity.
Qed.

Lemma slice_cons (s e : nat) blocks :
  s < e -> e <= length blocks ->
  exists b rest, slice s e blocks = b :: rest /\ blocks !! s = Some b.
Proof.
  intros Hse He. unfold slice.
  destruct (lookup_lt_is_Some_2 blocks s) as [b Hb]; [lia|].
  rewrite (drop_S _ _ _ Hb). destruct (e - s) as [|n] eqn:Hn; [lia|].
  simpl. eauto.
Qed.

Lemma slice_app (s m e : nat) blocks :
  s <= m -> m <= e -> slice s m blocks ++ slice m e blocks = slice s e blocks.
Proof.
  intros Hsm Hme. unfold slice.
  assert (drop m blocks = drop (m - s) (drop s blocks)) as ->.
  { rewrite drop_drop. f_equal. lia. }
  rewrite take_take_drop. f_equal. lia.
Qed.

Lemma Test3_cuts blocks idx :
  cuts heading_style (Test3.section_at heading_style blocks idx) blocks idx.
Proof.
  intros i s e b rest Hs He Hlt Hsl. unfold Test3.section_at.
  rewrite Hs, He, Hsl. destruct (Nat.eqb_spec s e); [lia|done].
Qed.

Lemma Test2_cuts blocks idx :
  cuts heading_style (Test2.section_at heading_style blocks idx) blocks idx.
Proof.
  intros i s e b rest Hs He Hlt Hsl. unfold Test2.section_at.
  by rewrite Hs, He, Hsl.
Qed.

Lemma collect_sections_cuts sa blocks idx :
  Boundaries blocks idx -> cuts heading_style sa blocks idx ->
  forall n k s e,
    idx !! k = Some s -> idx !! (k + n) = Some e ->
    exists ss,
      collect_sections sa (seq k n) = Ok ss /\
      concat (map snd ss) = slice s e blocks /\
      Forall2 (cut_of heading_style blocks idx) (seq k n) ss.
Proof.
  intros [Hsorted Hfirst Hlast] Hcuts.
  assert (forall j x, idx !! j = Some x -> x <= length blocks) as Hle.
  { intros j x Hj. pose proof (lookup_lt_Some _ _ _ Hj) as Hlen.
    destruct (decide (j = length idx - 1)) as [->|Hne]; [naive_solver lia|].
    pose proof (sorted_lookup_lt idx j (length idx - 1) x (length blocks) Hsorted) as H.
    specialize (H ltac:(lia) Hj Hlast). lia. }
  induction n as [|n IH]; intros k s e Hk He.
  - rewrite Nat.add_0_r, Hk in He. injection He as <-.
    exists []. simpl. unfold slice. rewrite Nat.sub_diag. by repeat split.
  - destruct (lookup_lt_is_Some_2 idx (k + 1)) as [m Hm].
    { apply lookup_lt_Some in He. lia. }
    assert (s < m) as Hsm by (eapply (sorted_lookup_lt idx k (k + 1)); [done|lia|done..]).
    assert (m <= e) as Hme.
    { destruct n as [|n'].
      - replace (k + 1) with (k + 1) in Hm by lia. rewrite Hm in He. injection He. lia.
      - pose proof (sorted_lookup_lt idx (k + 1) (k + S (S n')) m e Hsorted) as H.
        specialize (H ltac:(lia) Hm He). lia. }
    destruct (slice_cons s m blocks Hsm (Hle _ _ Hm)) as (b & rest & Hsl & Hb).
    destruct (IH (S k) m e) as (ss & Hss & Hcat & Hall).
    { by replace (S k) with (k + 1) by lia. }
    { by replace (S k + n) with (k + S n) by lia. }
    exists ((section_title heading_style k b, b :: rest) :: ss).
    simpl. rewrite (Hcuts k s m b rest Hk Hm Hsm Hsl), Hss. split; [done|].
    split.
    + simpl. rewrite Hcat, <- (slice_app s m e) by lia. by rewrite Hsl.
    + constructor; [|done]. exists s, m, b. rewrite Hsl. by repeat split.
Qed.

Lemma sum_list_with_concat (sections : list Section_) :
  sum_list_with (fun sec : Section_ => length sec.2) sections
  = length (concat (map snd sections)).
Proof.
  induction sections as [|sec sections IH]; [done|].
  simpl. rewrite length_app. by rewrite IH.
Qed.



Lemma segment_cuts sa blocks :
  blocks <> [] ->
  cuts heading_style sa blocks (section_indices heading_style blocks) ->
  exists sections,
    collect_sections sa
      (seq 0 (length (section_indices heading_style blocks) - 1)) = Ok sections /\
    Forall2 (cut_of heading_style blocks (section_indices heading_style blocks))
      (seq 0 (length (section_indices heading_style blocks) - 1)) sections /\
    partitions heading_style blocks sections.
Proof.
  intros Hne Hcuts.
  pose proof (section_indices_boundaries blocks Hne) as Hbd.
  set (idx := section_indices heading_style blocks) in *.
  destruct (collect_sections_cuts sa blocks idx Hbd Hcuts (length idx - 1) 0 0
              (length blocks)) as (ss & Hss & Hcat & Hall).
  { apply Hbd. } { apply Hbd. }
  exists ss. split; [done|]. split; [done|].
  assert (concat (map snd ss) = blocks) as Hcat'.
  { rewrite Hcat. unfold slice. rewrite Nat.sub_0_r, drop_0. by apply take_ge. }
  split; [done|]. split; [by rewrite sum_list_with_concat, Hcat'|]. split.
  - eapply Forall2_Forall_r; [exact Hall|]. apply Forall_forall.
    intros i _ sec (s & e & b & _ & _ & _ & -> & Hhd). simpl.
    intros Heq. by rewrite Heq in Hhd.
  - intros first Hfirst Hh.
    eapply Forall2_Forall_r; [exact Hall|]. apply Forall_forall.
    intros i Hi sec (s & e & b & Hs & _ & Hb & -> & Hhd). simpl.
    exists b. split; [done|].
    apply elem_of_seq in Hi.
    destruct blocks as [|b0 blocks']; [done|]. injection Hfirst as ->.
    subst idx. unfold section_indices, enumerate in Hs, Hi.
    change (omap _ (zip _ (first :: blocks')))
      with (heading_indices_from heading_style 0 (first :: blocks')) in Hs, Hi.
    rewrite Hh in Hs, Hi. simpl app in Hs, Hi.
    rewrite length_app in Hi. simpl in Hi.
    rewrite lookup_app_l in Hs by lia.
    apply list_elem_of_lookup_2, heading_indices_from_heading in Hs
      as (b' & Hb' & Hh').
    rewrite Nat.sub_0_r in Hb'. congruence.
Qed.

End Segmentation.




(** C2.  The five-block scenario: boundaries 0, 1, 3, 5 and three
    sections titled "Intro-less para", "A" and "B" with 1, 2 and 2
    blocks, in either script. *)
Theorem five_blocks_scenario (script : Script) :
  section_indices "Heading 1" five_blocks = [0; 1; 3; 5] /\
  segment_of script "Heading 1" five_blocks
  = Ok [("Intro-less para", [heading1 "Intro-less para"]);
        ("A", [heading1 "A"; para "x"]);
        ("B", [heading1 "B"; para "y"])] /\
  (fun sec : Section_ => (sec.1, length sec.2))
    <$> [("Intro-less para", [heading1 "Intro-less para"]);
         ("A", [heading1 "A"; para "x"]);
         ("B", [heading1 "B"; para "y"])]
  = [("Intro-less para", 1); ("A", 2); ("B", 2)].
Proof. destruct script; repeat split. Qed.

(** ** The driver and its scratch directory *)

Lemma bind_Ok {A B} (m : M A) (k : A -> M B) w b w' :
  bind m k w = (Ok b, w') ->
  exists a w1, m w = (Ok a, w1) /\ k a w1 = (Ok b, w').
Proof.
  unfold bind. destruct (m w) as [[a|e] w1]; [eauto|discriminate].
Qed.

Section Preserves.

Variable P : World -> Prop.

Lemma preserves_ret {A} (a : A) : preserves P (ret a).
Proof. by intros w. Qed.

Lemma preserves_raise {A} e : preserves P (@raise A e).
Proof. by intros w. Qed.

Lemma preserves_lift {A} (r : Res A) : preserves P (lift r).
Proof. by intros w. Qed.

Lemma preserves_default_ext part : preserves P (default_ext part).
Proof. by intros w. Qed.

Lemma preserves_bind {A B} (m : M A) (k : A -> M B) :
  preserves P m -> (forall a, preserves P (k a)) -> preserves P (bind m k).
Proof.
  intros Hm Hk w Hw. unfold bind. specialize (Hm w Hw).
  destruct (m w) as [[a|e] w1]; simpl in *; [|done].
  by apply Hk.
Qed.

Lemma preserves_try_except {A} (m : M A) caught handler :
  preserves P m -> preserves P handler -> preserves P (try_except m caught handler).
Proof.
  intros Hm Hh w Hw. unfold try_except. specialize (Hm w Hw).
  destruct (m w) as [[a|e] w1]; simpl in *; [done|].
  destruct (caught e); [by apply Hh|done].
Qed.

Lemma preserves_for_each {A S} (xs : list A) (body : A -> S -> M S) s :
  (forall x s, preserves P (body x s)) -> preserves P (for_each xs body s).
Proof.
  intros Hb. revert s. induction xs as [|x xs IH]; intros s; simpl.
  - apply preserves_ret.
  - apply preserves_bind; [apply Hb|apply IH].
Qed.

End Preserves.

(** A write leaves the world as it is or puts the content under the
    path; when it returns, it has done the latter. *)
Lemma write_world q c w :
  (Os.write q c w).2 = w \/
  Os.write q c w = (Ok tt, Os.with_files w (<[q := c]> (files w))).
Proof.
  unfold Os.write.
  repeat match goal with |- context [if ?b then _ else _] => destruct b end; auto.
Qed.

Lemma write_Ok q c w w' :
  Os.write q c w = (Ok tt, w') ->
  w' = Os.with_files w (<[q := c]> (files w)) /\ q ∉ dirs w.
Proof.
  unfold Os.write.
  destruct (negb _); [by destruct (PyStr.truthy q)|].
  destruct (_ || _).
  - case_bool_decide; [done|]. by intros [= <-].
  - by case_bool_decide.
Qed.

Section Exists.

Variable p : string.

Lemma exists_exists q : preserves (path_exists p) (Os.exists_ q).
Proof. by intros w. Qed.

Lemma exists_write q c : preserves (path_exists p) (Os.write q c).
Proof.
  intros w Hw. destruct (write_world q c w) as [->| ->]; [done|].
  destruct Hw as [Hd|Hf]; [by left|]. right. simpl.
  destruct (decide (q = p)) as [->|Hne].
  - rewrite lookup_insert_eq. eauto.
  - by rewrite lookup_insert_ne.
Qed.

Lemma exists_read_image q : preserves (path_exists p) (Os.read_image q).
Proof.
  intros w Hw. unfold Os.read_image.
  destruct (files w !! q) as [[]|]; try done. by case_bool_decide.
Qed.

Lemma exists_print l : preserves (path_exists p) (Os.print l).
Proof. by intros w. Qed.

Lemma exists_report a b : preserves (path_exists p) (Os.report a b).
Proof. by intros w. Qed.

End Exists.

Create HintDb keeps discriminated.
#[local] Hint Resolve preserves_ret preserves_raise preserves_lift
  preserves_default_ext exists_exists
  exists_write exists_read_image exists_print exists_report : keeps.

(** One step through the shape of a computation. *)
Ltac keeps_step :=
  lazymatch goal with
  | |- preserves _ (bind _ _) => apply preserves_bind
  | |- preserves _ (try_except _ _ _) => apply preserves_try_except
  | |- preserves _ (for_each _ _ _) => apply preserves_for_each
  | |- preserves _ (match ?x with _ => _ end) => destruct x; cbv beta iota
  | |- preserves _ ((match ?x with _ => _ end) _) => destruct x; cbv beta iota
  | |- preserves _ _ => solve [auto with keeps]
  | |- forall _, _ => intro
  end.
Ltac keeps := repeat keeps_step.

Lemma exists_stage_image p q b : preserves (path_exists p) (stage_image q b).
Proof. unfold stage_image. keeps. Qed.

Lemma exists_add_picture p para q width :
  preserves (path_exists p) (add_picture para q width).
Proof. unfold add_picture. keeps. Qed.
#[local] Hint Resolve exists_stage_image exists_add_picture : keeps.

Lemma exists_copy_paragraph p script parts para t temp :
  preserves (path_exists p) (copy_paragraph_of script parts para t temp).
Proof.
  destruct script; simpl.
  - unfold Test2.copy_paragraph, Test2.copy_blip. keeps.
  - unfold Test3.copy_paragraph, Test3.copy_drawing, Test3.picture_width. keeps.
Qed.

Section CopiersPreserve.

Variable P : World -> Prop.
Variable copy_paragraph :
  gmap string Part -> Paragraph -> Container -> string -> M (Paragraph * Container).
Hypothesis copy_paragraph_preserves :
  forall parts para t temp, preserves P (copy_paragraph parts para t temp).

Lemma preserves_copy_table parts t target temp :
  preserves P (copy_table copy_paragraph parts t target temp).
Proof.
  unfold copy_table, copy_row, copy_cell.
  repeat first
    [ apply copy_paragraph_preserves | apply preserves_ret | apply preserves_raise
    | keeps_step ].
Qed.

Lemma preserves_build_section doc temp section_blocks :
  preserves P (build_section copy_paragraph doc temp section_blocks).
Proof.
  unfold build_section, replay.
  repeat first
    [ apply copy_paragraph_preserves | apply preserves_copy_table
    | apply preserves_ret | keeps_step ].
Qed.

End CopiersPreserve.

Lemma exists_save_sections p output_dir cb sections :
  preserves (path_exists p) (save_sections output_dir cb sections).
Proof. unfold save_sections. keeps. Qed.

(** The loop of either driver that builds the sections. *)
Lemma exists_sections_loop p script doc temp (sa : nat -> Res (option Section_)) turns :
  preserves (path_exists p)
    (for_each turns
       (fun i sections =>
          let* found := lift (sa i) in
          match found with
          | None => ret sections
          | Some (title, section_blocks) =>
              let* current_doc :=
                build_section (copy_paragraph_of script) doc temp section_blocks in
              ret (sections ++ [(title, current_doc)])
          end)
       []).
Proof.
  repeat first
    [ apply preserves_build_section; intros; apply exists_copy_paragraph
    | keeps_step ].
Qed.

Lemma rmtree_removes p w w' :
  Os.rmtree p w = (Ok tt, w') ->
  forall q, Os.under p q = true -> (q ∉ dirs w') /\ files w' !! q = None.
Proof.
  unfold Os.rmtree. case_bool_decide as Hp.
  - intros [= <-] q Hq. simpl. split.
    + rewrite elem_of_filter. intros [Hf _]. congruence.
    + apply map_lookup_filter_None. right. intros x _. simpl. congruence.
  - destruct (files w !! p); discriminate.
Qed.

Lemma makedirs_Ok p w w' :
  Os.makedirs p w = (Ok tt, w') ->
  path_exists p w' /\ files w' = files w /\ progress w' = progress w.
Proof.
  unfold Os.makedirs. destruct (files w !! p); [discriminate|].
  intros [= <-]. simpl. split; [left; set_solver|done].
Qed.

Lemma ensure_dir_Ok p w w' :
  Test2.ensure_dir p w = (Ok tt, w') ->
  path_exists p w' /\ files w' = files w /\ progress w' = progress w.
Proof.
  unfold Test2.ensure_dir, bind, Os.exists_.
  destruct (bool_decide (p ∈ dirs w)) eqn:Hd; simpl.
  - intros [= <-]. apply bool_decide_eq_true in Hd. by repeat split; [left|..].
  - destruct (bool_decide (is_Some (files w !! p))) eqn:Hf; simpl.
    + intros [= <-]. apply bool_decide_eq_true in Hf. by repeat split; [right|..].
    + apply makedirs_Ok.
Qed.

Lemma exists_true p w : path_exists p w -> Os.exists_ p w = (Ok true, w).
Proof.
  intros [Hd|Hf]; unfold Os.exists_.
  - by rewrite (bool_decide_eq_true_2 _ Hd).
  - rewrite (bool_decide_eq_true_2 _ Hf). by rewrite orb_true_r.
Qed.

(** The end of either driver: saving, then the guarded [rmtree]. *)
Lemma cleanup_removes output_dir cb sections (total : nat) w n w' :
  let temp_img_dir := PyStr.path_join output_dir "temp_images" in
  path_exists temp_img_dir w ->
  (save_sections output_dir cb sections ;;;
   let* there := Os.exists_ temp_img_dir in
   (if there then Os.rmtree temp_img_dir else ret tt) ;;;
   ret total) w = (Ok n, w') ->
  scratch_removed output_dir w'.
Proof.
  intros temp Hex Hrun.
  apply bind_Ok in Hrun as (u & w1 & Hsave & Hrun).
  pose proof (exists_save_sections temp output_dir cb sections w Hex) as Hex1.
  rewrite Hsave in Hex1. simpl in Hex1.
  apply bind_Ok in Hrun as (there & w2 & Hthere & Hrun).
  rewrite (exists_true _ _ Hex1) in Hthere. injection Hthere as <- <-.
  apply bind_Ok in Hrun as ([] & w3 & Hrm & Hret).
  injection Hret as _ <-.
  intros q Hq. by eapply rmtree_removes.
Qed.

(** X28.  A pass of either script over a source with at least one top-level
    block that runs to its [return] has removed the scratch directory
    and all below it. *)
Theorem completed_pass_removes_scratch (script : Script)
    (docx_path output_dir heading_style : string) (progress_callback : bool)
    (w : World) (doc : SourceDoc) (n : nat) (w' : World) :
  files w !! docx_path = Some (SourceDocx doc) ->
  src_blocks doc <> [] ->
  split_of script docx_path output_dir heading_style progress_callback w = (Ok n, w') ->
  scratch_removed output_dir w'.
Proof.
  intros Hdoc Hne Hrun.
  assert (exists w2,
    path_exists (PyStr.path_join output_dir "temp_images") w2 /\
    files w2 = files w /\
    (let temp_img_dir := PyStr.path_join output_dir "temp_images" in
     let* doc := open_document docx_path in
     let blocks := src_blocks doc in
     match blocks with
     | [] => ret 0
     | _ :: _ =>
        let indices := section_indices heading_style blocks in
        let* sections :=
          for_each (seq 0 (length indices - 1))
            (fun i sections =>
               let* found :=
                 lift (match script with
                       | test2_py => Test2.section_at
                       | test3_py => Test3.section_at
                       end heading_style blocks indices i) in
               match found with
               | None => ret sections
               | Some (title, section_blocks) =>
                   let* current_doc :=
                     build_section (copy_paragraph_of script) doc temp_img_dir
                       section_blocks in
                   ret (sections ++ [(title, current_doc)])
               end)
            [] in
        let total := length sections in
        save_sections output_dir progress_callback sections ;;;
        let* there := Os.exists_ temp_img_dir in
        (if there then Os.rmtree temp_img_dir else ret tt) ;;;
        ret total
     end) w2 = (Ok n, w')) as (w2 & Hex & Hfiles & Hrest).
  { destruct script; simpl in Hrun;
      [unfold Test2.split_docx_by_heading_with_images in Hrun
      |unfold Test3.split_docx_by_heading_with_images in Hrun];
      apply bind_Ok in Hrun as ([] & w1 & H1 & Hrun);
      apply bind_Ok in Hrun as ([] & w2 & H2 & Hrun);
      exists w2.
    - apply ensure_dir_Ok in H1 as (_ & Hf1 & _).
      apply ensure_dir_Ok in H2 as (Hex & Hf2 & _).
      split; [done|]. split; [congruence|done].
    - apply makedirs_Ok in H1 as (_ & Hf1 & _).
      apply makedirs_Ok in H2 as (Hex & Hf2 & _).
      split; [done|]. split; [congruence|done]. }
  cbv zeta in Hrest.
  apply bind_Ok in Hrest as (doc' & w3 & Hopen & Hrest).
  unfold open_document in Hopen. rewrite Hfiles, Hdoc in Hopen.
  injection Hopen as <- <-.
  destruct (src_blocks doc) as [|b blocks] eqn:Hblocks; [done|].
  apply bind_Ok in Hrest as (sections & w4 & Hloop & Hrest).
  eapply cleanup_removes; [|exact Hrest].
  match type of Hloop with
  | ?m w2 = _ =>
      assert (preserves (path_exists (PyStr.path_join output_dir "temp_images")) m)
        as Hkeep by apply exists_sections_loop
  end.
  specialize (Hkeep w2 Hex). by rewrite Hloop in Hkeep.
Qed.

Lemma completed_pass_removes_scratch_witness :
  let w := world_leftover (source_of five_blocks) in
  files w !! "out/temp_images/rId7.png" = Some (Blob "PNGDATA") /\
  scratch_removed "out" (split_of test3_py "in.docx" "out" "Heading 1" true w).2.
Proof.
  intros w. split; [reflexivity|].
  apply (completed_pass_removes_scratch test3_py "in.docx" "out" "Heading 1" true
           w (source_of five_blocks) 3).
  - reflexivity.
  - discriminate.
  - vm_compute. reflexivity.
Defined.

Lemma bind_run {A B} (m : M A) (k : A -> M B) w a w1 :
  m w = (Ok a, w1) -> bind m k w = k a w1.
Proof. intros H. unfold bind. by rewrite H. Qed.

Lemma makedirs_run p w :
  files w !! p = None ->
  exists w1, Os.makedirs p w = (Ok tt, w1) /\
    p ∈ dirs w1 /\ dirs w ⊆ dirs w1 /\ files w1 = files w /\ progress w1 = progress w.
Proof.
  intros H. unfold Os.makedirs. rewrite H. eexists. split; [done|].
  simpl. repeat split; set_solver.
Qed.

Lemma ensure_dir_run p w :
  files w !! p = None ->
  exists w1, Test2.ensure_dir p w = (Ok tt, w1) /\
    p ∈ dirs w1 /\ dirs w ⊆ dirs w1 /\ files w1 = files w /\ progress w1 = progress w.
Proof.
  intros H. unfold Test2.ensure_dir, bind, Os.exists_.
  destruct (bool_decide (p ∈ dirs w)) eqn:Hd; simpl.
  - apply bool_decide_eq_true in Hd. by exists w.
  - rewrite H. rewrite bool_decide_eq_false_2 by (by intros []).
    by apply makedirs_run.
Qed.

(** C3.  On a source with no top-level block either script returns 0
    and writes no file, but it returns before its [rmtree]: the scratch
    directory it made on entry is still there. *)
Theorem empty_source_keeps_scratch (script : Script)
    (docx_path output_dir heading_style : string) (progress_callback : bool)
    (w : World) (doc : SourceDoc) :
  files w !! docx_path = Some (SourceDocx doc) ->
  src_blocks doc = [] ->
  files w !! output_dir = None ->
  files w !! PyStr.path_join output_dir "temp_images" = None ->
  let r := split_of script docx_path output_dir heading_style progress_callback w in
  r.1 = Ok 0 /\ files r.2 = files w /\ progress r.2 = progress w /\
  PyStr.path_join output_dir "temp_images" ∈ dirs r.2.
Proof.
  intros Hdoc Hempty Hout Htemp.
  set (temp := PyStr.path_join output_dir "temp_images") in *.
  destruct script; simpl.
  - destruct (ensure_dir_run output_dir w Hout) as (w1 & H1 & _ & _ & Hf1 & Hp1).
    destruct (ensure_dir_run temp w1) as (w2 & H2 & Hd2 & _ & Hf2 & Hp2);
      [by rewrite Hf1|].
    unfold Test2.split_docx_by_heading_with_images. fold temp.
    rewrite (bind_run _ _ _ _ _ H1), (bind_run _ _ _ _ _ H2).
    unfold bind, open_document. rewrite Hf2, Hf1, Hdoc, Hempty. simpl.
    repeat split; [congruence..|done].
  - destruct (makedirs_run output_dir w Hout) as (w1 & H1 & _ & _ & Hf1 & Hp1).
    destruct (makedirs_run temp w1) as (w2 & H2 & Hd2 & _ & Hf2 & Hp2);
      [by rewrite Hf1|].
    unfold Test3.split_docx_by_heading_with_images. fold temp.
    rewrite (bind_run _ _ _ _ _ H1), (bind_run _ _ _ _ _ H2).
    unfold bind, open_document. rewrite Hf2, Hf1, Hdoc, Hempty. simpl.
    repeat split; [congruence..|done].
Qed.

Lemma empty_source_keeps_scratch_witness :
  let r := split_of test3_py "in.docx" "out" "Heading 1" true
             (world_with (source_of [])) in
  r.1 = Ok 0 /\ files r.2 = files (world_with (source_of [])) /\
  progress r.2 = [] /\ "out/temp_images" ∈ dirs r.2.
Proof.
  apply (empty_source_keeps_scratch test3_py "in.docx" "out" "Heading 1" true
           (world_with (source_of [])) (source_of [])); reflexivity.
Defined.

(** ** Output names

    [out_name] starts with the two-digit index and an underscore; the
    index alone tells two names of one pass apart. *)

Lemma free_of_cons c0 c s :
  free_of c0 (String c s) <-> c <> c0 /\ free_of c0 s.
Proof. unfold free_of. simpl. apply (Forall_cons (fun c => c <> c0)). Qed.

Lemma pretty_N_char_digit x c0 :
  PyStr.isdecimal c0 = false -> pretty_N_char x <> c0.
Proof. intros Hc <-. unfold pretty_N_char in Hc. by repeat case_match. Qed.

Lemma pretty_N_go_free c0 x s :
  PyStr.isdecimal c0 = false -> free_of c0 s -> free_of c0 (pretty_N_go x s).
Proof.
  intros Hc. revert s. induction (N.lt_wf_0 x) as [x _ IH]; intros s Hs.
  destruct (decide (x = 0)%N) as [->|Hx].
  - by rewrite pretty_N_go_0.
  - rewrite pretty_N_go_step by lia. apply IH.
    + apply N.div_lt; lia.
    + apply free_of_cons. split; [by apply pretty_N_char_digit|done].
Qed.

Lemma pretty_nat_free c0 (n : nat) :
  PyStr.isdecimal c0 = false -> free_of c0 (pretty n).
Proof.
  intros Hc. unfold pretty, pretty_nat, pretty, pretty_N. case_decide.
  - apply free_of_cons. split; [by intros <-|constructor].
  - apply pretty_N_go_free; [done|constructor].
Qed.

(** A decimal numeral of a positive number does not start with 0. *)
Lemma pretty_N_go_leading x s t :
  (0 < x)%N -> pretty_N_go x s <> String "0" t.
Proof.
  revert s t. induction (N.lt_wf_0 x) as [x _ IH]; intros s t Hx.
  rewrite pretty_N_go_step by done.
  destruct (decide (x `div` 10 = 0)%N) as [Hd|Hd].
  - rewrite Hd, pretty_N_go_0.
    assert (x < 10)%N by (by apply N.div_small_iff in Hd).
    rewrite N.mod_small by done.
    assert (x = 1 ∨ x = 2 ∨ x = 3 ∨ x = 4 ∨ x = 5 ∨ x = 6 ∨ x = 7 ∨ x = 8 ∨ x = 9)%N
      as Hcases by lia.
    repeat (destruct Hcases as [->|Hcases]; [discriminate|]). by subst.
  - apply IH; [apply N.div_lt; lia|].
    destruct (x `div` 10)%N; [done|lia].
Qed.

Lemma pretty_nat_leading (n : nat) t : 0 < n -> pretty n <> String "0" t.
Proof.
  intros Hn. unfold pretty, pretty_nat, pretty, pretty_N.
  case_decide; [lia|]. apply pretty_N_go_leading. lia.
Qed.

Lemma format_02d_free c0 n :
  PyStr.isdecimal c0 = false -> free_of c0 (format_02d n).
Proof.
  intros Hc. unfold format_02d. destruct (n <? 10).
  - apply free_of_cons. split; [by intros <-|by apply pretty_nat_free].
  - by apply pretty_nat_free.
Qed.

Lemma format_02d_inj n m : format_02d n = format_02d m -> n = m.
Proof.
  unfold format_02d.
  destruct (Nat.ltb_spec n 10) as [Hn|Hn], (Nat.ltb_spec m 10) as [Hm|Hm]; simpl.
  - intros [= Heq]. by apply (inj pretty).
  - intros Heq. symmetry in Heq. by apply pretty_nat_leading in Heq; [|lia].
  - intros Heq. by apply pretty_nat_leading in Heq; [|lia].
  - apply (inj pretty).
Qed.

(** Two equal strings that each start with a part free of [c0], then
    [c0], agree on that part. *)
Lemma separator_split c0 d1 d2 r1 r2 :
  free_of c0 d1 -> free_of c0 d2 ->
  d1 +:+ String c0 r1 = d2 +:+ String c0 r2 -> d1 = d2.
Proof.
  revert d2. induction d1 as [|c d1 IH]; intros [|c' d2]; simpl;
    rewrite ?free_of_cons; intros H1 H2 Heq.
  - done.
  - injection Heq as <- _. by destruct H2.
  - injection Heq as -> _. by destruct H1.
  - injection Heq as <- Heq. f_equal. apply IH; [apply H1|apply H2|done].
Qed.

Lemma out_name_inj i j t1 t2 : out_name i t1 = out_name j t2 -> i = j.
Proof.
  unfold out_name. intros H.
  apply separator_split in H; [|by apply format_02d_free..].
  apply format_02d_inj in H. lia.
Qed.

Lemma out_name_relative i t s : out_name i t <> String "/" s.
Proof.
  unfold out_name.
  pose proof (format_02d_free "/" (i + 1) eq_refl) as Hfree.
  destruct (format_02d (i + 1)) as [|c d]; simpl.
  - discriminate.
  - apply free_of_cons in Hfree as [Hc _]. by intros [= -> _].
Qed.

Lemma path_join_relative a b :
  (forall s, b <> String "/" s) ->
  PyStr.path_join a b
  = if negb (PyStr.truthy a) || PyStr.endswith_sep a
    then a +:+ b else a +:+ "/" +:+ b.
Proof.
  intros Hb. unfold PyStr.path_join.
  destruct b as [|c s]; [done|].
  destruct (ascii_dec c "/") as [->|Hc]; [by destruct (Hb s)|].
  destruct c as [[] [] [] [] [] [] [] []]; done.
Qed.

Lemma path_join_inj a b b' :
  (forall s, b <> String "/" s) -> (forall s, b' <> String "/" s) ->
  PyStr.path_join a b = PyStr.path_join a b' -> b = b'.
Proof.
  intros Hb Hb'. rewrite !path_join_relative by done.
  destruct (negb (PyStr.truthy a) || PyStr.endswith_sep a); intros Heq.
  - by apply (inj (String.app a)) in Heq.
  - apply (inj (String.app a)) in Heq. by apply (inj (String.app "/")) in Heq.
Qed.

Lemma enumerate_lookup {A} (xs : list A) k i x :
  enumerate xs !! k = Some (i, x) -> i = k /\ xs !! k = Some x.
Proof.
  unfold enumerate. intros H.
  apply lookup_zip_with_Some in H as (i' & x' & [= <- <-] & Hi & Hx).
  apply lookup_seq in Hi as [-> _]. done.
Qed.

(** C10.  The paths under which one pass saves its sections are
    pairwise distinct, whatever the titles. *)
Theorem out_paths_distinct (output_dir : string) (sections : list (string * OutDoc)) :
  NoDup (out_paths output_dir sections).
Proof.
  unfold out_paths. apply NoDup_alt. intros a b p Ha Hb.
  rewrite list_lookup_fmap in Ha, Hb.
  destruct (enumerate sections !! a) as [[i [t1 d1]]|] eqn:Ea; [|done].
  destruct (enumerate sections !! b) as [[j [t2 d2]]|] eqn:Eb; [|done].
  apply enumerate_lookup in Ea as [-> _], Eb as [-> _].
  simpl in Ha, Hb. injection Ha as <-. injection Hb as Hb.
  apply path_join_inj in Hb; [|apply out_name_relative..].
  by apply out_name_inj in Hb.
Qed.

Lemma out_path_inj output_dir i j t1 t2 :
  PyStr.path_join output_dir (out_name i t1) = PyStr.path_join output_dir (out_name j t2) ->
  i = j.
Proof.
  intros H. apply path_join_inj in H; [|apply out_name_relative..].
  by apply out_name_inj in H.
Qed.

(** The save loop from position [k] on: each section ends up under its
    own path, and no other path is touched. *)
Lemma save_loop_files output_dir (cb : bool) total sections : forall k w w',
  for_each (zip (seq k (length sections)) sections)
    (fun '(i, (title, section_doc)) _ =>
       let out_path := PyStr.path_join output_dir (out_name i title) in
       Os.write out_path (SavedDocx section_doc) ;;;
       if cb then Os.report (i + 1) total else ret tt)
    tt w = (Ok tt, w') ->
  (forall i title section_doc,
     sections !! i = Some (title, section_doc) ->
     files w' !! PyStr.path_join output_dir (out_name (k + i) title)
     = Some (SavedDocx section_doc)) /\
  (forall p,
     (forall i title section_doc,
        sections !! i = Some (title, section_doc) ->
        p <> PyStr.path_join output_dir (out_name (k + i) title)) ->
     files w' !! p = files w !! p).
Proof.
  induction sections as [|[title section_doc] sections IH]; intros k w w' H.
  - injection H as <-. split; [by intros i ? ? ?|done].
  - simpl in H. apply bind_Ok in H as ([] & w1 & Hstep & Hrest).
    apply IH in Hrest as [Hsaved Hkept].
    assert (files w1 = <[PyStr.path_join output_dir (out_name k title)
                         := SavedDocx section_doc]> (files w)) as Hw1.
    { apply bind_Ok in Hstep as ([] & w2 & Hwrite & Hreport).
      apply write_Ok in Hwrite as [-> _].
      destruct cb; [unfold Os.report in Hreport|unfold ret in Hreport];
        by injection Hreport as <-. }
    split.
    + intros [|i] t d Hi; simpl in Hi.
      * injection Hi as -> ->. rewrite Nat.add_0_r, Hkept, Hw1.
        { apply lookup_insert_eq. }
        intros j t' d' _ Heq. apply out_path_inj in Heq. lia.
      * replace (k + S i) with (S k + i) by lia. by apply Hsaved.
    + intros p Hp. rewrite Hkept, Hw1.
      * apply lookup_insert_ne. intros Heq. apply (Hp 0 title section_doc); [done|].
        by rewrite Nat.add_0_r.
      * intros i t d Hi. replace (S k + i) with (k + S i) by lia. by apply (Hp (S i) t d).
Qed.

(** After a save loop that has returned, every section is on disk
    under its own path: none has overwritten another. *)
Lemma save_sections_keeps_all output_dir cb sections w w' :
  save_sections output_dir cb sections w = (Ok tt, w') ->
  forall i title section_doc,
    sections !! i = Some (title, section_doc) ->
    files w' !! PyStr.path_join output_dir (out_name i title)
    = Some (SavedDocx section_doc).
Proof.
  unfold save_sections, enumerate. intros H.
  apply save_loop_files in H as [H _]. exact H.
Qed.

(** ** Nested tables *)

Lemma append_empty_r (s : string) : s +:+ "" = s.
Proof.
  induction s as [|c s IH]; [done|].
  change (String c (s +:+ "") = String c s). by rewrite IH.
Qed.

Lemma out_paragraph_text_text_paragraph style text :
  out_paragraph_text (text_paragraph style text) = text.
Proof.
  unfold out_paragraph_text, text_paragraph. simpl.
  destruct text; simpl; [done|]. by rewrite append_empty_r.
Qed.

Lemma append_rows (row_paragraph : list Cell -> OutParagraph) rows target :
  fold_left (fun target row => append_block target (OParagraph (row_paragraph row)))
    rows target
  = {| kind := kind target;
       content := content target ++ map (fun row => OParagraph (row_paragraph row)) rows |}.
Proof.
  revert target. induction rows as [|row rows IH]; intros target; simpl.
  - rewrite app_nil_r. by destruct target.
  - rewrite IH. simpl. by rewrite <- app_assoc.
Qed.

Lemma copy_nested_table_flattens source_table target :
  kind (copy_nested_table source_table target) = kind target /\
  flattens tab_joined_stripped source_table (content target)
    (content (copy_nested_table source_table target)).
Proof.
  unfold copy_nested_table.
  rewrite (append_rows (fun row => text_paragraph None (tab_joined_stripped row))).
  split; [done|]. simpl.
  exists (text_paragraph (Some "Caption") "[Nested Table Content Below]"),
    (map (fun row => text_paragraph None (tab_joined_stripped row))
       (tbl_rows source_table)).
  split; [|split].
  - rewrite <- app_assoc. simpl. by rewrite map_map.
  - reflexivity.
  - rewrite map_map. apply map_ext. intros row.
    apply out_paragraph_text_text_paragraph.
Qed.

(** C5, amended.  Copied into a cell, a table leaves no table there:
    in either script the copier returns without an exception and
    without touching the world, and the cell has gained one marker
    paragraph and, for each source row, one paragraph whose text is the
    row's cell texts, each stripped of surrounding whitespace, joined
    by a tab. *)
Theorem nested_table_flattened (script : Script) (parts : gmap string Part)
    (source_table : Table) (before : list OutBlock) (temp_img_dir : string)
    (w : World) :
  exists after,
    copy_table (copy_paragraph_of script) parts source_table
      {| kind := IsCell; content := before |} temp_img_dir w
    = (Ok (source_table, {| kind := IsCell; content := after |}), w) /\
    flattens tab_joined_stripped source_table before after.
Proof.
  destruct (copy_nested_table_flattens source_table
              {| kind := IsCell; content := before |}) as [Hkind Hflat].
  exists (content (copy_nested_table source_table {| kind := IsCell; content := before |})).
  split; [|exact Hflat].
  unfold copy_table, ret. simpl. do 3 f_equal.
  destruct (copy_nested_table _ _) as [k c]. simpl in Hkind. by subst k.
Qed.

(** C5 as stated fails: a cell that reads [" a "] comes out as ["a"],
    not as the cell text itself, in either script. *)
Lemma padded_cell_text_is_stripped :
  let run script :=
    copy_table (copy_paragraph_of script) ∅ padded_table empty_cell
      "out/temp_images" empty_world in
  let row_paragraph := {| out_pPr := None; out_runs := [plain_run "a"] |} in
  let after :=
    [OParagraph (text_paragraph (Some "Caption") "[Nested Table Content Below]");
     OParagraph row_paragraph] in
  (run test2_py).1 = Ok (padded_table, {| kind := IsCell; content := after |}) /\
  (run test3_py).1 = Ok (padded_table, {| kind := IsCell; content := after |}) /\
  out_paragraph_text row_paragraph = "a" /\
  map tab_joined (tbl_rows padded_table) = [" a "] /\
  ~ flattens tab_joined padded_table (content empty_cell) after.
Proof.
  repeat split.
  intros (marker & rows_out & Hafter & _ & Htext). simpl in Hafter.
  destruct rows_out as [|p [|? ?]]; try discriminate Hafter.
  injection Hafter as _ <-. vm_compute in Htext. discriminate Htext.
Qed.

(** ** Numbering *)

(** A numbering reference leaves the source paragraph when it is
    copied. *)
Lemma copy_numbering_moves source_para target_para ppr n :
  pPr source_para = Some ppr -> numPr ppr = Some n ->
  let '(source_para', target_para') := copy_numbering source_para target_para in
  (pPr source_para' ≫= numPr) = None /\ (out_pPr target_para' ≫= numPr) = Some n.
Proof. intros Hp Hn. unfold copy_numbering. by rewrite Hp, Hn. Qed.

(** C6.  Copying the list item [numbered_para] returns, in either
    script, with the numbering reference in the built paragraph and no
    longer in the source paragraph: the source block model is changed
    by the copy. *)
Theorem copy_moves_numbering (script : Script) :
  exists source_para' target,
    copy_paragraph_of script ∅ numbered_para empty_body "out/temp_images" empty_world
    = (Ok (source_para', target), empty_world) /\
    (pPr numbered_para ≫= numPr) = Some {| numId := 1; ilvl := 0 |} /\
    (pPr source_para' ≫= numPr) = None /\
    source_para' <> numbered_para.
Proof.
  eexists _, _. split; [destruct script; vm_compute; reflexivity|].
  repeat split. discriminate.
Qed.

(** ** Drawings that cannot be reproduced *)

Lemma try_except_Ok {A} (m : M A) caught handler w a w' :
  try_except m caught handler w = (Ok a, w') ->
  m w = (Ok a, w') \/
  exists e w1, m w = (Raise e, w1) /\ caught e = true /\ handler w1 = (Ok a, w').
Proof.
  unfold try_except. destruct (m w) as [[a1|e] w1]; intros H.
  - by left.
  - right. exists e, w1. by destruct (caught e).
Qed.

Lemma for_each_Ok_inv {A S} (I : S -> Prop) (xs : list A) (body : A -> S -> M S) :
  (forall x s w s' w', body x s w = (Ok s', w') -> I s -> I s') ->
  forall s w s' w', for_each xs body s w = (Ok s', w') -> I s -> I s'.
Proof.
  intros Hbody. induction xs as [|x xs IH]; intros s w s' w' H Hs; simpl in H.
  - by injection H as <- _.
  - apply bind_Ok in H as (s1 & w1 & H1 & H2). eauto.
Qed.

(** The three annotations differ from one another. *)
Lemma placeholders_distinct :
  Test3.msg_broken_link <> Test3.msg_complex /\
  Test3.msg_complex <> Test3.msg_shape /\
  Test3.msg_broken_link <> Test3.msg_shape.
Proof. repeat split; discriminate. Qed.

(** In [test3.py] a drawing that cannot be reproduced as a picture
    leaves one italic run with the annotation of its failure, and
    nothing else happens. *)
Lemma Test3_copy_drawing_placeholder parts temp_img_dir drawing target_para w msg :
  failure_of parts drawing = Some msg ->
  Test3.copy_drawing parts temp_img_dir drawing target_para w
  = (Ok (add_run target_para (placeholder_run msg)), w) /\
  out_italic (placeholder_run msg) = Some true /\
  out_picture (placeholder_run msg) = None.
Proof.
  unfold failure_of, Test3.copy_drawing. intros H.
  split; [|done].
  destruct (truthy_attr _) as [rId|]; [|by injection H as <-].
  unfold try_except.
  destruct (parts !! rId) as [[blob|blob]|]; [done| |]; by injection H as <-.
Qed.

(** In [test3.py] a drawing whose first blip leads to an image part
    stops the copy: [default_ext] raises, and [except KeyError] lets
    the [AttributeError] through. *)
Lemma Test3_copy_drawing_image parts temp_img_dir drawing target_para w :
  failure_of parts drawing = None ->
  Test3.copy_drawing parts temp_img_dir drawing target_para w = (Raise AttributeError, w).
Proof.
  unfold failure_of, Test3.copy_drawing. intros H.
  destruct (truthy_attr _) as [rId|]; [|done].
  by destruct (parts !! rId) as [[blob|blob]|].
Qed.

(** What [test3.py] does with a drawing, case by case. *)
Lemma Test3_copy_drawing_cases parts temp_img_dir drawing target_para w :
  Test3.copy_drawing parts temp_img_dir drawing target_para w
  = match failure_of parts drawing with
    | Some msg => (Ok (add_run target_para (placeholder_run msg)), w)
    | None => (Raise AttributeError, w)
    end.
Proof.
  destruct (failure_of parts drawing) as [msg|] eqn:E.
  - by apply Test3_copy_drawing_placeholder.
  - by apply Test3_copy_drawing_image.
Qed.

Lemma Test3_copy_drawing_pPr parts temp_img_dir drawing target_para w target_para' w' :
  Test3.copy_drawing parts temp_img_dir drawing target_para w = (Ok target_para', w') ->
  out_pPr target_para' = out_pPr target_para.
Proof.
  rewrite Test3_copy_drawing_cases.
  destruct (failure_of parts drawing); [|done]. by intros [= <- _].
Qed.

(** ** Blank paragraphs *)

Lemma copy_numbering_pPr source_para target_para :
  is_Some (out_pPr target_para) ->
  is_Some (out_pPr (copy_numbering source_para target_para).2).
Proof.
  unfold copy_numbering. destruct (pPr source_para) as [ppr|]; [|done].
  destruct (numPr ppr); [by eexists|done].
Qed.

(** In [test3.py] a blank paragraph gives the bare paragraph, and a
    paragraph that is not blank never does. *)
Lemma Test3_bare_iff_blank parts source_para target temp_img_dir w :
  (blank source_para = true ->
   Test3.copy_paragraph parts source_para target temp_img_dir w
   = (Ok (source_para, append_block target (OParagraph empty_paragraph)), w)) /\
  (blank source_para = false ->
   forall source_para' target' w',
     Test3.copy_paragraph parts source_para target temp_img_dir w
     = (Ok (source_para', target'), w') ->
     exists p, target' = append_block target (OParagraph p) /\ p <> empty_paragraph).
Proof.
  unfold blank, Test3.copy_paragraph. split; intros Hb; rewrite Hb; [done|].
  intros source_para' target' w'.
  pose proof (copy_numbering_pPr source_para
    (set_alignment (set_style empty_paragraph (style_name source_para))
       (alignment source_para))) as Hp.
  destruct (copy_numbering _ _) as [sp tp]. simpl in Hp.
  intros H. apply bind_Ok in H as (tp' & w1 & Hloop & H). injection H as _ <- _.
  exists tp'. split; [done|].
  assert (is_Some (out_pPr tp')) as [ppr Hppr]; [|by intros ->].
  eapply (for_each_Ok_inv (fun tp => is_Some (out_pPr tp)));
    [|exact Hloop|by apply Hp; eexists].
  simpl. intros run s w2 s' w2' Hrun Hs.
  eapply (for_each_Ok_inv (fun tp => is_Some (out_pPr tp))); [|exact Hrun|exact Hs].
  simpl. intros d s1 w3 s1' w3' Hd Hs1.
  apply Test3_copy_drawing_pPr in Hd. by rewrite Hd.
Qed.

(** A paragraph of text runs alone is copied run by run, and the copy
    returns. *)
Lemma Test3_copy_text_runs parts temp_img_dir rs target_para w :
  Forall (fun run => drawings run = []) rs ->
  for_each rs
    (fun run target_para =>
       for_each (drawings run) (Test3.copy_drawing parts temp_img_dir)
         (add_run target_para (copy_run run)))
    target_para w
  = (Ok (fold_left (fun target_para run => add_run target_para (copy_run run))
           rs target_para), w).
Proof.
  intros Hrs. revert target_para.
  induction Hrs as [|run rs Hrun _ IH]; intros target_para; simpl; [done|].
  unfold bind. rewrite Hrun. simpl. apply IH.
Qed.

Lemma Test3_copy_text_paragraph parts source_para target temp_img_dir w :
  blank source_para = false -> Test3.has_drawing source_para = false ->
  let start :=
    copy_numbering source_para
      (set_alignment (set_style empty_paragraph (style_name source_para))
         (alignment source_para)) in
  Test3.copy_paragraph parts source_para target temp_img_dir w
  = (Ok (start.1,
         append_block target
           (OParagraph
              (fold_left (fun target_para run => add_run target_para (copy_run run))
                 (runs source_para) start.2))), w).
Proof.
  intros Hb Hd start. subst start. unfold blank in Hb.
  unfold Test3.copy_paragraph. rewrite Hb.
  destruct (copy_numbering _ _) as [sp tp]. simpl.
  unfold bind. rewrite Test3_copy_text_runs; [done|].
  unfold Test3.has_drawing in Hd. apply Forall_forall. intros run Hin.
  destruct (drawings run) eqn:E; [done|].
  assert (existsb (fun run => match drawings run with [] => false | _ => true end)
            (runs source_para) = true) as Hex; [|congruence].
  apply existsb_exists. exists run. split; [by apply list_elem_of_In|by rewrite E].
Qed.

(** C9.  A paragraph of one whitespace-only run is blank, yet
    [test2.py], which asks whether the paragraph has runs at all,
    copies it with its style and its run; [test3.py] appends the bare
    paragraph. *)
Theorem test2_copies_whitespace_paragraph :
  blank whitespace_para = true /\
  built (Test2.copy_paragraph ∅ whitespace_para empty_body "out/temp_images" empty_world)
  = Some (normal_paragraph [copy_run (text_run " ")]) /\
  normal_paragraph [copy_run (text_run " ")] <> empty_paragraph /\
  built (Test3.copy_paragraph ∅ whitespace_para empty_body "out/temp_images" empty_world)
  = Some empty_paragraph.
Proof. repeat split. discriminate. Qed.

Lemma truthy_attr_Some rId : rId <> "" -> truthy_attr (Some rId) = Some rId.
Proof. by destruct rId. Qed.

(** C4.  [test2.py] has no placeholder: a drawing whose relationship
    id is missing from the table, or leads to a chart, leaves only a
    printed warning, and a drawing without any blip leaves nothing at
    all; the built paragraph holds the copied run alone.  [test3.py]
    appends the annotation of the failure in each case. *)
Theorem test2_drops_unresolved_drawings :
  let copy copy_paragraph parts d :=
    copy_paragraph parts (picture_para d) empty_body "out/temp_images" empty_world in
  let linked := linked_drawing None in
  let run d := copy_run (drawing_run d) in
  (built (copy Test2.copy_paragraph ∅ linked) = Some (normal_paragraph [run linked]) /\
   built (copy Test2.copy_paragraph chart_parts linked)
   = Some (normal_paragraph [run linked]) /\
   built (copy Test2.copy_paragraph ∅ shape_drawing)
   = Some (normal_paragraph [run shape_drawing]) /\
   printed (copy Test2.copy_paragraph ∅ shape_drawing).2 = []) /\
  (built (copy Test3.copy_paragraph ∅ linked)
   = Some (normal_paragraph [run linked; placeholder_run Test3.msg_broken_link]) /\
   built (copy Test3.copy_paragraph chart_parts linked)
   = Some (normal_paragraph [run linked; placeholder_run Test3.msg_complex]) /\
   built (copy Test3.copy_paragraph ∅ shape_drawing)
   = Some (normal_paragraph [run shape_drawing; placeholder_run Test3.msg_shape])).
Proof. repeat split; vm_compute; reflexivity. Qed.

(** ** More on the sections *)

Lemma section_indices_split heading_style blocks :
  section_indices heading_style blocks
  = (match blocks with
     | first :: _ => if is_heading heading_style first then [] else [0]
     | [] => []
     end)
    ++ heading_indices_from heading_style 0 blocks ++ [length blocks].
Proof. reflexivity. Qed.

Lemma heading_indices_from_length heading_style k blocks :
  length (heading_indices_from heading_style k blocks) = heading_count heading_style blocks.
Proof.
  revert k. induction blocks as [|b blocks IH]; intros k; [done|].
  rewrite heading_indices_from_cons, length_app, IH. unfold heading_count. simpl.
  by destruct (is_heading heading_style b).
Qed.

Lemma section_indices_length heading_style blocks :
  length (section_indices heading_style blocks) - 1
  = leading_count heading_style blocks + heading_count heading_style blocks.
Proof.
  rewrite section_indices_split, !length_app, heading_indices_from_length. simpl.
  unfold leading_count. destruct blocks as [|b ?]; [done|].
  destruct (is_heading heading_style b); simpl; lia.
Qed.

(** Every position of a heading is a boundary. *)
Lemma heading_indices_from_complete heading_style k blocks j b :
  blocks !! j = Some b -> is_heading heading_style b = true ->
  k + j ∈ heading_indices_from heading_style k blocks.
Proof.
  revert k j. induction blocks as [|b0 blocks IH]; intros k j Hj Hb; [done|].
  rewrite heading_indices_from_cons, elem_of_app. destruct j as [|j]; simpl in Hj.
  - injection Hj as ->. rewrite Hb, Nat.add_0_r. left. by apply list_elem_of_singleton.
  - right. replace (k + S j) with (S k + j) by lia. by apply IH.
Qed.

(** The sections of either script, each the cut at its own position. *)
Lemma segment_of_cuts script heading_style blocks :
  blocks <> [] ->
  exists sections,
    segment_of script heading_style blocks = Ok sections /\
    Forall2 (cut_of heading_style blocks (section_indices heading_style blocks))
      (seq 0 (length (section_indices heading_style blocks) - 1)) sections.
Proof.
  intros Hne. destruct script; simpl.
  - destruct (segment_cuts heading_style _ blocks Hne (Test2_cuts heading_style blocks _))
      as (ss & H & Hc & _). eauto.
  - destruct (segment_cuts heading_style _ blocks Hne (Test3_cuts heading_style blocks _))
      as (ss & H & Hc & _). eauto.
Qed.

Lemma cuts_lookup heading_style blocks idx n (sections : list Section_) i sec :
  Forall2 (cut_of heading_style blocks idx) (seq 0 n) sections ->
  sections !! i = Some sec -> i < n /\ cut_of heading_style blocks idx i sec.
Proof.
  intros Hall Hi.
  destruct (Forall2_lookup_r _ _ _ _ _ Hall Hi) as (j & Hj & Hcut).
  apply lookup_seq in Hj as [-> ?]. done.
Qed.

(** X1.  One section per heading, and one more for what comes before the
    first heading. *)
Theorem section_count (script : Script) (heading_style : string) (blocks : list Block) :
  blocks <> [] ->
  exists sections,
    segment_of script heading_style blocks = Ok sections /\
    length sections
    = leading_count heading_style blocks + heading_count heading_style blocks.
Proof.
  intros Hne. destruct (segment_of_cuts script heading_style blocks Hne) as (ss & H & Hc).
  exists ss. split; [done|].
  apply Forall2_length in Hc. rewrite length_seq in Hc.
  by rewrite <- Hc, section_indices_length.
Qed.

Lemma section_count_witness :
  exists sections,
    segment_of test2_py "Heading 1" five_blocks = Ok sections /\
    length sections = 0 + 3.
Proof. apply (section_count test2_py "Heading 1" five_blocks). discriminate. Defined.

Lemma sorted_between idx i s e x :
  StronglySorted lt idx ->
  idx !! i = Some s -> idx !! (i + 1) = Some e -> x ∈ idx -> x <= s \/ e <= x.
Proof.
  intros Hs Hi He Hx. apply list_elem_of_lookup in Hx as [j Hj].
  destruct (decide (j <= i)) as [Hle|Hgt].
  - left. destruct (decide (j = i)) as [->|Hne]; [rewrite Hi in Hj; injection Hj; lia|].
    pose proof (sorted_lookup_lt idx j i x s Hs ltac:(lia) Hj Hi). lia.
  - right. destruct (decide (j = i + 1)) as [->|Hne]; [rewrite He in Hj; injection Hj; lia|].
    pose proof (sorted_lookup_lt idx (i + 1) j e x Hs ltac:(lia) He Hj). lia.
Qed.

Lemma slice_lookup {A} (s e : nat) (xs : list A) j x :
  slice s e xs !! j = Some x -> xs !! (s + j) = Some x /\ s + j < e.
Proof.
  unfold slice. intros H. apply lookup_take_Some in H as [H Hj].
  rewrite lookup_drop in H. split; [done|lia].
Qed.

(** A boundary that is not the first one and not the last one is the
    position of a heading. *)
Lemma inner_boundary_heading heading_style blocks i s :
  0 < i -> i < length (section_indices heading_style blocks) - 1 ->
  section_indices heading_style blocks !! i = Some s ->
  exists b, blocks !! s = Some b /\ is_heading heading_style b = true.
Proof.
  intros Hi Hlt Hs. rewrite section_indices_split in Hs, Hlt.
  rewrite !length_app in Hlt. simpl in Hlt.
  assert (s ∈ heading_indices_from heading_style 0 blocks) as Hin.
  { destruct blocks as [|b0 blocks]; [simpl in *; lia|].
    destruct (is_heading heading_style b0) eqn:Hb0; simpl in Hs, Hlt.
    - rewrite lookup_app_l in Hs by lia. by eapply list_elem_of_lookup_2.
    - destruct i as [|i]; [lia|]. simpl in Hs.
      rewrite lookup_app_l in Hs by lia. by eapply list_elem_of_lookup_2. }
  apply heading_indices_from_heading in Hin as (b & Hb & Hh).
  rewrite Nat.sub_0_r in Hb. eauto.
Qed.

(** X2.  Headings only ever open a section: a section after the first
    starts with a heading, and no section holds a heading after its
    first block. *)
Theorem headings_open_sections (script : Script) (heading_style : string)
    (blocks : list Block) :
  blocks <> [] ->
  exists sections,
    segment_of script heading_style blocks = Ok sections /\
    forall i title section_blocks,
      sections !! i = Some (title, section_blocks) ->
      (0 < i -> exists b, head section_blocks = Some b /\ is_heading heading_style b = true) /\
      Forall (fun b => is_heading heading_style b = false) (tail section_blocks).
Proof.
  intros Hne. destruct (segment_of_cuts script heading_style blocks Hne) as (ss & H & Hc).
  exists ss. split; [done|]. intros i title bs Hi.
  destruct (cuts_lookup _ _ _ _ _ _ _ Hc Hi) as [Hlt (s & e & b & Hs & He & Hb & Heq & Hhd)].
  injection Heq as -> ->. split.
  - intros Hpos. destruct (inner_boundary_heading heading_style blocks i s Hpos Hlt Hs)
      as (b' & Hb' & Hh). exists b. split; [done|congruence].
  - apply Forall_forall. intros x Hx.
    destruct (is_heading heading_style x) eqn:Hh; [exfalso|done].
    apply list_elem_of_lookup in Hx as [j Hj].
    rewrite lookup_tail in Hj. apply slice_lookup in Hj as [Hj Hje].
    pose proof (section_indices_boundaries heading_style blocks Hne) as [Hsorted _ _].
    pose proof (heading_indices_from_complete heading_style 0 blocks _ _ Hj Hh) as Hin.
    assert (s + S j ∈ section_indices heading_style blocks) as Hin'.
    { rewrite section_indices_split, !elem_of_app. right. left. exact Hin. }
    destruct (sorted_between _ i s e _ Hsorted Hs He Hin'); lia.
Qed.

Lemma headings_open_sections_witness :
  five_blocks <> [] /\
  exists sections,
    segment_of test3_py "Heading 1" five_blocks = Ok sections /\
    forall i title section_blocks,
      sections !! i = Some (title, section_blocks) ->
      (0 < i -> exists b, head section_blocks = Some b /\ is_heading "Heading 1" b = true) /\
      Forall (fun b => is_heading "Heading 1" b = false) (tail section_blocks).
Proof.
  split; [discriminate|].
  apply (headings_open_sections test3_py "Heading 1" five_blocks). discriminate.
Defined.

Lemma section_title_nonempty heading_style i b : section_title heading_style i b <> "".
Proof.
  unfold section_title.
  destruct (PyStr.truthy _) eqn:Ht; [by intros Heq; rewrite Heq in Ht|done].
Qed.

(** X3.  The title of the section at position [i]: the stripped text of
    its heading; [Section_] and the 1-based position when that text is
    blank; [Introduction] for blocks before the first heading, which
    can only be the first section.  It is never empty. *)
Theorem section_titles (script : Script) (heading_style : string)
    (blocks : list Block) :
  blocks <> [] ->
  exists sections,
    segment_of script heading_style blocks = Ok sections /\
    forall i title section_blocks,
      sections !! i = Some (title, section_blocks) ->
      title <> "" /\
      exists first_block,
        head section_blocks = Some first_block /\
        if is_heading heading_style first_block
        then match first_block with
             | BParagraph p =>
                 let text := PyStr.strip (paragraph_text p) in
                 title = if PyStr.truthy text then text
                         else "Section_" +:+ pretty (i + 1)
             | BTable _ => False
             end
        else title = "Introduction" /\ i = 0.
Proof.
  intros Hne. destruct (segment_of_cuts script heading_style blocks Hne) as (ss & H & Hc).
  exists ss. split; [done|]. intros i title bs Hi.
  destruct (cuts_lookup _ _ _ _ _ _ _ Hc Hi) as [Hlt (s & e & b & Hs & He & Hb & Heq & Hhd)].
  injection Heq as -> ->. split; [apply section_title_nonempty|].
  exists b. split; [done|].
  destruct (is_heading heading_style b) eqn:Hh.
  - destruct b as [p|t]; [|done]. simpl in Hh. unfold section_title. by rewrite Hh.
  - split.
    + unfold section_title. destruct b as [p|t]; [|done]. simpl in Hh. by rewrite Hh.
    + destruct i as [|i]; [done|].
      destruct (inner_boundary_heading heading_style blocks (S i) s) as (b' & Hb' & Hh');
        [lia|done|done|congruence].
Qed.

Lemma section_titles_witness :
  five_blocks <> [] /\
  exists sections,
    segment_of test2_py "Heading 1" five_blocks = Ok sections /\
    forall i title section_blocks,
      sections !! i = Some (title, section_blocks) ->
      title <> "" /\
      exists first_block,
        head section_blocks = Some first_block /\
        if is_heading "Heading 1" first_block
        then match first_block with
             | BParagraph p =>
                 let text := PyStr.strip (paragraph_text p) in
                 title = if PyStr.truthy text then text
                         else "Section_" +:+ pretty (i + 1)
             | BTable _ => False
             end
        else title = "Introduction" /\ i = 0.
Proof.
  split; [discriminate|].
  apply (section_titles test2_py "Heading 1" five_blocks). discriminate.
Defined.

(** ** The shape of a file name *)

Lemma all_chars_cons keep c s :
  all_chars keep (String c s) <-> keep c = true /\ all_chars keep s.
Proof. unfold all_chars. simpl. apply (Forall_cons (fun c => keep c = true)). Qed.

Lemma filter_all_chars keep s : all_chars keep (PyStr.filter keep s).
Proof.
  induction s as [|c s IH]; simpl; [constructor|].
  destruct (keep c) eqn:Hc; [|done]. by apply all_chars_cons.
Qed.

Lemma rstrip_all_chars keep s : all_chars keep s -> all_chars keep (PyStr.rstrip s).
Proof.
  induction s as [|c s IH]; simpl; [done|].
  intros [Hc Hs]%all_chars_cons. specialize (IH Hs).
  destruct (PyStr.rstrip s) as [|c' r].
  - destruct (PyStr.isspace c); [constructor|]. apply all_chars_cons. by split; [|constructor].
  - by apply all_chars_cons.
Qed.

Lemma take_all_chars keep n s : all_chars keep s -> all_chars keep (PyStr.take n s).
Proof.
  revert s. induction n as [|n IH]; intros [|c s] H; simpl; try constructor.
  - by apply all_chars_cons in H as [? ?].
  - apply all_chars_cons in H as [? ?]. by apply IH.
Qed.

Lemma take_length n s : String.length (PyStr.take n s) <= n.
Proof.
  revert s. induction n as [|n IH]; intros [|c s]; simpl; try lia.
  specialize (IH s). lia.
Qed.

Lemma all_chars_free_of keep c0 s :
  keep c0 = false -> all_chars keep s -> free_of c0 s.
Proof.
  intros Hc Hall. unfold all_chars, free_of in *.
  eapply Forall_impl; [exact Hall|]. simpl. intros c Hk ->. congruence.
Qed.

Lemma free_of_app c0 s1 s2 :
  free_of c0 s1 -> free_of c0 s2 -> free_of c0 (s1 +:+ s2).
Proof.
  induction s1 as [|c s1 IH]; [done|].
  intros [Hc H1]%free_of_cons H2.
  change (free_of c0 (String c (s1 +:+ s2))). apply free_of_cons. auto.
Qed.

(** X4.  The title part of a file name has at most 50 characters, all of
    them letters, digits, spaces, underscores or hyphens; the file
    name has no path separator in it, so the file is saved in the
    output directory itself. *)
Theorem out_name_shape (i : nat) (title : string) :
  String.length (safe_title title) <= 50 /\
  all_chars name_char (safe_title title) /\
  free_of "/" (out_name i title).
Proof.
  assert (all_chars name_char (safe_title title)) as Hall.
  { apply take_all_chars, rstrip_all_chars, (filter_all_chars name_char). }
  split; [apply take_length|]. split; [exact Hall|].
  unfold out_name. apply free_of_app; [by apply format_02d_free|].
  apply free_of_app; [by apply free_of_cons; split; [|constructor]|].
  apply free_of_app; [by eapply all_chars_free_of; [|exact Hall]|].
  vm_compute. repeat constructor; discriminate.
Qed.

(** ** A completed pass *)

Section Reported.

Variable l : list (nat * nat).

Lemma reported_exists q : preserves (reported l) (Os.exists_ q).
Proof. by intros w. Qed.

Lemma reported_write q c : preserves (reported l) (Os.write q c).
Proof. intros w Hw. by destruct (write_world q c w) as [->| ->]. Qed.

Lemma reported_read_image q : preserves (reported l) (Os.read_image q).
Proof.
  intros w Hw. unfold Os.read_image.
  destruct (files w !! q) as [[]|]; try done. by case_bool_decide.
Qed.

Lemma reported_print line : preserves (reported l) (Os.print line).
Proof. by intros w. Qed.

End Reported.

#[local] Hint Resolve reported_exists reported_write reported_read_image
  reported_print : keeps.

Lemma reported_stage_image l q b : preserves (reported l) (stage_image q b).
Proof. unfold stage_image. keeps. Qed.

Lemma reported_add_picture l para q width :
  preserves (reported l) (add_picture para q width).
Proof. unfold add_picture. keeps. Qed.
#[local] Hint Resolve reported_stage_image reported_add_picture : keeps.

Lemma reported_copy_paragraph l script parts para t temp :
  preserves (reported l) (copy_paragraph_of script parts para t temp).
Proof.
  destruct script; simpl.
  - unfold Test2.copy_paragraph, Test2.copy_blip. keeps.
  - unfold Test3.copy_paragraph, Test3.copy_drawing, Test3.picture_width. keeps.
Qed.

Lemma preserves_build_sections P script doc temp sa turns acc :
  (forall parts para t temp,
     preserves P (copy_paragraph_of script parts para t temp)) ->
  preserves P (build_sections script doc temp sa turns acc).
Proof.
  intros Hcopy. unfold build_sections.
  repeat first
    [ apply preserves_build_section; exact Hcopy
    | apply preserves_ret | apply preserves_lift
    | keeps_step ].
Qed.

(** What the loop has built: one document per section of the
    segmenter, under the section's title, on the page of the source. *)
Lemma build_sections_Ok script doc temp sa turns : forall acc w out w',
  build_sections script doc temp sa turns acc w = (Ok out, w') ->
  exists ss docs,
    collect_sections sa turns = Ok ss /\ length docs = length ss /\
    out = acc ++ zip (fst <$> ss) docs /\
    Forall (fun d => out_section d = out_section (copy_geometry doc new_document)) docs.
Proof.
  induction turns as [|i turns IH]; intros acc w out w' H.
  - injection H as <- _. exists [], []. by rewrite app_nil_r.
  - unfold build_sections in H. simpl in H.
    apply bind_Ok in H as (acc1 & w1 & Hbody & Hrest).
    apply bind_Ok in Hbody as (found & w0 & Hsa & Hbody).
    unfold lift in Hsa. injection Hsa as Hsa <-.
    apply IH in Hrest as (ss & docs & Hss & Hlen & -> & Hgeo).
    simpl. rewrite Hsa, Hss. destruct found as [[title section_blocks]|].
    + apply bind_Ok in Hbody as (d & w2 & Hd & Hret). injection Hret as <- _.
      exists ((title, section_blocks) :: ss), (d :: docs).
      split; [done|]. split; [simpl; lia|]. split.
      * simpl. by rewrite <- app_assoc.
      * constructor; [|done]. unfold build_section in Hd.
        apply bind_Ok in Hd as ([seen body] & w3 & _ & Hret).
        by injection Hret as <- _.
    + injection Hbody as <- _. by exists ss, docs.
Qed.

Lemma pretty_N_go_nonempty x s : s <> "" -> pretty_N_go x s <> "".
Proof.
  revert s. induction (N.lt_wf_0 x) as [x _ IH]; intros s Hs.
  destruct (decide (x = 0)%N) as [->|Hx].
  - by rewrite pretty_N_go_0.
  - rewrite pretty_N_go_step by lia. apply IH; [apply N.div_lt; lia|done].
Qed.

Lemma pretty_nat_nonempty (n : nat) : pretty n <> "".
Proof.
  unfold pretty, pretty_nat, pretty, pretty_N. case_decide; [done|].
  rewrite pretty_N_go_step by lia. by apply pretty_N_go_nonempty.
Qed.

(** A file name starts with a decimal digit. *)
Lemma out_name_head i title :
  exists c s, out_name i title = String c s /\ PyStr.isdecimal c = true.
Proof.
  assert (exists c s, format_02d (i + 1) = String c s /\ PyStr.isdecimal c = true)
    as (c & s & Heq & Hc).
  { destruct (format_02d (i + 1)) as [|c s] eqn:Heq.
    - exfalso. unfold format_02d in Heq. destruct (i + 1 <? 10); [done|].
      by apply pretty_nat_nonempty in Heq.
    - exists c, s. split; [done|]. destruct (PyStr.isdecimal c) eqn:Hc; [done|].
      pose proof (format_02d_free c (i + 1) Hc) as Hfree. rewrite Heq in Hfree.
      by apply free_of_cons in Hfree as [? _]. }
  unfold out_name. rewrite Heq. by exists c, (s +:+ "_" +:+ safe_title title +:+ ".docx").
Qed.

Lemma append_assoc (a b c : string) : (a +:+ b) +:+ c = a +:+ (b +:+ c).
Proof.
  induction a as [|x a IH]; [done|].
  change (String x ((a +:+ b) +:+ c) = String x (a +:+ (b +:+ c))). by rewrite IH.
Qed.

Lemma prefix_append (a x y : string) :
  String.prefix (a +:+ x) (a +:+ y) = String.prefix x y.
Proof.
  induction a as [|c a IH]; [done|].
  change (String.prefix (String c (a +:+ x)) (String c (a +:+ y)) = String.prefix x y).
  simpl. by destruct (ascii_dec c c).
Qed.

(** No file of a section lies in the scratch directory. *)
Lemma out_path_outside_scratch output_dir i title :
  Os.under (PyStr.path_join output_dir "temp_images")
    (PyStr.path_join output_dir (out_name i title)) = false.
Proof.
  destruct (out_name_head i title) as (c & s & Hname & Hc).
  rewrite (path_join_relative _ "temp_images") by discriminate.
  rewrite (path_join_relative _ (out_name i title)) by apply out_name_relative.
  rewrite Hname. unfold Os.under.
  assert (c <> "t"%char) as Hct by (by intros ->).
  destruct (negb (PyStr.truthy output_dir) || PyStr.endswith_sep output_dir).
  - apply orb_false_intro.
    + apply String.eqb_neq. intros Heq. apply (inj (String.app output_dir)) in Heq. congruence.
    + rewrite append_assoc, prefix_append.
      change (String.prefix ("temp_images" +:+ "/") (String c s))
        with (if ascii_dec "t" c then String.prefix "emp_images/" s else false).
      by destruct (ascii_dec "t" c).
  - apply orb_false_intro.
    + apply String.eqb_neq. intros Heq. apply (inj (String.app output_dir)) in Heq.
      apply (inj (String.app "/")) in Heq. congruence.
    + rewrite append_assoc, prefix_append.
      change (String.prefix (("/" +:+ "temp_images") +:+ "/") ("/" +:+ String c s))
        with (if ascii_dec "/" "/"
              then if ascii_dec "t" c then String.prefix "emp_images/" s else false
              else false).
      destruct (ascii_dec "/" "/"); [|done]. by destruct (ascii_dec "t" c).
Qed.

Lemma rmtree_Ok p w w' :
  Os.rmtree p w = (Ok tt, w') ->
  progress w' = progress w /\
  forall q, Os.under p q = false -> files w' !! q = files w !! q.
Proof.
  unfold Os.rmtree. case_bool_decide.
  - intros [= <-]. split; [done|]. intros q Hq. simpl.
    destruct (files w !! q) as [f|] eqn:Hf.
    + by apply map_lookup_filter_Some.
    + apply map_lookup_filter_None. by left.
  - destruct (files w !! p); discriminate.
Qed.

(** The calls of the save loop from position [k] on. *)
Lemma save_loop_progress output_dir (cb : bool) total sections : forall k w w',
  for_each (zip (seq k (length sections)) sections)
    (fun '(i, (title, section_doc)) _ =>
       let out_path := PyStr.path_join output_dir (out_name i title) in
       Os.write out_path (SavedDocx section_doc) ;;;
       if cb then Os.report (i + 1) total else ret tt)
    tt w = (Ok tt, w') ->
  progress w'
  = progress w
    ++ (if cb then map (fun i => (i + 1, total)) (seq k (length sections)) else []).
Proof.
  induction sections as [|[title section_doc] sections IH]; intros k w w' H.
  - injection H as <-. destruct cb; by rewrite app_nil_r.
  - simpl in H. apply bind_Ok in H as ([] & w1 & Hstep & Hrest).
    apply IH in Hrest. rewrite Hrest.
    apply bind_Ok in Hstep as ([] & w2 & Hwrite & Hreport).
    apply write_Ok in Hwrite as [-> _].
    destruct cb; [unfold Os.report in Hreport|unfold ret in Hreport];
      injection Hreport as <-; simpl; [|done].
    by rewrite <- app_assoc.
Qed.

Lemma save_sections_progress output_dir cb sections w w' :
  save_sections output_dir cb sections w = (Ok tt, w') ->
  progress w' = progress w ++ (if cb then reports (length sections) else []).
Proof. unfold save_sections, enumerate. apply save_loop_progress. Qed.

(** The steps of a pass that returns: the two directories, the build
    loop, the save loop and the removal of the scratch directory. *)
Lemma pass_steps script docx_path output_dir heading_style cb w doc n w' :
  files w !! docx_path = Some (SourceDocx doc) ->
  src_blocks doc <> [] ->
  split_of script docx_path output_dir heading_style cb w = (Ok n, w') ->
  exists w2 sections w3 w4,
    files w2 = files w /\ progress w2 = progress w /\
    build_sections script doc (PyStr.path_join output_dir "temp_images")
      (section_at_of script heading_style (src_blocks doc)
         (section_indices heading_style (src_blocks doc)))
      (seq 0 (length (section_indices heading_style (src_blocks doc)) - 1)) [] w2
    = (Ok sections, w3) /\
    save_sections output_dir cb sections w3 = (Ok tt, w4) /\
    Os.rmtree (PyStr.path_join output_dir "temp_images") w4 = (Ok tt, w') /\
    n = length sections.
Proof.
  intros Hdoc Hne Hrun.
  set (temp := PyStr.path_join output_dir "temp_images").
  destruct script; simpl in Hrun;
    [unfold Test2.split_docx_by_heading_with_images in Hrun
    |unfold Test3.split_docx_by_heading_with_images in Hrun];
    fold temp in Hrun;
    apply bind_Ok in Hrun as ([] & w1 & H1 & Hrun);
    apply bind_Ok in Hrun as ([] & w2 & H2 & Hrun);
    [apply ensure_dir_Ok in H1 as (_ & Hf1 & Hp1);
     apply ensure_dir_Ok in H2 as (Hex & Hf2 & Hp2)
    |apply makedirs_Ok in H1 as (_ & Hf1 & Hp1);
     apply makedirs_Ok in H2 as (Hex & Hf2 & Hp2)];
    apply bind_Ok in Hrun as (doc' & w3 & Hopen & Hrun);
    unfold open_document in Hopen; rewrite Hf2, Hf1, Hdoc in Hopen;
    injection Hopen as <- <-;
    destruct (src_blocks doc) as [|b blocks] eqn:Hblocks; try done;
    apply bind_Ok in Hrun as (sections & w4 & Hloop & Hrun);
    apply bind_Ok in Hrun as ([] & w5 & Hsave & Hrun);
    apply bind_Ok in Hrun as (there & w6 & Hthere & Hrun);
    apply bind_Ok in Hrun as ([] & w7 & Hrm & Hret);
    injection Hret as <- <-;
    exists w2, sections, w4, w5;
    (split; [congruence|]); (split; [congruence|]); (split; [exact Hloop|]);
    (split; [exact Hsave|]); (split; [|done]).
  - match type of Hloop with
    | ?m w2 = _ =>
        assert (preserves (path_exists temp) m) as Hkeep
          by apply (exists_sections_loop temp test2_py)
    end.
    pose proof (Hkeep w2 Hex) as Hex4. rewrite Hloop in Hex4. simpl in Hex4.
    pose proof (exists_save_sections temp output_dir cb sections w4 Hex4) as Hex5.
    rewrite Hsave in Hex5. simpl in Hex5.
    rewrite (exists_true _ _ Hex5) in Hthere. by injection Hthere as <- <-.
  - match type of Hloop with
    | ?m w2 = _ =>
        assert (preserves (path_exists temp) m) as Hkeep
          by apply (exists_sections_loop temp test3_py)
    end.
    pose proof (Hkeep w2 Hex) as Hex4. rewrite Hloop in Hex4. simpl in Hex4.
    pose proof (exists_save_sections temp output_dir cb sections w4 Hex4) as Hex5.
    rewrite Hsave in Hex5. simpl in Hex5.
    rewrite (exists_true _ _ Hex5) in Hthere. by injection Hthere as <- <-.
Qed.

Lemma segment_of_collect script heading_style blocks :
  segment_of script heading_style blocks
  = collect_sections
      (section_at_of script heading_style blocks (section_indices heading_style blocks))
      (seq 0 (length (section_indices heading_style blocks) - 1)).
Proof. by destruct script. Qed.

(** What a pass that returns has done. *)
Lemma completed_pass script docx_path output_dir heading_style cb w doc n w' :
  files w !! docx_path = Some (SourceDocx doc) ->
  src_blocks doc <> [] ->
  split_of script docx_path output_dir heading_style cb w = (Ok n, w') ->
  exists sections docs,
    segment_of script heading_style (src_blocks doc) = Ok sections /\
    length docs = length sections /\ n = length sections /\
    Forall (fun d => out_section d = out_section (copy_geometry doc new_document)) docs /\
    (forall i title section_blocks d,
       sections !! i = Some (title, section_blocks) -> docs !! i = Some d ->
       files w' !! PyStr.path_join output_dir (out_name i title) = Some (SavedDocx d)) /\
    progress w' = progress w ++ (if cb then reports n else []).
Proof.
  intros Hdoc Hne Hrun.
  destruct (pass_steps _ _ _ _ _ _ _ _ _ Hdoc Hne Hrun)
    as (w2 & out & w3 & w4 & Hf2 & Hp2 & Hloop & Hsave & Hrm & ->).
  pose proof Hloop as Hbuilt.
  apply build_sections_Ok in Hbuilt as (ss & docs & Hss & Hlen & Hout & Hgeo).
  simpl in Hout.
  assert (length out = length ss) as Hlen'.
  { subst out. by rewrite length_zip_with, length_fmap, Hlen, Nat.min_id. }
  apply rmtree_Ok in Hrm as [Hp' Hf'].
  exists ss, docs. rewrite segment_of_collect.
  repeat (split; [done|]). split.
  - intros i title section_blocks d Hi Hd.
    rewrite Hf' by apply out_path_outside_scratch.
    apply (save_sections_keeps_all _ _ _ _ _ Hsave). subst out.
    apply lookup_zip_with_Some. exists title, d. split; [done|]. split; [|done].
    rewrite list_lookup_fmap. unfold Section_ in Hi. by rewrite Hi.
  - rewrite Hp', (save_sections_progress _ _ _ _ _ Hsave), Hlen'. f_equal.
    match type of Hloop with
    | ?m w2 = _ =>
        assert (preserves (reported (progress w2)) m) as Hkeep
          by (apply preserves_build_sections; intros; apply reported_copy_paragraph)
    end.
    specialize (Hkeep w2 eq_refl). rewrite Hloop in Hkeep. unfold reported in Hkeep. simpl in Hkeep. congruence.
Qed.

(** X7.  A pass that returns has returned the number of sections of the
    source, and every section is on disk as a document named after its
    position and its title, the scratch directory being gone. *)
Theorem completed_pass_saves_sections (script : Script)
    (docx_path output_dir heading_style : string) (progress_callback : bool)
    (w : World) (doc : SourceDoc) (n : nat) (w' : World) :
  files w !! docx_path = Some (SourceDocx doc) ->
  src_blocks doc <> [] ->
  split_of script docx_path output_dir heading_style progress_callback w = (Ok n, w') ->
  exists sections,
    segment_of script heading_style (src_blocks doc) = Ok sections /\
    n = length sections /\
    forall i title section_blocks,
      sections !! i = Some (title, section_blocks) ->
      exists section_doc,
        files w' !! PyStr.path_join output_dir (out_name i title)
        = Some (SavedDocx section_doc).
Proof.
  intros Hdoc Hne Hrun.
  destruct (completed_pass _ _ _ _ _ _ _ _ _ Hdoc Hne Hrun)
    as (ss & docs & Hss & Hlen & Hn & _ & Hfiles & _).
  exists ss. repeat (split; [done|]). intros i title section_blocks Hi.
  destruct (lookup_lt_is_Some_2 docs i) as [d Hd].
  { rewrite Hlen. by eapply lookup_lt_Some. }
  exists d. by eapply Hfiles.
Qed.

Lemma completed_pass_saves_sections_witness :
  let w' := (split_of test3_py "in.docx" "out" "Heading 1" true
               (world_with (source_of five_blocks))).2 in
  exists sections,
    segment_of test3_py "Heading 1" five_blocks = Ok sections /\
    3 = length sections /\
    forall i title section_blocks,
      sections !! i = Some (title, section_blocks) ->
      exists section_doc,
        files w' !! PyStr.path_join "out" (out_name i title)
        = Some (SavedDocx section_doc).
Proof.
  apply (completed_pass_saves_sections test3_py "in.docx" "out" "Heading 1" true
           (world_with (source_of five_blocks)) (source_of five_blocks) 3).
  - reflexivity.
  - discriminate.
  - vm_compute. reflexivity.
Defined.

(** X8.  A pass that returns has called the progress callback once per
    section, in order, with the 1-based position and the total; without
    a callback nothing is reported. *)
Theorem completed_pass_reports (script : Script)
    (docx_path output_dir heading_style : string) (progress_callback : bool)
    (w : World) (doc : SourceDoc) (n : nat) (w' : World) :
  files w !! docx_path = Some (SourceDocx doc) ->
  src_blocks doc <> [] ->
  split_of script docx_path output_dir heading_style progress_callback w = (Ok n, w') ->
  progress w' = progress w ++ (if progress_callback then reports n else []).
Proof.
  intros Hdoc Hne Hrun.
  by destruct (completed_pass _ _ _ _ _ _ _ _ _ Hdoc Hne Hrun)
    as (ss & docs & _ & _ & _ & _ & _ & Hp).
Qed.

Lemma completed_pass_reports_witness :
  progress (split_of test2_py "in.docx" "out" "Heading 1" true
              (world_with (source_of five_blocks))).2
  = [] ++ [(1, 3); (2, 3); (3, 3)].
Proof.
  apply (completed_pass_reports test2_py "in.docx" "out" "Heading 1" true
           (world_with (source_of five_blocks)) (source_of five_blocks) 3).
  - reflexivity.
  - discriminate.
  - vm_compute. reflexivity.
Defined.

Lemma copy_geometry_section doc :
  out_section (copy_geometry doc new_document) = pass_geometry doc.
Proof.
  unfold copy_geometry, pass_geometry.
  destruct (src_sections doc) as [|[] ?]; reflexivity.
Qed.

(** X9.  Every document a pass that returns has saved is on the page of the
    source's first section: its height, width and four margins; on the
    page of the template when the source declares no section. *)
Theorem completed_pass_geometry (script : Script)
    (docx_path output_dir heading_style : string) (progress_callback : bool)
    (w : World) (doc : SourceDoc) (n : nat) (w' : World) :
  files w !! docx_path = Some (SourceDocx doc) ->
  src_blocks doc <> [] ->
  split_of script docx_path output_dir heading_style progress_callback w = (Ok n, w') ->
  exists sections,
    segment_of script heading_style (src_blocks doc) = Ok sections /\
    forall i title section_blocks,
      sections !! i = Some (title, section_blocks) ->
      exists section_doc,
        files w' !! PyStr.path_join output_dir (out_name i title)
        = Some (SavedDocx section_doc) /\
        out_section section_doc = pass_geometry doc.
Proof.
  intros Hdoc Hne Hrun.
  destruct (completed_pass _ _ _ _ _ _ _ _ _ Hdoc Hne Hrun)
    as (ss & docs & Hss & Hlen & Hn & Hgeo & Hfiles & _).
  exists ss. split; [done|]. intros i title section_blocks Hi.
  destruct (lookup_lt_is_Some_2 docs i) as [d Hd].
  { rewrite Hlen. by eapply lookup_lt_Some. }
  exists d. split; [by eapply Hfiles|].
  rewrite <- copy_geometry_section.
  rewrite Forall_forall in Hgeo. apply Hgeo. by eapply list_elem_of_lookup_2.
Qed.

Lemma completed_pass_geometry_witness :
  let w' := (split_of test3_py "in.docx" "out" "Heading 1" false
               (world_with (a4_source five_blocks))).2 in
  exists sections,
    segment_of test3_py "Heading 1" five_blocks = Ok sections /\
    forall i title section_blocks,
      sections !! i = Some (title, section_blocks) ->
      exists section_doc,
        files w' !! PyStr.path_join "out" (out_name i title)
        = Some (SavedDocx section_doc) /\
        out_section section_doc = a4_page.
Proof.
  apply (completed_pass_geometry test3_py "in.docx" "out" "Heading 1" false
           (world_with (a4_source five_blocks)) (a4_source five_blocks) 3).
  - reflexivity.
  - discriminate.
  - vm_compute. reflexivity.
Defined.

(** ** Paragraphs copied in full *)

Lemma text_add_run p r :
  out_paragraph_text (add_run p r) = out_paragraph_text p +:+ out_text r.
Proof.
  unfold out_paragraph_text, add_run. simpl.
  induction (out_runs p) as [|r0 rs IH]; simpl.
  - apply append_empty_r.
  - by rewrite IH, append_assoc.
Qed.

(** A loop whose every turn moves a measure of the state by [g] has
    moved it by the fold of [g] when it returns. *)
Lemma for_each_Ok_measure {A S B} (f : S -> B) (g : A -> B -> B)
    (xs : list A) (body : A -> S -> M S) :
  (forall x s w s' w', body x s w = (Ok s', w') -> f s' = g x (f s)) ->
  forall s w s' w',
    for_each xs body s w = (Ok s', w') ->
    f s' = fold_left (fun b x => g x b) xs (f s).
Proof.
  intros Hbody. induction xs as [|x xs IH]; intros s w s' w' H; simpl in H.
  - by injection H as <- _.
  - apply bind_Ok in H as (s1 & w1 & H1 & H2).
    simpl. rewrite <- (Hbody _ _ _ _ _ H1). by eapply IH.
Qed.

Lemma fold_left_id {A B} (xs : list A) (b : B) : fold_left (fun b _ => b) xs b = b.
Proof. by induction xs. Qed.

Lemma for_each_Ok_same {A S B} (f : S -> B) (xs : list A) (body : A -> S -> M S) :
  (forall x s w s' w', body x s w = (Ok s', w') -> f s' = f s) ->
  forall s w s' w', for_each xs body s w = (Ok s', w') -> f s' = f s.
Proof.
  intros Hbody s w s' w' H.
  rewrite (for_each_Ok_measure f (fun _ b => b) xs body Hbody _ _ _ _ H).
  apply fold_left_id.
Qed.

(** [test3.py]: a drawing leaves exactly one run. *)
Lemma Test3_copy_drawing_adds parts temp_img_dir drawing target_para w target_para' w' :
  Test3.copy_drawing parts temp_img_dir drawing target_para w = (Ok target_para', w') ->
  exists r, target_para' = add_run target_para r.
Proof.
  unfold Test3.copy_drawing.
  destruct (truthy_attr _) as [rId|]; [|intros [= <- _]; eauto].
  intros H. apply try_except_Ok in H as [H|(e & w1 & _ & _ & H)];
    [|injection H as <- _; eauto].
  destruct (parts !! rId) as [[blob|blob]|]; [done|injection H as <- _; eauto|done].
Qed.

(** [test2.py]: a blip leaves the paragraph as it is, and a printed
    warning when it carries a relationship id: the id is missing from
    the table, or [default_ext] raises on the part it leads to. *)
Lemma Test2_copy_blip_cases parts temp_img_dir drawing blip target_para w :
  Test2.copy_blip parts temp_img_dir drawing blip target_para w
  = (Ok target_para,
     match truthy_attr blip with
     | Some rId => (Os.print (Test2.warning rId) w).2
     | None => w
     end).
Proof.
  unfold Test2.copy_blip. destruct (truthy_attr blip) as [rId|]; [|done].
  unfold try_except. by destruct (parts !! rId).
Qed.

Lemma Test2_copy_blip_adds parts temp_img_dir drawing blip target_para w target_para' w' :
  Test2.copy_blip parts temp_img_dir drawing blip target_para w = (Ok target_para', w') ->
  target_para' = target_para \/
  exists b width, target_para' = add_run target_para (picture_run b width).
Proof. rewrite Test2_copy_blip_cases. intros [= <- _]. by left. Qed.

Lemma copy_numbering_start p :
  let start :=
    copy_numbering p
      (set_alignment (set_style empty_paragraph (style_name p)) (alignment p)) in
  out_pPr start.2 = Some (copied_pPr p) /\ out_runs start.2 = [] /\
  runs start.1 = runs p.
Proof.
  unfold copy_numbering, copied_pPr. destruct (pPr p) as [ppr|] eqn:Hp; [|done].
  destruct (numPr ppr) eqn:Hn; simpl; by rewrite ?Hn.
Qed.

(** The run loop of either script keeps the paragraph properties. *)
Lemma Test3_runs_pPr parts temp_img_dir rs target_para w target_para' w' :
  for_each rs
    (fun run target_para =>
       let target_para := add_run target_para (copy_run run) in
       for_each (drawings run) (Test3.copy_drawing parts temp_img_dir) target_para)
    target_para w = (Ok target_para', w') ->
  out_pPr target_para' = out_pPr target_para.
Proof.
  apply (for_each_Ok_same out_pPr). intros run s w1 s' w1' Hrun.
  apply (for_each_Ok_same out_pPr) in Hrun; [done|].
  intros d s2 w2 s2' w2' Hd. by apply Test3_copy_drawing_adds in Hd as [r ->].
Qed.

Lemma Test2_blips_same {B} (f : OutParagraph -> B) parts temp_img_dir
    drawing bs target_para w target_para' w' :
  (forall p b width, f (add_run p (picture_run b width)) = f p) ->
  for_each bs (Test2.copy_blip parts temp_img_dir drawing) target_para w
  = (Ok target_para', w') ->
  f target_para' = f target_para.
Proof.
  intros Hf. apply (for_each_Ok_same f). intros blip s w1 s' w1' Hb.
  apply Test2_copy_blip_adds in Hb as [->|(b & width & ->)]; [done|apply Hf].
Qed.

Lemma Test2_drawings_same {B} (f : OutParagraph -> B) parts temp_img_dir
    ds target_para w target_para' w' :
  (forall p b width, f (add_run p (picture_run b width)) = f p) ->
  for_each ds
    (fun drawing target_para =>
       for_each (blips drawing) (Test2.copy_blip parts temp_img_dir drawing) target_para)
    target_para w = (Ok target_para', w') ->
  f target_para' = f target_para.
Proof.
  intros Hf. apply (for_each_Ok_same f). intros d s w1 s' w1' Hd.
  by eapply Test2_blips_same.
Qed.

Lemma Test2_runs_pPr parts temp_img_dir rs target_para w target_para' w' :
  for_each rs
    (fun run target_para =>
       let target_para := add_run target_para (copy_run run) in
       for_each (drawings run)
         (fun drawing target_para =>
            for_each (blips drawing) (Test2.copy_blip parts temp_img_dir drawing)
              target_para)
         target_para)
    target_para w = (Ok target_para', w') ->
  out_pPr target_para' = out_pPr target_para.
Proof.
  apply (for_each_Ok_same out_pPr). intros run s w1 s' w1' Hrun.
  by apply (Test2_drawings_same out_pPr) in Hrun.
Qed.

(** X10.  A paragraph copied in full carries the name of the source's style,
    its alignment and its numbering reference, in either script. *)
Theorem full_copy_properties (script : Script) (parts : gmap string Part)
    (source_para : Paragraph) (target : Container) (temp_img_dir : string)
    (w : World) (source_para' : Paragraph) (target' : Container) (w' : World) :
  taken_as_empty script source_para = false ->
  copy_paragraph_of script parts source_para target temp_img_dir w
  = (Ok (source_para', target'), w') ->
  exists target_para,
    target' = append_block target (OParagraph target_para) /\
    out_pPr target_para = Some (copied_pPr source_para) /\
    runs source_para' = runs source_para.
Proof.
  intros Hfull H.
  destruct (copy_numbering_start source_para) as (Hppr & _ & Hruns).
  destruct script; simpl in H; unfold taken_as_empty in Hfull;
    [unfold Test2.copy_paragraph in H|unfold Test3.copy_paragraph in H];
    rewrite Hfull in H;
    destruct (copy_numbering _ _) as [sp tp]; simpl in Hppr, Hruns;
    apply bind_Ok in H as (tp' & w1 & Hloop & H); injection H as <- <- _;
    exists tp'; (split; [done|]); (split; [|done]); rewrite <- Hppr.
  - by eapply Test2_runs_pPr.
  - by eapply Test3_runs_pPr.
Qed.

Lemma full_copy_properties_witness :
  exists target_para,
    {| kind := IsDocument;
       content := [OParagraph {| out_pPr := Some (copied_pPr numbered_para);
                                 out_runs := [copy_run (text_run "first item")] |}] |}
    = append_block empty_body (OParagraph target_para) /\
    out_pPr target_para = Some (copied_pPr numbered_para) /\
    runs {| pPr := Some {| pStyle := Some "List Paragraph"; jc := None; numPr := None |};
            runs := [text_run "first item"] |}
    = runs numbered_para.
Proof.
  apply (full_copy_properties test3_py ∅ numbered_para empty_body "out/temp_images"
           empty_world _ _ empty_world); reflexivity.
Defined.

Lemma add_copied_runs rs target_para :
  fold_left (fun target_para run => add_run target_para (copy_run run)) rs target_para
  = {| out_pPr := out_pPr target_para;
       out_runs := out_runs target_para ++ map copy_run rs |}.
Proof.
  revert target_para. induction rs as [|run rs IH]; intros target_para; simpl.
  - rewrite app_nil_r. by destruct target_para.
  - rewrite IH. simpl. by rewrite <- app_assoc.
Qed.

Lemma Test2_copy_text_runs parts temp_img_dir rs target_para w :
  Forall (fun run => drawings run = []) rs ->
  for_each rs
    (fun run target_para =>
       let target_para := add_run target_para (copy_run run) in
       for_each (drawings run)
         (fun drawing target_para =>
            for_each (blips drawing) (Test2.copy_blip parts temp_img_dir drawing)
              target_para)
         target_para)
    target_para w
  = (Ok (fold_left (fun target_para run => add_run target_para (copy_run run))
           rs target_para), w).
Proof.
  intros Hrs. revert target_para.
  induction Hrs as [|run rs Hrun _ IH]; intros target_para; simpl; [done|].
  unfold bind. rewrite Hrun. simpl. apply IH.
Qed.

Lemma copied_runs_text rs :
  fold_right String.append "" (map out_text (map copy_run rs))
  = fold_right String.append "" (map run_text rs).
Proof. induction rs as [|run rs IH]; simpl; [done|by rewrite IH]. Qed.

(** X11.  A paragraph without drawings is always copied, whatever the world
    holds, and nothing in the world changes: as the bare paragraph
    when the script takes it as empty, else with its properties and,
    run by run, its text and character formatting. *)
Theorem text_paragraph_copied (script : Script) (parts : gmap string Part)
    (source_para : Paragraph) (target : Container) (temp_img_dir : string)
    (w : World) :
  drawing_free source_para ->
  let target_para :=
    if taken_as_empty script source_para then empty_paragraph
    else {| out_pPr := Some (copied_pPr source_para);
            out_runs := map copy_run (runs source_para) |} in
  exists source_para',
    copy_paragraph_of script parts source_para target temp_img_dir w
    = (Ok (source_para', append_block target (OParagraph target_para)), w) /\
    runs source_para' = runs source_para /\
    (taken_as_empty script source_para = false ->
     out_paragraph_text target_para = paragraph_text source_para).
Proof.
  intros Hfree target_para. subst target_para.
  destruct (copy_numbering_start source_para) as (Hppr & Hnil & Hruns).
  destruct (taken_as_empty script source_para) eqn:Hempty.
  - exists source_para. split; [|done].
    destruct script; simpl; unfold taken_as_empty in Hempty;
      [unfold Test2.copy_paragraph|unfold Test3.copy_paragraph]; by rewrite Hempty.
  - destruct (copy_numbering _ _) as [sp tp] eqn:Hstart. simpl in Hppr, Hnil, Hruns.
    exists sp. split; [|split; [done|]].
    + destruct script; simpl; unfold taken_as_empty in Hempty;
        [unfold Test2.copy_paragraph|unfold Test3.copy_paragraph];
        rewrite Hempty, Hstart; unfold bind;
        [rewrite Test2_copy_text_runs by exact Hfree
        |rewrite Test3_copy_text_runs by exact Hfree];
        rewrite add_copied_runs, Hppr, Hnil; reflexivity.
    + intros _. unfold out_paragraph_text, paragraph_text. simpl.
      apply copied_runs_text.
Qed.

Lemma text_paragraph_copied_witness :
  drawing_free whitespace_para /\
  exists source_para',
    copy_paragraph_of test2_py ∅ whitespace_para empty_body "out/temp_images" empty_world
    = (Ok (source_para',
           append_block empty_body
             (OParagraph {| out_pPr := Some (copied_pPr whitespace_para);
                            out_runs := [copy_run (text_run " ")] |})), empty_world) /\
    runs source_para' = runs whitespace_para /\
    (taken_as_empty test2_py whitespace_para = false ->
     out_paragraph_text {| out_pPr := Some (copied_pPr whitespace_para);
                           out_runs := [copy_run (text_run " ")] |}
     = paragraph_text whitespace_para).
Proof.
  assert (drawing_free whitespace_para) as Hfree by (repeat constructor).
  split; [exact Hfree|].
  exact (text_paragraph_copied test2_py ∅ whitespace_para empty_body "out/temp_images"
           empty_world Hfree).
Defined.

Lemma fold_left_succ {A} (xs : list A) (n : nat) :
  fold_left (fun b _ => S b) xs n = n + length xs.
Proof. revert n. induction xs as [|x xs IH]; intros n; simpl; [lia|]. rewrite IH. lia. Qed.

Lemma Test3_runs_count parts temp_img_dir rs target_para w target_para' w' :
  for_each rs
    (fun run target_para =>
       let target_para := add_run target_para (copy_run run) in
       for_each (drawings run) (Test3.copy_drawing parts temp_img_dir) target_para)
    target_para w = (Ok target_para', w') ->
  length (out_runs target_para')
  = length (out_runs target_para) + length rs
    + sum_list_with (fun run => length (drawings run)) rs.
Proof.
  intros H.
  assert (forall d s w1 s' w1',
            Test3.copy_drawing parts temp_img_dir d s w1 = (Ok s', w1') ->
            length (out_runs s') = S (length (out_runs s))) as Hdrawing.
  { intros d s w1 s' w1' Hd. apply Test3_copy_drawing_adds in Hd as [r ->].
    simpl. rewrite length_app. simpl. lia. }
  assert (forall run s w1 s' w1',
            for_each (drawings run) (Test3.copy_drawing parts temp_img_dir)
              (add_run s (copy_run run)) w1 = (Ok s', w1') ->
            length (out_runs s') = S (length (out_runs s)) + length (drawings run))
    as Hrun.
  { intros run s w1 s' w1' Hds.
    rewrite (for_each_Ok_measure (fun p => length (out_runs p)) (fun _ n => S n)
               _ _ Hdrawing _ _ _ _ Hds), fold_left_succ.
    simpl. rewrite length_app. simpl. lia. }
  rewrite (for_each_Ok_measure (fun p => length (out_runs p))
             (fun run n => S n + length (drawings run)) _ _ Hrun _ _ _ _ H).
  generalize (length (out_runs target_para)). clear.
  induction rs as [|run rs IH]; intros n; simpl; [lia|]. rewrite IH. lia.
Qed.

(** X12.  [test3.py] drops no drawing: a paragraph copied in full has one
    run for each source run and one more for each drawing, a picture
    or a placeholder. *)
Theorem Test3_every_drawing_leaves_a_run (parts : gmap string Part)
    (source_para : Paragraph) (target : Container) (temp_img_dir : string)
    (w : World) (source_para' : Paragraph) (target' : Container) (w' : World) :
  blank source_para = false ->
  Test3.copy_paragraph parts source_para target temp_img_dir w
  = (Ok (source_para', target'), w') ->
  exists target_para,
    target' = append_block target (OParagraph target_para) /\
    length (out_runs target_para)
    = length (runs source_para) + drawing_count source_para.
Proof.
  intros Hblank H. unfold blank in Hblank. unfold Test3.copy_paragraph in H.
  rewrite Hblank in H.
  destruct (copy_numbering_start source_para) as (_ & Hnil & _).
  destruct (copy_numbering _ _) as [sp tp]. simpl in Hnil.
  apply bind_Ok in H as (tp' & w1 & Hloop & H). injection H as _ <- _.
  exists tp'. split; [done|].
  apply Test3_runs_count in Hloop. rewrite Hloop, Hnil. reflexivity.
Qed.

Lemma Test3_every_drawing_leaves_a_run_witness :
  exists target_para,
    {| kind := IsDocument;
       content := [OParagraph (normal_paragraph
                     [copy_run (drawing_run shape_drawing);
                      placeholder_run Test3.msg_shape])] |}
    = append_block empty_body (OParagraph target_para) /\
    length (out_runs target_para) = 1 + 1.
Proof.
  apply (Test3_every_drawing_leaves_a_run ∅ (picture_para shape_drawing) empty_body
           "out/temp_images" empty_world (picture_para shape_drawing) _ empty_world);
    reflexivity.
Defined.

Lemma runs_text rs acc :
  fold_left (fun b run => b +:+ run_text run) rs acc
  = acc +:+ fold_right String.append "" (map run_text rs).
Proof.
  revert acc. induction rs as [|run rs IH]; intros acc; simpl.
  - by rewrite append_empty_r.
  - by rewrite IH, append_assoc.
Qed.

Lemma picture_run_text p b width :
  out_paragraph_text (add_run p (picture_run b width)) = out_paragraph_text p.
Proof. rewrite text_add_run. apply append_empty_r. Qed.

(** X13.  [test2.py] never changes the text: whatever becomes of the
    drawings, the paragraph it has appended reads as the source
    paragraph does. *)
Theorem Test2_copy_keeps_text (parts : gmap string Part)
    (source_para : Paragraph) (target : Container) (temp_img_dir : string)
    (w : World) (source_para' : Paragraph) (target' : Container) (w' : World) :
  Test2.copy_paragraph parts source_para target temp_img_dir w
  = (Ok (source_para', target'), w') ->
  exists target_para,
    target' = append_block target (OParagraph target_para) /\
    out_paragraph_text target_para = paragraph_text source_para.
Proof.
  unfold Test2.copy_paragraph. intros H.
  destruct (negb _ && _) eqn:Hempty.
  - injection H as _ <- _. exists empty_paragraph. split; [done|].
    apply andb_true_iff in Hempty as [_ Hruns]. unfold paragraph_text.
    by destruct (runs source_para).
  - destruct (copy_numbering_start source_para) as (_ & Hnil & _).
    destruct (copy_numbering _ _) as [sp tp]. simpl in Hnil.
    apply bind_Ok in H as (tp' & w1 & Hloop & H). injection H as _ <- _.
    exists tp'. split; [done|].
    assert (forall run s w2 s' w2',
              for_each (drawings run)
                (fun drawing target_para =>
                   for_each (blips drawing) (Test2.copy_blip parts temp_img_dir drawing)
                     target_para)
                (add_run s (copy_run run)) w2 = (Ok s', w2') ->
              out_paragraph_text s' = out_paragraph_text s +:+ run_text run) as Hrun.
    { intros run s w2 s' w2' Hrun.
      apply (Test2_drawings_same out_paragraph_text) in Hrun; [|apply picture_run_text].
      rewrite Hrun. apply text_add_run. }
    rewrite (for_each_Ok_measure out_paragraph_text (fun run b => b +:+ run_text run)
               _ _ Hrun _ _ _ _ Hloop).
    rewrite runs_text. unfold out_paragraph_text at 1. by rewrite Hnil.
Qed.

Lemma Test2_copy_keeps_text_witness :
  exists target_para,
    {| kind := IsDocument;
       content := [OParagraph (normal_paragraph
                     [copy_run (text_run "x");
                      copy_run (drawing_run (linked_drawing None))])] |}
    = append_block empty_body (OParagraph target_para) /\
    out_paragraph_text target_para = "x".
Proof.
  apply (Test2_copy_keeps_text ∅
           {| pPr := None; runs := [text_run "x"; drawing_run (linked_drawing None)] |}
           empty_body "out/temp_images" empty_world
           {| pPr := None; runs := [text_run "x"; drawing_run (linked_drawing None)] |}
           _ {| dirs := dirs empty_world; files := files empty_world;
                progress := [];
                printed := ["Warning: Could not process an image with rId rId7."] |}).
  vm_compute. reflexivity.
Defined.

(** ** Tables copied into a document *)

Lemma copy_paragraph_appends script parts p t temp w p' t' w' :
  copy_paragraph_of script parts p t temp w = (Ok (p', t'), w') ->
  exists q, t' = append_block t (OParagraph q).
Proof.
  destruct script; simpl;
    [unfold Test2.copy_paragraph|unfold Test3.copy_paragraph];
    (destruct (negb _ && _); [intros [= _ <- _]; eauto|]);
    destruct (copy_numbering _ _) as [sp tp]; intros H;
    apply bind_Ok in H as (tp' & w1 & _ & H); injection H as _ <- _; eauto.
Qed.




Lemma copy_nested_table_paragraphs t target :
  all_paragraphs (content target) ->
  all_paragraphs (content (copy_nested_table t target)).
Proof.
  intros Hall.
  destruct (copy_nested_table_flattens t target) as [_ (marker & rows & -> & _ & _)].
  apply Forall_app. split; [done|]. constructor; [done|].
  clear. induction rows as [|q rows IH]; by constructor.
Qed.

Lemma copy_cell_flat script parts temp source_cell seen target_cell w w' :
  copy_cell (copy_paragraph_of script) parts temp source_cell w
  = (Ok (seen, target_cell), w') ->
  all_paragraphs (content target_cell).
Proof.
  unfold copy_cell. intros H.
  apply (for_each_Ok_inv (fun s : Cell * Container => all_paragraphs (content s.2)))
    in H; [done| |constructor].
  intros block [seen0 tc] w1 [seen1 tc1] w1' Hbody Hinv. simpl in *.
  destruct block as [p|t].
  - apply bind_Ok in Hbody as ([p' tc2] & w2 & Hcopy & Hret). injection Hret as _ <- _.
    apply copy_paragraph_appends in Hcopy as [q ->].
    apply Forall_app. split; [done|by repeat constructor].
  - injection Hbody as _ <- _. by apply copy_nested_table_paragraphs.
Qed.


Lemma copy_row_shape script parts temp ncols source_row seen target_row w w' :
  copy_row (copy_paragraph_of script) parts temp ncols source_row w
  = (Ok (seen, target_row), w') ->
  length target_row = ncols /\ Forall all_paragraphs target_row.
Proof.
  unfold copy_row. intros H.
  apply (for_each_Ok_inv
           (fun s : list Cell * list (list OutBlock) =>
              length s.2 = ncols /\ Forall all_paragraphs s.2)) in H; [done| |].
  - intros [i source_cell] [seen0 row0] w1 [seen1 row1] w1' Hbody [Hlen Hall].
    simpl in *. destruct (i <? length row0); [|done].
    apply bind_Ok in Hbody as ([cell' tc] & w2 & Hcell & Hret).
    injection Hret as _ <- _. split; [by rewrite length_insert|].
    apply Forall_insert; [done|]. by eapply copy_cell_flat.
  - simpl. split; [apply length_replicate|].
    apply Forall_replicate. by repeat constructor.
Qed.


(** The widths the copy assigns, column by column, are the source's. *)
Lemma copied_widths (ncols : nat) (columns : list (option Z)) : forall k widths,
  length widths = k + length columns -> k + length columns <= ncols ->
  fold_left
    (fun widths '(i, col) => if i <? ncols then <[i := col]> widths else widths)
    (zip (seq k (length columns)) columns) widths
  = take k widths ++ columns.
Proof.
  induction columns as [|col columns IH]; intros k widths Hlen Hle; simpl in *.
  - rewrite app_nil_r, take_ge; [done|lia].
  - assert ((k <? ncols) = true) as -> by (apply Nat.ltb_lt; lia).
    rewrite IH by (rewrite ?length_insert; lia).
    rewrite (take_S_r _ _ col) by (apply list_lookup_insert_eq; lia).
    rewrite take_insert_ge by lia. by rewrite <- app_assoc.
Qed.

Lemma copy_table_document_Ok script parts t target temp w t' target' w' :
  kind target = IsDocument ->
  copy_table (copy_paragraph_of script) parts t target temp w = (Ok (t', target'), w') ->
  exists rows,
    target' = append_block target
                (OTable {| tbl_style := Some (table_style_name t);
                           tbl_autofit := tbl_autofit t;
                           tbl_columns := tbl_columns t;
                           tbl_rows := rows |}) /\
    length rows = length (tbl_rows t) /\
    Forall (fun row => length row = length (tbl_columns t) /\ Forall all_paragraphs row)
      rows.
Proof.
  intros Hkind. unfold copy_table. rewrite Hkind. intros H.
  apply bind_Ok in H as ([seen rows] & w1 & Hrows & Hret). injection Hret as _ <- _.
  exists rows. split; [|split].
  - do 3 f_equal. unfold enumerate.
    rewrite copied_widths by (rewrite ?length_replicate; lia). done.
  - assert (forall source_row (s : list (list Cell) * list (list (list OutBlock))) w2 s' w2',
              (let '(seen, target_rows) := s in
               let* (source_row', target_row) :=
                 copy_row (copy_paragraph_of script) parts temp
                   (length (tbl_columns t)) source_row in
               ret (seen ++ [source_row'], target_rows ++ [target_row])) w2
              = (Ok s', w2') ->
              length s'.2 = S (length s.2)) as Hstep.
    { intros source_row [seen0 rows0] w2 [seen1 rows1] w2' Hbody.
      apply bind_Ok in Hbody as ([row' target_row] & w3 & _ & Hret).
      injection Hret as _ <- _. simpl. rewrite length_app. simpl. lia. }
    pose proof (for_each_Ok_measure
                  (fun s : list (list Cell) * list (list (list OutBlock)) => length s.2)
                  (fun _ n => S n) _ _ Hstep _ _ _ _ Hrows) as Hlen.
    simpl in Hlen. by rewrite fold_left_succ in Hlen.
  - apply (for_each_Ok_inv
             (fun s : list (list Cell) * list (list (list OutBlock)) =>
                Forall (fun row => length row = length (tbl_columns t)
                                   /\ Forall all_paragraphs row) s.2)) in Hrows;
      [done| |constructor].
    intros source_row [seen0 rows0] w2 [seen1 rows1] w2' Hbody Hinv. simpl in *.
    apply bind_Ok in Hbody as ([row' target_row] & w3 & Hrow & Hret).
    injection Hret as _ <- _. apply Forall_app. split; [done|].
    constructor; [|done]. by eapply copy_row_shape.
Qed.




(** X15.  The scripts never build a table inside a table: whenever a table
    has been copied into a document, every cell of the table built
    holds paragraphs only. *)
Theorem built_tables_are_flat (script : Script) (parts : gmap string Part)
    (source_table : Table) (target : Container) (temp_img_dir : string) (w : World)
    (source_table' : Table) (target' : Container) (w' : World) :
  kind target = IsDocument ->
  copy_table (copy_paragraph_of script) parts source_table target temp_img_dir w
  = (Ok (source_table', target'), w') ->
  exists built,
    target' = append_block target (OTable built) /\ flat_table built.
Proof.
  intros Hkind Hrun.
  destruct (copy_table_document_Ok _ _ _ _ _ _ _ _ _ Hkind Hrun)
    as (rows & -> & Hlen & Hrows).
  eexists. split; [done|]. unfold flat_table. simpl.
  eapply Forall_impl; [exact Hrows|]. by intros row [_ ?].
Qed.

Lemma built_tables_are_flat_witness :
  let nesting :=
    {| tbl_style := None; tbl_autofit := true; tbl_columns := [None];
       tbl_rows := [[[BTable padded_table]]] |} in
  let built :=
    {| tbl_style := Some "Normal Table"; tbl_autofit := true; tbl_columns := [None];
       tbl_rows :=
         [[[OParagraph (text_paragraph (Some "Caption") "[Nested Table Content Below]");
            OParagraph (text_paragraph None "a")]]] |} in
  exists built',
    append_block empty_body (OTable built) = append_block empty_body (OTable built') /\
    flat_table built'.
Proof.
  intros nesting built.
  apply (built_tables_are_flat test2_py ∅ nesting empty_body "out/temp_images"
           empty_world nesting _ empty_world); reflexivity.
Defined.

(** ** The save loop *)

Lemma save_sections_loop output_dir cb sections :
  save_sections output_dir cb sections
  = for_each (zip (seq 0 (length sections)) sections)
      (save_section output_dir cb (length sections)) tt.
Proof. reflexivity. Qed.

Lemma for_each_app {A S} (xs ys : list A) (body : A -> S -> M S) s w :
  for_each (xs ++ ys) body s w
  = match for_each xs body s w with
    | (Ok s', w') => for_each ys body s' w'
    | (Raise e, w') => (Raise e, w')
    end.
Proof.
  revert s w. induction xs as [|x xs IH]; intros s w; simpl; [done|].
  unfold bind. destruct (body x s w) as [[s1|e] w1]; [apply IH|done].
Qed.

Lemma zip_seq_app {A} (k : nat) (xs ys : list A) :
  zip (seq k (length (xs ++ ys))) (xs ++ ys)
  = zip (seq k (length xs)) xs ++ zip (seq (k + length xs) (length ys)) ys.
Proof.
  rewrite length_app, seq_app. apply zip_with_app. by rewrite length_seq.
Qed.

Lemma has_sep_free name : free_of "/" name -> PyStr.has_sep name = false.
Proof.
  unfold free_of, PyStr.has_sep. induction name as [|c name IH]; [done|].
  simpl. intros [Hc H]%Forall_cons. rewrite (IH H), orb_false_r.
  by apply Ascii.eqb_neq.
Qed.

Lemma has_sep_app a s : PyStr.has_sep (a +:+ String "/" s) = true.
Proof.
  unfold PyStr.has_sep. induction a as [|c a IH]; [done|].
  change (existsb (fun c => Ascii.eqb c "/")
            (c :: list_ascii_of_string (a +:+ String "/" s)) = true).
  simpl. rewrite IH. apply orb_true_r.
Qed.

Lemma basename_free name : free_of "/" name -> PyStr.basename name = name.
Proof.
  induction name as [|c name IH]; [done|].
  intros [Hc H]%free_of_cons. simpl. rewrite (has_sep_free _ H).
  by rewrite (proj2 (Ascii.eqb_neq c "/") Hc).
Qed.

Lemma basename_sep a name :
  free_of "/" name -> PyStr.basename (a +:+ String "/" name) = name.
Proof.
  intros Hname. induction a as [|c a IH].
  - simpl. by rewrite (has_sep_free _ Hname).
  - change (PyStr.basename (String c (a +:+ String "/" name)) = name).
    simpl. by rewrite has_sep_app.
Qed.

Lemma rev_app_head a : forall acc acc',
  a <> "" ->
  match String.rev_app a acc with String c _ => Some c | EmptyString => None end
  = match String.rev_app a acc' with String c _ => Some c | EmptyString => None end.
Proof.
  induction a as [|c a IH]; intros acc acc' Hne; [done|]. simpl.
  destruct a as [|d a]; [done|]. by apply IH.
Qed.

Lemma endswith_sep_cons c a :
  PyStr.endswith_sep (String c a)
  = match a with EmptyString => Ascii.eqb c "/" | _ => PyStr.endswith_sep a end.
Proof.
  destruct a as [|d a]; [done|].
  unfold PyStr.endswith_sep, String.rev.
  pose proof (rev_app_head (String d a) (String c "") "" ltac:(done)) as H.
  change (String.rev_app (String c (String d a)) "")
    with (String.rev_app (String d a) (String c "")).
  destruct (String.rev_app (String d a) (String c ""));
    destruct (String.rev_app (String d a) ""); congruence.
Qed.

Lemma endswith_sep_inv a : PyStr.endswith_sep a = true -> exists a0, a = a0 +:+ "/".
Proof.
  induction a as [|c a IH]; [done|]. rewrite endswith_sep_cons.
  destruct a as [|d a].
  - intros ->%Ascii.eqb_eq. by exists "".
  - intros [a0 ->]%IH. by exists (String c a0).
Qed.

(** The file name of a path joined from a directory and a name
    without separators is that name. *)
Lemma basename_join a name :
  free_of "/" name -> name <> "" -> PyStr.basename (PyStr.path_join a name) = name.
Proof.
  intros Hfree Hne. rewrite path_join_relative.
  - destruct (PyStr.truthy a) eqn:Ha; [|destruct a; [by apply basename_free|done]].
    destruct (PyStr.endswith_sep a) eqn:E; cbn [negb orb].
    + apply endswith_sep_inv in E as [a0 ->].
      rewrite append_assoc. by apply basename_sep.
    + by apply basename_sep.
  - intros s ->. by apply free_of_cons in Hfree as [? _].
Qed.

Lemma lies_in_join a name :
  free_of "/" name -> name <> "" -> Os.lies_in (PyStr.path_join a name) a = true.
Proof.
  intros Hfree Hne. unfold Os.lies_in. rewrite basename_join by done.
  apply String.eqb_refl.
Qed.

(** A write into a directory that is there fails only on a directory
    under the path. *)
Lemma write_into d name c w :
  d ∈ dirs w -> free_of "/" name -> name <> "" ->
  Os.write (PyStr.path_join d name) c w
  = if bool_decide (PyStr.path_join d name ∈ dirs w)
    then (Raise IsADirectoryError, w)
    else (Ok tt, Os.with_files w (<[PyStr.path_join d name := c]> (files w))).
Proof.
  intros Hd Hfree Hne. unfold Os.write. rewrite basename_join by done.
  destruct name as [|c0 name]; [done|]. simpl negb. cbv iota.
  rewrite (bool_decide_eq_true_2 (set_Exists _ _)), orb_true_r; [done|].
  exists d. split; [done|]. by apply lies_in_join.
Qed.

Lemma out_name_no_sep i title : free_of "/" (out_name i title).
Proof.
  unfold out_name. apply free_of_app; [by apply format_02d_free|].
  apply free_of_app; [by apply free_of_cons; split; [|constructor]|].
  apply free_of_app.
  - eapply (all_chars_free_of name_char); [done|].
    apply take_all_chars, rstrip_all_chars, (filter_all_chars name_char).
  - vm_compute. repeat constructor; discriminate.
Qed.

Lemma out_name_nonempty i title : out_name i title <> "".
Proof. destruct (out_name_head i title) as (c & s & -> & _). discriminate. Qed.

(** A save into an output directory that is there. *)
Lemma write_out_path output_dir i title c w :
  output_dir ∈ dirs w ->
  Os.write (out_path output_dir i title) c w
  = if bool_decide (out_path output_dir i title ∈ dirs w)
    then (Raise IsADirectoryError, w)
    else (Ok tt, Os.with_files w (<[out_path output_dir i title := c]> (files w))).
Proof.
  intros Hd. apply write_into; [done|apply out_name_no_sep|apply out_name_nonempty].
Qed.

(** The save loop returns when the output directory is there and none
    of its paths is a directory, and it makes no directory. *)
Lemma save_loop_returns output_dir cb total sections : forall k w,
  output_dir ∈ dirs w ->
  (forall i title section_doc,
     sections !! i = Some (title, section_doc) ->
     out_path output_dir (k + i) title ∉ dirs w) ->
  exists w',
    for_each (zip (seq k (length sections)) sections)
      (save_section output_dir cb total) tt w = (Ok tt, w') /\
    dirs w' = dirs w.
Proof.
  induction sections as [|[title section_doc] sections IH]; intros k w Hout Hfree.
  - by exists w.
  - simpl. unfold bind at 1. unfold save_section at 1, bind.
    pose proof (Hfree 0 title section_doc eq_refl) as H0.
    rewrite Nat.add_0_r in H0.
    fold (out_path output_dir k title). rewrite (write_out_path _ _ _ _ _ Hout).
    rewrite (bool_decide_eq_false_2 _ H0).
    destruct cb; simpl.
    + match goal with
      | |- exists w', for_each _ _ tt ?w1 = _ /\ _ =>
          destruct (IH (S k) w1) as (w' & Hrun & Hdirs)
      end; [done| |].
      { intros i t d Hi. replace (S k + i) with (k + S i) by lia.
        by apply (Hfree (S i) t d). }
      exists w'. by split.
    + match goal with
      | |- exists w', for_each _ _ tt ?w1 = _ /\ _ =>
          destruct (IH (S k) w1) as (w' & Hrun & Hdirs)
      end; [done| |].
      { intros i t d Hi. replace (S k + i) with (k + S i) by lia.
        by apply (Hfree (S i) t d). }
      exists w'. by split.
Qed.

(** X5.  When the output directory is there and none of the output paths
    is a directory, the save loop returns: every section is then on
    disk under its own path, whatever the titles are, no other file
    and no directory has changed, and the progress callback, if there
    is one, has been called once per section. *)
Theorem saved_sections_on_disk (output_dir : string) (progress_callback : bool)
    (sections : list (string * OutDoc)) (w : World) :
  output_dir ∈ dirs w ->
  (forall i title section_doc,
     sections !! i = Some (title, section_doc) ->
     out_path output_dir i title ∉ dirs w) ->
  exists w',
    save_sections output_dir progress_callback sections w = (Ok tt, w') /\
    dirs w' = dirs w /\
    (forall i title section_doc,
       sections !! i = Some (title, section_doc) ->
       files w' !! out_path output_dir i title = Some (SavedDocx section_doc)) /\
    (forall p,
       (forall i title section_doc,
          sections !! i = Some (title, section_doc) -> p <> out_path output_dir i title) ->
       files w' !! p = files w !! p) /\
    progress w'
    = progress w ++ (if progress_callback then reports (length sections) else []).
Proof.
  intros Hout Hfree.
  destruct (save_loop_returns output_dir progress_callback (length sections) sections 0 w)
    as (w' & Hrun & Hdirs); [exact Hout|exact Hfree|].
  exists w'. rewrite save_sections_loop. split; [exact Hrun|]. split; [exact Hdirs|].
  destruct (save_loop_files _ _ _ _ _ _ _ Hrun) as [Hsaved Hkept].
  split; [exact Hsaved|]. split; [exact Hkept|].
  apply (save_loop_progress _ _ _ _ _ _ _ Hrun).
Qed.

Lemma saved_sections_on_disk_witness :
  let sections := [("A", new_document); ("A", new_document)] in
  exists w',
    save_sections "out" true sections empty_world = (Ok tt, w') /\
    dirs w' = dirs empty_world /\
    (forall i title section_doc,
       sections !! i = Some (title, section_doc) ->
       files w' !! out_path "out" i title = Some (SavedDocx section_doc)) /\
    (forall p,
       (forall i title section_doc,
          sections !! i = Some (title, section_doc) -> p <> out_path "out" i title) ->
       files w' !! p = files empty_world !! p) /\
    progress w' = progress empty_world ++ reports 2.
Proof.
  intros sections.
  apply (saved_sections_on_disk "out" true sections empty_world).
  - apply (bool_decide_unpack _). vm_compute. exact I.
  - intros [|[|i]] title section_doc Hi; [| |done];
      injection Hi as <- <-; apply (bool_decide_unpack _); vm_compute; exact I.
Defined.

(** X6.  In an output directory that is there, a save that meets a
    directory under its path stops the loop with [IsADirectoryError]:
    the sections before it are on disk and reported, no other file has
    changed, and no later section has been written. *)
Theorem save_stops_at_directory (output_dir : string) (progress_callback : bool)
    (saved : list (string * OutDoc)) (title : string) (section_doc : OutDoc)
    (rest : list (string * OutDoc)) (w : World) :
  let sections := saved ++ (title, section_doc) :: rest in
  output_dir ∈ dirs w ->
  (forall i title section_doc,
     saved !! i = Some (title, section_doc) ->
     out_path output_dir i title ∉ dirs w) ->
  out_path output_dir (length saved) title ∈ dirs w ->
  exists w',
    save_sections output_dir progress_callback sections w = (Raise IsADirectoryError, w') /\
    (forall i title section_doc,
       saved !! i = Some (title, section_doc) ->
       files w' !! out_path output_dir i title = Some (SavedDocx section_doc)) /\
    (forall p,
       (forall i title section_doc,
          saved !! i = Some (title, section_doc) -> p <> out_path output_dir i title) ->
       files w' !! p = files w !! p) /\
    progress w'
    = progress w
      ++ (if progress_callback
          then map (fun i => (i + 1, length sections)) (seq 0 (length saved))
          else []).
Proof.
  intros sections Hout Hfree Hdir.
  destruct (save_loop_returns output_dir progress_callback (length sections) saved 0 w)
    as (w' & Hrun & Hdirs); [exact Hout|exact Hfree|].
  exists w'. split.
  - rewrite save_sections_loop. unfold sections at 1 2.
    rewrite zip_seq_app, for_each_app, Hrun. simpl.
    unfold bind at 1. unfold save_section at 1, bind.
    fold (out_path output_dir (length saved) title).
    rewrite <- Hdirs in Hdir, Hout.
    rewrite (write_out_path _ _ _ _ _ Hout). by rewrite (bool_decide_eq_true_2 _ Hdir).
  - destruct (save_loop_files _ _ _ _ _ _ _ Hrun) as [Hsaved Hkept].
    split; [exact Hsaved|]. split; [exact Hkept|].
    apply (save_loop_progress _ _ _ _ _ _ _ Hrun).
Qed.

Lemma save_stops_at_directory_witness :
  let w := {| dirs := {[ "out"; "out/02_B.docx" ]}; files := ∅;
              progress := []; printed := [] |} in
  let saved := [("A", new_document)] in
  exists w',
    save_sections "out" true (saved ++ [("B", new_document); ("C", new_document)]) w
    = (Raise IsADirectoryError, w') /\
    (forall i title section_doc,
       saved !! i = Some (title, section_doc) ->
       files w' !! out_path "out" i title = Some (SavedDocx section_doc)) /\
    (forall p,
       (forall i title section_doc,
          saved !! i = Some (title, section_doc) -> p <> out_path "out" i title) ->
       files w' !! p = files w !! p) /\
    progress w' = progress w ++ [(1, 3)].
Proof.
  intros w saved.
  apply (save_stops_at_directory "out" true saved "B" new_document
           [("C", new_document)] w).
  - apply (bool_decide_unpack _). vm_compute. exact I.
  - intros [|i] title section_doc Hi; [|done].
    injection Hi as <- <-. apply (bool_decide_unpack _). vm_compute. exact I.
  - apply (bool_decide_unpack _). vm_compute. exact I.
Defined.

(** ** Sources without headings, missing sources, sources without drawings *)

Lemma no_heading_first heading_style b blocks :
  heading_count heading_style (b :: blocks) = 0 -> is_heading heading_style b = false.
Proof.
  unfold heading_count. simpl. by destruct (is_heading heading_style b).
Qed.

(** X19.  A source without any heading is one section, [Introduction], that
    holds all the blocks. *)
Theorem no_heading_one_section (script : Script) (heading_style : string)
    (blocks : list Block) :
  blocks <> [] ->
  heading_count heading_style blocks = 0 ->
  segment_of script heading_style blocks = Ok [("Introduction", blocks)].
Proof.
  intros Hne Hnone.
  destruct (segment_of_cuts script heading_style blocks Hne) as (ss & -> & Hc).
  pose proof (section_indices_length heading_style blocks) as Hlen.
  pose proof (heading_indices_from_length heading_style 0 blocks) as Hlen0.
  rewrite Hnone in Hlen, Hlen0.
  destruct blocks as [|b blocks]; [done|].
  pose proof (no_heading_first _ _ _ Hnone) as Hb.
  unfold leading_count in Hlen. rewrite Hb in Hlen. rewrite Hlen in Hc.
  rewrite section_indices_split, Hb in Hc.
  destruct (heading_indices_from heading_style 0 (b :: blocks)); [|done].
  simpl in Hc.
  inversion Hc as [|i sec turns ss' Hcut Hrest]; subst. inversion Hrest; subst.
  destruct Hcut as (s & e & b' & Hs & He & Hb' & -> & _).
  injection Hs as <-. injection He as <-. injection Hb' as <-.
  do 3 f_equal.
  - unfold section_title. destruct b as [p|t]; [|done]. simpl in Hb. by rewrite Hb.
  - unfold slice. rewrite drop_0. apply take_ge. simpl. lia.
Qed.

Lemma no_heading_one_section_witness :
  segment_of test3_py "Heading 1" [para "x"; para "y"]
  = Ok [("Introduction", [para "x"; para "y"])].
Proof.
  apply (no_heading_one_section test3_py "Heading 1" [para "x"; para "y"]);
    [discriminate|reflexivity].
Defined.

(** X20.  A source path under which there is nothing, the output
    directory being there and the scratch path no file: the pass fails
    with [PackageNotFoundError] when it opens the document; by then
    the scratch directory is made, and it stays. *)
Theorem missing_source_raises (script : Script)
    (docx_path output_dir heading_style : string) (progress_callback : bool)
    (w : World) :
  let temp_img_dir := PyStr.path_join output_dir "temp_images" in
  files w !! docx_path = None -> docx_path ∉ dirs w -> docx_path <> temp_img_dir ->
  output_dir ∈ dirs w -> files w !! output_dir = None ->
  files w !! temp_img_dir = None ->
  exists w',
    split_of script docx_path output_dir heading_style progress_callback w
    = (Raise PackageNotFoundError, w') /\
    files w' = files w /\ progress w' = progress w /\
    output_dir ∈ dirs w' /\ temp_img_dir ∈ dirs w'.
Proof.
  intros temp Hdoc _ _ _ Hout Htemp.
  destruct script; simpl.
  - destruct (ensure_dir_run output_dir w Hout) as (w1 & H1 & Hd1 & _ & Hf1 & Hp1).
    destruct (ensure_dir_run temp w1) as (w2 & H2 & Hd2 & Hsub & Hf2 & Hp2);
      [by rewrite Hf1|].
    exists w2. unfold Test2.split_docx_by_heading_with_images. fold temp.
    rewrite (bind_run _ _ _ _ _ H1), (bind_run _ _ _ _ _ H2).
    unfold bind, open_document. rewrite Hf2, Hf1, Hdoc.
    repeat split; [congruence..|set_solver|done].
  - destruct (makedirs_run output_dir w Hout) as (w1 & H1 & Hd1 & _ & Hf1 & Hp1).
    destruct (makedirs_run temp w1) as (w2 & H2 & Hd2 & Hsub & Hf2 & Hp2);
      [by rewrite Hf1|].
    exists w2. unfold Test3.split_docx_by_heading_with_images. fold temp.
    rewrite (bind_run _ _ _ _ _ H1), (bind_run _ _ _ _ _ H2).
    unfold bind, open_document. rewrite Hf2, Hf1, Hdoc.
    repeat split; [congruence..|set_solver|done].
Qed.

Lemma missing_source_raises_witness :
  let w := {| dirs := {[ "out" ]}; files := ∅; progress := []; printed := [] |} in
  exists w',
    split_of test2_py "in.docx" "out" "Heading 1" true w
    = (Raise PackageNotFoundError, w') /\
    files w' = files w /\ progress w' = progress w /\
    "out" ∈ dirs w' /\ "out/temp_images" ∈ dirs w'.
Proof.
  intros w.
  apply (missing_source_raises test2_py "in.docx" "out" "Heading 1" true w);
    try reflexivity; try discriminate.
Defined.




Lemma makedirs_dirs p w w1 :
  Os.makedirs p w = (Ok tt, w1) -> dirs w1 = {[p]} ∪ dirs w.
Proof. unfold Os.makedirs. destruct (files w !! p); [done|]. by intros [= <-]. Qed.

Lemma ensure_dir_dirs p w w1 :
  Test2.ensure_dir p w = (Ok tt, w1) -> dirs w1 ⊆ {[p]} ∪ dirs w.
Proof.
  unfold Test2.ensure_dir, bind, Os.exists_.
  destruct (_ || _); [intros [= <-]; set_solver|].
  intros H. apply makedirs_dirs in H. by rewrite H.
Qed.




(** Either driver, step by step. *)
Lemma split_of_steps script docx_path output_dir heading_style cb :
  split_of script docx_path output_dir heading_style cb
  = (make_dir script output_dir ;;;
     let temp_img_dir := PyStr.path_join output_dir "temp_images" in
     make_dir script temp_img_dir ;;;
     let* doc := open_document docx_path in
     match src_blocks doc with
     | [] => ret 0
     | _ :: _ =>
         let indices := section_indices heading_style (src_blocks doc) in
         let* sections :=
           build_sections script doc temp_img_dir
             (section_at_of script heading_style (src_blocks doc) indices)
             (seq 0 (length indices - 1)) [] in
         save_sections output_dir cb sections ;;;
         let* there := Os.exists_ temp_img_dir in
         (if there then Os.rmtree temp_img_dir else ret tt) ;;;
         ret (length sections)
     end).
Proof. by destruct script. Qed.

Lemma make_dir_run script p w :
  files w !! p = None ->
  exists w1,
    make_dir script p w = (Ok tt, w1) /\ files w1 = files w /\
    p ∈ dirs w1 /\ dirs w ⊆ dirs w1 /\ dirs w1 ⊆ {[p]} ∪ dirs w.
Proof.
  intros Hp. destruct script; simpl.
  - destruct (ensure_dir_run p w Hp) as (w1 & H1 & Hd & Hs & Hf & _).
    exists w1. repeat split; [done..|]. by eapply ensure_dir_dirs.
  - destruct (makedirs_run p w Hp) as (w1 & H1 & Hd & Hs & Hf & _).
    exists w1. repeat split; [done..|]. by rewrite (makedirs_dirs _ _ _ H1).
Qed.



(** ** The turns of the main loop and the documents they build *)

Lemma boundary_le heading_style blocks j x :
  blocks <> [] ->
  section_indices heading_style blocks !! j = Some x -> x <= length blocks.
Proof.
  intros Hne Hj.
  destruct (section_indices_boundaries heading_style blocks Hne) as [Hsorted _ Hlast].
  pose proof (lookup_lt_Some _ _ _ Hj) as Hlen.
  destruct (decide (j = length (section_indices heading_style blocks) - 1)) as [->|Hneq].
  - rewrite Hlast in Hj. injection Hj. lia.
  - assert (j < length (section_indices heading_style blocks) - 1) as Hlt by lia.
    pose proof (sorted_lookup_lt _ _ _ _ _ Hsorted Hlt Hj Hlast). lia.
Qed.

(** X22.  No turn of the main loop meets an empty range: the boundaries
    rise strictly, so the [continue] of [test3.py] is never taken and
    [section_blocks[0]] never fails in [test2.py]; turn by turn the two
    loops form the same section. *)
Theorem no_turn_is_empty (heading_style : string) (blocks : list Block) (i : nat) :
  let indices := section_indices heading_style blocks in
  blocks <> [] -> i < length indices - 1 ->
  exists start end_ first_block rest,
    indices !! i = Some start /\ indices !! (i + 1) = Some end_ /\ start < end_ /\
    slice start end_ blocks = first_block :: rest /\
    Test2.section_at heading_style blocks indices i
    = Ok (Some (section_title heading_style i first_block, first_block :: rest)) /\
    Test3.section_at heading_style blocks indices i
    = Ok (Some (section_title heading_style i first_block, first_block :: rest)).
Proof.
  intros indices Hne Hi.
  destruct (section_indices_boundaries heading_style blocks Hne) as [Hsorted _ _].
  destruct (lookup_lt_is_Some_2 indices i) as [s Hs]; [lia|].
  destruct (lookup_lt_is_Some_2 indices (i + 1)) as [e He]; [lia|].
  assert (i < i + 1) as Hii by lia.
  pose proof (sorted_lookup_lt _ _ _ _ _ Hsorted Hii Hs He) as Hlt.
  pose proof (boundary_le heading_style blocks _ _ Hne He) as Hle.
  destruct (slice_cons s e blocks Hlt Hle) as (b & rest & Hsl & _).
  exists s, e, b, rest. repeat (split; [done|]). split.
  - by apply (Test2_cuts heading_style blocks indices i s e).
  - by apply (Test3_cuts heading_style blocks indices i s e).
Qed.

Lemma no_turn_is_empty_witness :
  exists start end_ first_block rest,
    section_indices "Heading 1" five_blocks !! 1 = Some start /\
    section_indices "Heading 1" five_blocks !! (1 + 1) = Some end_ /\ start < end_ /\
    slice start end_ five_blocks = first_block :: rest /\
    Test2.section_at "Heading 1" five_blocks (section_indices "Heading 1" five_blocks) 1
    = Ok (Some (section_title "Heading 1" 1 first_block, first_block :: rest)) /\
    Test3.section_at "Heading 1" five_blocks (section_indices "Heading 1" five_blocks) 1
    = Ok (Some (section_title "Heading 1" 1 first_block, first_block :: rest)).
Proof.
  apply (no_turn_is_empty "Heading 1" five_blocks 1); [discriminate|simpl; lia].
Defined.

Lemma replay_shape script parts temp section_blocks : forall seen current_doc w r w',
  for_each section_blocks
    (fun block '(seen, current_doc) =>
       match block with
       | BParagraph p =>
           let* (p', current_doc) :=
             copy_paragraph_of script parts p current_doc temp in
           ret (seen ++ [BParagraph p'], current_doc)
       | BTable t =>
           let* (t', current_doc) :=
             copy_table (copy_paragraph_of script) parts t current_doc temp in
           ret (seen ++ [BTable t'], current_doc)
       end)
    (seen, current_doc) w = (Ok r, w') ->
  kind current_doc = IsDocument ->
  exists built,
    content r.2 = content current_doc ++ built /\
    Forall2 same_kind section_blocks built.
Proof.
  induction section_blocks as [|block section_blocks IH];
    intros seen c w r w' H Hkind; simpl in H.
  - injection H as <- _. exists []. by rewrite app_nil_r.
  - apply bind_Ok in H as ([seen1 c1] & w1 & Hbody & Hrest).
    destruct block as [p|t].
    + apply bind_Ok in Hbody as ([p' c2] & w2 & Hcopy & Hret).
      injection Hret as _ <- _.
      apply copy_paragraph_appends in Hcopy as [q ->].
      apply IH in Hrest as (built & -> & Hall); [|done].
      exists (OParagraph q :: built). simpl. rewrite <- app_assoc.
      split; [done|]. by constructor.
    + apply bind_Ok in Hbody as ([t' c2] & w2 & Hcopy & Hret).
      injection Hret as _ <- _.
      apply copy_table_document_Ok in Hcopy as (rows & -> & _); [|done].
      apply IH in Hrest as (built & -> & Hall); [|done].
      eexists (OTable _ :: built). simpl. rewrite <- app_assoc.
      split; [done|]. by constructor.
Qed.

Lemma build_section_shape script doc temp section_blocks w d w' :
  build_section (copy_paragraph_of script) doc temp section_blocks w = (Ok d, w') ->
  Forall2 same_kind section_blocks (out_blocks d).
Proof.
  unfold build_section, replay. intros H.
  apply bind_Ok in H as ([seen body] & w1 & Hreplay & Hret). injection Hret as <- _.
  apply replay_shape in Hreplay as (built & Hc & Hall); [|done].
  simpl in *. rewrite Hc. unfold copy_geometry.
  by destruct (src_sections doc).
Qed.

(** What the loop has built when every document stands in [R] to the
    blocks of its section. *)
Lemma build_sections_related (R : list Block -> OutDoc -> Prop) script doc temp sa turns :
  (forall section_blocks w d w',
     build_section (copy_paragraph_of script) doc temp section_blocks w = (Ok d, w') ->
     R section_blocks d) ->
  forall acc w out w',
    build_sections script doc temp sa turns acc w = (Ok out, w') ->
    exists ss docs,
      collect_sections sa turns = Ok ss /\
      out = acc ++ zip (fst <$> ss) docs /\
      Forall2 (fun (sec : Section_) d => R sec.2 d) ss docs.
Proof.
  intros HR. induction turns as [|i turns IH]; intros acc w out w' H.
  - injection H as <- _. exists [], []. by rewrite app_nil_r.
  - unfold build_sections in H. simpl in H.
    apply bind_Ok in H as (acc1 & w1 & Hbody & Hrest).
    apply bind_Ok in Hbody as (found & w0 & Hsa & Hbody).
    unfold lift in Hsa. injection Hsa as Hsa <-.
    apply IH in Hrest as (ss & docs & Hss & -> & Hall).
    simpl. rewrite Hsa, Hss. destruct found as [[title section_blocks]|].
    + apply bind_Ok in Hbody as (d & w2 & Hd & Hret). injection Hret as <- _.
      exists ((title, section_blocks) :: ss), (d :: docs).
      split; [done|]. split.
      * simpl. by rewrite <- app_assoc.
      * constructor; [|done]. by eapply HR.
    + injection Hbody as <- _. by exists ss, docs.
Qed.

(** X23.  In a pass that returns, the document of a section holds one block
    for each block of the section, in order: a paragraph for a
    paragraph, a table for a table. *)
Theorem section_documents_follow_blocks (script : Script)
    (docx_path output_dir heading_style : string) (progress_callback : bool)
    (w : World) (doc : SourceDoc) (n : nat) (w' : World) :
  files w !! docx_path = Some (SourceDocx doc) ->
  src_blocks doc <> [] ->
  split_of script docx_path output_dir heading_style progress_callback w = (Ok n, w') ->
  exists sections,
    segment_of script heading_style (src_blocks doc) = Ok sections /\
    forall i title section_blocks,
      sections !! i = Some (title, section_blocks) ->
      exists section_doc,
        files w' !! out_path output_dir i title = Some (SavedDocx section_doc) /\
        Forall2 same_kind section_blocks (out_blocks section_doc).
Proof.
  intros Hdoc Hne Hrun.
  destruct (pass_steps _ _ _ _ _ _ _ _ _ Hdoc Hne Hrun)
    as (w2 & out & w3 & w4 & _ & _ & Hloop & Hsave & Hrm & _).
  apply (build_sections_related (fun bs d => Forall2 same_kind bs (out_blocks d)))
    in Hloop as (ss & docs & Hss & Hout & Hall);
    [|intros bs w0 d w0' Hd; by eapply build_section_shape].
  simpl in Hout. apply rmtree_Ok in Hrm as [_ Hf'].
  exists ss. rewrite segment_of_collect. split; [done|].
  intros i title section_blocks Hi.
  destruct (Forall2_lookup_l _ _ _ _ _ Hall Hi) as (d & Hd & Hshape).
  exists d. split; [|done]. unfold out_path.
  rewrite Hf' by apply out_path_outside_scratch.
  apply (save_sections_keeps_all _ _ _ _ _ Hsave). subst out.
  apply lookup_zip_with_Some. exists title, d. split; [done|]. split; [|done].
  rewrite list_lookup_fmap. unfold Section_ in Hi. by rewrite Hi.
Qed.

Lemma section_documents_follow_blocks_witness :
  let w' := (split_of test2_py "in.docx" "out" "Heading 1" false
               (world_with (source_of five_blocks))).2 in
  exists sections,
    segment_of test2_py "Heading 1" five_blocks = Ok sections /\
    forall i title section_blocks,
      sections !! i = Some (title, section_blocks) ->
      exists section_doc,
        files w' !! out_path "out" i title = Some (SavedDocx section_doc) /\
        Forall2 same_kind section_blocks (out_blocks section_doc).
Proof.
  apply (section_documents_follow_blocks test2_py "in.docx" "out" "Heading 1" false
           (world_with (source_of five_blocks)) (source_of five_blocks) 3).
  - reflexivity.
  - discriminate.
  - vm_compute. reflexivity.
Defined.

(** ** A failed pass *)

Lemma bind_Raise {A B} (m : M A) (k : A -> M B) w e w' :
  bind m k w = (Raise e, w') ->
  m w = (Raise e, w') \/ exists a w1, m w = (Ok a, w1) /\ k a w1 = (Raise e, w').
Proof.
  unfold bind. destruct (m w) as [[a|e1] w1]; intros H; [right; eauto|left; by injection H as -> ->].
Qed.

(** Where a computation that keeps [P] has stopped, [P] holds. *)
Lemma preserves_run {A} (P : World -> Prop) (m : M A) w r w' :
  preserves P m -> P w -> m w = (r, w') -> P w'.
Proof. intros Hm Hw Hrun. specialize (Hm w Hw). by rewrite Hrun in Hm. Qed.

Lemma rmtree_Raise p w e w' : Os.rmtree p w = (Raise e, w') -> w' = w.
Proof.
  unfold Os.rmtree. case_bool_decide; [done|].
  by destruct (files w !! p); intros [= _ <-].
Qed.

(** A scratch directory that exists has not been removed. *)
Lemma scratch_in_place output_dir w :
  path_exists (PyStr.path_join output_dir "temp_images") w ->
  ~ scratch_removed output_dir w.
Proof.
  intros Hex Hrm.
  destruct (Hrm (PyStr.path_join output_dir "temp_images")) as [Hd Hf].
  { unfold Os.under. by rewrite String.eqb_refl. }
  destruct Hex as [Hex|[f Hex]]; [done|congruence].
Qed.

(** C7.  Neither script releases the scratch directory on a failure: the
    only [rmtree] is the statement before the [return].  A pass into
    an output directory that is there, the scratch path being no file,
    that ends in an exception leaves the scratch directory in place. *)
Theorem failed_pass_keeps_scratch (script : Script)
    (docx_path output_dir heading_style : string) (progress_callback : bool)
    (w : World) (e : Exn) (w' : World) :
  let temp_img_dir := PyStr.path_join output_dir "temp_images" in
  output_dir ∈ dirs w -> files w !! output_dir = None ->
  files w !! temp_img_dir = None ->
  split_of script docx_path output_dir heading_style progress_callback w = (Raise e, w') ->
  path_exists temp_img_dir w' /\ ~ scratch_removed output_dir w'.
Proof.
  intros temp _ Hout Htemp Hrun.
  assert (path_exists temp w') as Hex; [|split; [done|by apply scratch_in_place]].
  rewrite split_of_steps in Hrun. cbv zeta in Hrun. fold temp in Hrun.
  destruct (make_dir_run script output_dir w Hout) as (w1 & H1 & Hf1 & _).
  destruct (make_dir_run script temp w1) as (w2 & H2 & _ & Hd2 & _);
    [by rewrite Hf1|].
  rewrite (bind_run _ _ _ _ _ H1), (bind_run _ _ _ _ _ H2) in Hrun.
  assert (path_exists temp w2) as Hex2 by (by left).
  apply bind_Raise in Hrun as [Hopen|(doc & w3 & Hopen & Hrun)].
  { unfold open_document in Hopen.
    by destruct (files w2 !! docx_path) as [[]|]; injection Hopen as _ <-. }
  assert (w3 = w2) as ->.
  { unfold open_document in Hopen.
    by destruct (files w2 !! docx_path) as [[]|]; injection Hopen as _ <-. }
  destruct (src_blocks doc) as [|b blocks]; [done|].
  apply bind_Raise in Hrun as [Hbuild|(sections & w4 & Hbuild & Hrun)].
  { eapply preserves_run; [|exact Hex2|exact Hbuild].
    apply preserves_build_sections. intros. apply exists_copy_paragraph. }
  assert (path_exists temp w4) as Hex4.
  { eapply preserves_run; [|exact Hex2|exact Hbuild].
    apply preserves_build_sections. intros. apply exists_copy_paragraph. }
  apply bind_Raise in Hrun as [Hsave|([] & w5 & Hsave & Hrun)].
  { eapply preserves_run; [apply exists_save_sections|exact Hex4|exact Hsave]. }
  assert (path_exists temp w5) as Hex5.
  { eapply preserves_run; [apply exists_save_sections|exact Hex4|exact Hsave]. }
  rewrite (bind_run _ _ _ _ _ (exists_true _ _ Hex5)) in Hrun.
  apply bind_Raise in Hrun as [Hrm|([] & w6 & _ & Hret)]; [|done].
  apply rmtree_Raise in Hrm. by subst w'.
Qed.

Lemma failed_pass_keeps_scratch_witness :
  let run script :=
    split_of script "in.docx" "out" "Heading 1" true
      (world_blocked (source_of [heading1 "A"; para "x"])) in
  ((run test2_py).1 = Raise IsADirectoryError /\
   path_exists "out/temp_images" (run test2_py).2 /\
   ~ scratch_removed "out" (run test2_py).2) /\
  ((run test3_py).1 = Raise IsADirectoryError /\
   path_exists "out/temp_images" (run test3_py).2 /\
   ~ scratch_removed "out" (run test3_py).2).
Proof.
  intros run.
  split; (split; [vm_compute; reflexivity|]).
  - apply (failed_pass_keeps_scratch test2_py "in.docx" "out" "Heading 1" true
             (world_blocked (source_of [heading1 "A"; para "x"])) IsADirectoryError
             (run test2_py).2).
    + apply (bool_decide_unpack _). vm_compute. exact I.
    + reflexivity.
    + reflexivity.
    + vm_compute. reflexivity.
  - apply (failed_pass_keeps_scratch test3_py "in.docx" "out" "Heading 1" true
             (world_blocked (source_of [heading1 "A"; para "x"])) IsADirectoryError
             (run test3_py).2).
    + apply (bool_decide_unpack _). vm_compute. exact I.
    + reflexivity.
    + reflexivity.
    + vm_compute. reflexivity.
Defined.

(** ** Images *)

(** C8.  A drawing whose blip leads to an image part is never reproduced
    as a picture, whatever extent it declares: both scripts read
    [default_ext] off the part, an attribute python-docx's [ImagePart]
    does not have.  In [test3.py] the [AttributeError] passes
    [except KeyError] and ends the copy; in [test2.py] it is caught, a
    warning is printed and the paragraph stays as it was.  Nothing is
    staged in either script. *)
Theorem resolved_image_is_not_copied (parts : gmap string Part) (temp_img_dir : string)
    (drawing : Drawing) (rId : string) (rest : list (option string))
    (image_bytes : string) (target_para : OutParagraph) (w : World) :
  blips drawing = Some rId :: rest -> rId <> "" ->
  parts !! rId = Some (ImagePart image_bytes) ->
  Test3.copy_drawing parts temp_img_dir drawing target_para w = (Raise AttributeError, w) /\
  Test2.copy_blip parts temp_img_dir drawing (Some rId) target_para w
  = (Ok target_para, warned [rId] w).
Proof.
  intros Hb Hr Hp. split.
  - apply Test3_copy_drawing_image. unfold failure_of.
    by rewrite Hb, (truthy_attr_Some _ Hr), Hp.
  - rewrite Test2_copy_blip_cases. by rewrite (truthy_attr_Some _ Hr).
Qed.

Lemma resolved_image_is_not_copied_witness :
  let drawing := linked_drawing (Some {| cx := Some "914400" |}) in
  Test3.copy_drawing image_parts "out/temp_images" drawing empty_paragraph empty_world
  = (Raise AttributeError, empty_world) /\
  Test2.copy_blip image_parts "out/temp_images" drawing (Some "rId7") empty_paragraph
    empty_world
  = (Ok empty_paragraph, warned ["rId7"] empty_world).
Proof.
  apply (resolved_image_is_not_copied image_parts "out/temp_images"
           (linked_drawing (Some {| cx := Some "914400" |})) "rId7" [] "PNGDATA"
           empty_paragraph empty_world); [reflexivity|discriminate|reflexivity].
Defined.

Lemma warned_nil w : warned [] w = w.
Proof. destruct w. unfold warned. simpl. by rewrite app_nil_r. Qed.

Lemma warned_app ids1 ids2 w : warned ids2 (warned ids1 w) = warned (ids1 ++ ids2) w.
Proof. unfold warned. simpl. by rewrite map_app, app_assoc. Qed.

(** A loop whose turns return, each printing its own warnings. *)
Lemma for_each_warned {A S} (ids : A -> list string) (f : A -> S -> S)
    (xs : list A) (body : A -> S -> M S) :
  (forall x s w, body x s w = (Ok (f x s), warned (ids x) w)) ->
  forall s w,
    for_each xs body s w
    = (Ok (fold_left (fun s x => f x s) xs s), warned (flat_map ids xs) w).
Proof.
  intros Hbody. induction xs as [|x xs IH]; intros s w; simpl.
  - by rewrite warned_nil.
  - unfold bind. by rewrite Hbody, IH, warned_app.
Qed.

Lemma Test2_copy_blip_warned parts temp_img_dir drawing blip target_para w :
  Test2.copy_blip parts temp_img_dir drawing blip target_para w
  = (Ok target_para, warned (option_list (truthy_attr blip)) w).
Proof.
  rewrite Test2_copy_blip_cases. destruct (truthy_attr blip); [done|].
  by rewrite warned_nil.
Qed.

Lemma flat_map_option_list {A B} (f : A -> option B) (xs : list A) :
  flat_map (fun x => option_list (f x)) xs = omap f xs.
Proof.
  induction xs as [|x xs IH]; [done|]. simpl. rewrite IH. by destruct (f x).
Qed.

(** The run loop of [test2.py]: the runs are copied, the blips of their
    drawings leave warnings and nothing else. *)
Lemma Test2_runs_loop parts temp_img_dir rs target_para w :
  for_each rs
    (fun run target_para =>
       let target_para := add_run target_para (copy_run run) in
       for_each (drawings run)
         (fun drawing target_para =>
            for_each (blips drawing) (Test2.copy_blip parts temp_img_dir drawing)
              target_para)
         target_para)
    target_para w
  = (Ok (fold_left (fun target_para run => add_run target_para (copy_run run))
           rs target_para),
     warned (flat_map (fun run =>
                         flat_map (fun d => omap truthy_attr (blips d)) (drawings run))
               rs) w).
Proof.
  apply (for_each_warned
           (fun run => flat_map (fun d => omap truthy_attr (blips d)) (drawings run))
           (fun run target_para => add_run target_para (copy_run run))).
  intros run s w1. cbv zeta.
  rewrite (for_each_warned (fun d => omap truthy_attr (blips d)) (fun _ s => s)).
  - by rewrite fold_left_id.
  - intros d s1 w2.
    rewrite (for_each_warned (fun blip => option_list (truthy_attr blip)) (fun _ s => s)).
    + by rewrite fold_left_id, flat_map_option_list.
    + intros blip s2 w3. apply Test2_copy_blip_warned.
Qed.

Lemma Test2_copy_paragraph_run parts source_para target temp_img_dir w :
  exists source_para',
    Test2.copy_paragraph parts source_para target temp_img_dir w
    = (Ok (source_para',
           append_block target
             (OParagraph
                (if taken_as_empty test2_py source_para then empty_paragraph
                 else {| out_pPr := Some (copied_pPr source_para);
                         out_runs := map copy_run (runs source_para) |}))),
       warned (blip_ids source_para) w) /\
    runs source_para' = runs source_para.
Proof.
  destruct (copy_numbering_start source_para) as (Hppr & Hnil & Hruns).
  unfold Test2.copy_paragraph, taken_as_empty, blip_ids.
  destruct (negb _ && _) eqn:Hempty.
  - exists source_para. split; [|done].
    apply andb_true_iff in Hempty as [_ Hnone].
    destruct (runs source_para); [|done]. simpl. by rewrite warned_nil.
  - destruct (copy_numbering _ _) as [sp tp]. simpl in Hppr, Hnil, Hruns.
    exists sp. split; [|done].
    unfold bind. rewrite Test2_runs_loop, add_copied_runs, Hppr, Hnil. reflexivity.
Qed.

(** X25.  [test2.py] copies every paragraph and never a picture: the copy
    returns whatever the paragraph and the relationship table hold,
    the paragraph built has the copies of the source runs and no run
    more, and the world differs by one printed warning for each blip
    that carries a relationship id. *)
Theorem Test2_copy_never_fails (parts : gmap string Part) (source_para : Paragraph)
    (target : Container) (temp_img_dir : string) (w : World) :
  let target_para :=
    if taken_as_empty test2_py source_para then empty_paragraph
    else {| out_pPr := Some (copied_pPr source_para);
            out_runs := map copy_run (runs source_para) |} in
  exists source_para',
    Test2.copy_paragraph parts source_para target temp_img_dir w
    = (Ok (source_para', append_block target (OParagraph target_para)),
       warned (blip_ids source_para) w) /\
    runs source_para' = runs source_para.
Proof. apply Test2_copy_paragraph_run. Qed.








(** ** The copiers and the file system *)

Lemma same_fs_refl w : same_fs w w.
Proof. by repeat split. Qed.

Lemma same_fs_warned w0 ids w : same_fs w0 w -> same_fs w0 (warned ids w).
Proof. by intros (? & ? & ?). Qed.

Lemma same_fs_copy_paragraph w0 script parts para t temp :
  preserves (same_fs w0) (copy_paragraph_of script parts para t temp).
Proof.
  intros w Hw. destruct script; simpl.
  - destruct (Test2_copy_paragraph_run parts para t temp w) as (p' & -> & _).
    by apply same_fs_warned.
  - unfold Test3.copy_paragraph.
    destruct (negb _ && _); [done|]. destruct (copy_numbering _ _) as [sp tp].
    apply preserves_bind; [|by intros a w1|done].
    apply preserves_for_each. intros run s. apply preserves_for_each.
    intros d s1 w1 Hw1. by rewrite Test3_copy_drawing_cases; destruct (failure_of parts d).
Qed.

(** X27.  Neither copier touches the file system, however it ends: the
    staging of an image and [add_picture] are never reached, so the
    directories, the files and the progress reports stay as they are,
    in either script. *)
Theorem copiers_leave_files (script : Script) (parts : gmap string Part)
    (temp_img_dir : string) (w : World) :
  (forall source_para target,
     same_fs w (copy_paragraph_of script parts source_para target temp_img_dir w).2) /\
  (forall source_table target,
     same_fs w (copy_table (copy_paragraph_of script) parts source_table target
                  temp_img_dir w).2).
Proof.
  split.
  - intros p t. apply same_fs_copy_paragraph, same_fs_refl.
  - intros t target. apply preserves_copy_table; [|apply same_fs_refl].
    intros. apply same_fs_copy_paragraph.
Qed.

(** ** Rows longer than the grid *)





(** ** A pass of [test3.py] over a source with a picture *)


Section RaisesOnly.

Variable E : Exn -> Prop.




End RaisesOnly.








